(** * Mi Pago backend: financial operations core

    A shallow embedding of the services, repositories and handlers of the
    wallet backend (credits, transfers, account security, KYC) and the
    properties established about them.

    Conventions of the embedding.
    - A JavaScript [number] holding money, rates or terms is an exact
      rational ([Q]); integer counters (attempts, installment counts) and
      [Date]s (milliseconds since the epoch) are [Z].  Exact arithmetic and
      IEEE doubles part ways where a product sits on a rounding tie (such
      as 110 * 1.15 under [Math.round]); no statement below depends on such
      a value.
    - The persistent store is an in-memory value [DB]: one finite map per
      table that has a primary key, one list per table without.  The store
      itself never fails; the only failures are the ones the code raises.
    - An [async] method that touches the store is a computation in the
      monad [M]: it receives the store and returns either a thrown
      [AppError] or a value, together with the store as it is at that point
      (writes made before a [throw] persist, as they do in the source).
    - The clock ([Date.now()], [new Date()]) and fresh identifiers
      ([uuidv4()]) are explicit arguments. *)

From Stdlib Require Import QArith Qround Qabs Lqa ZArith Lia String Ascii List.
From stdpp Require Import gmap strings list sorting pretty.

Open Scope string_scope.
Open Scope list_scope.
Open Scope Z_scope.

(** ** Numbers *)

(** [a < b] and [a <= b] on numbers, as booleans. *)
Definition Qltb (x y : Q) : bool := negb (Qle_bool y x).
Definition Qleb (x y : Q) : bool := Qle_bool x y.

(** [Math.round]: nearest integer, halves towards plus infinity. *)
Definition Math_round (x : Q) : Q := inject_Z (Qfloor (x + (1 # 2))).
Definition Math_ceil (x : Q) : Z := Qceiling x.
Definition Math_floor (x : Q) : Z := Qfloor x.
Definition Math_max (x y : Q) : Q := if Qle_bool x y then y else x.

(** ** Errors (errors/AppError) *)

(** A template literal is kept as its fragments: literal text, the numbers
    interpolated into it, and text that comes from the database client,
    which is named rather than reproduced. *)
Inductive Frag : Type :=
| Str (s : string)
| Num (q : Q)
| ClientError (what : string).

Inductive AppError : Type :=
| ValidationError (message : list Frag)
| NotFoundError (message : list Frag)
| UnauthorizedError (message : list Frag)
| InsufficientFundsError (message : list Frag)
| DatabaseError (message : list Frag)
| Error (message : list Frag).

Definition message (e : AppError) : list Frag :=
  match e with
  | ValidationError m | NotFoundError m | UnauthorizedError m
  | InsufficientFundsError m | DatabaseError m | Error m => m
  end.

(** [`${error}`]: none of the classes overrides [name]. *)
Definition error_toString (e : AppError) : list Frag := Str "Error: " :: message e.

Definition isNotFoundError (e : AppError) : bool :=
  match e with NotFoundError _ => true | _ => false end.

(** ** Types (types/index) *)

Module CreditType.
Inductive t : Type := QUICK | NORMAL.
End CreditType.

Module CreditStatus.
Inductive t : Type :=
  PREAPPROVED | APPROVED | DISBURSED | IN_PROGRESS | PAID | DEFAULT | CANCELED.
End CreditStatus.

Module InstallmentStatus.
Inductive t : Type := PENDING | PAID | UNPAID | RETRYING.
End InstallmentStatus.

Module TransferStatus.
Inductive t : Type := PENDIENTE | EN_PROCESO | ACREDITADA | FALLIDA.
Definition eqb (a b : t) : bool :=
  match a, b with
  | PENDIENTE, PENDIENTE | EN_PROCESO, EN_PROCESO
  | ACREDITADA, ACREDITADA | FALLIDA, FALLIDA => true
  | _, _ => false
  end.
End TransferStatus.

Module KYCStatus.
Inductive t : Type := PENDIENTE | EN_REVISION | APROBADO | RECHAZADO.
End KYCStatus.

Module TipoDocumento.
Inductive t : Type := dni | selfie | comprobante_domicilio.
Definition eqb (a b : t) : bool :=
  match a, b with
  | dni, dni | selfie, selfie | comprobante_domicilio, comprobante_domicilio => true
  | _, _ => false
  end.
End TipoDocumento.

Module Credit.
Record t : Type := mk {
  id_credito : string;
  usuario_id : string;
  tipo_credito : CreditType.t;
  monto_solicitado : Q;
  monto_total : Q;
  plazo_dias : Q;
  tasa_tea : Q;
  tasa_cft : Q;
  estado : CreditStatus.t;
  fecha_desembolso : option Z;
  fecha_vencimiento : Z;
  cuotas : Q;
  fecha_creacion : Z;
  fecha_actualizacion : Z }.
End Credit.

Module Installment.
Record t : Type := mk {
  id_cuota : string;
  id_credito : string;
  nro_cuota : Z;
  importe_cuota : Q;
  fecha_vencimiento : Z;
  estado : InstallmentStatus.t;
  fecha_pago : option Z }.
End Installment.

Module UserAccount.
Record t : Type := mk {
  usuario_id : string;
  email : option string;
  password_hash : option string;
  kyc_completo : bool;
  kyc_status : option KYCStatus.t;
  fecha_registro : Z;
  saldo_disponible : Q;
  ingresos_declarados : option Q;
  historial_mora : bool;
  score_externo : option Q;
  bloqueado : bool;
  intentos_fallidos : Z;
  fecha_proximo_intento : option Z;
  limite_transferencia : option Q;
  fecha_actualizacion : Z }.
End UserAccount.

Module InstallmentPlan.
Record t : Type := mk {
  nro_cuota : Z;
  importe : Q;
  fecha_vencimiento : Z }.
End InstallmentPlan.

Module CreditCalculation.
Record t : Type := mk {
  monto_faltante : Q;
  tasa_tea : Q;
  tasa_cft : Q;
  monto_intereses : Q;
  gastos_administrativos : Q;
  monto_total : Q;
  plan_cuotas : list InstallmentPlan.t }.
End CreditCalculation.

Module CreditEligibility.
Record t : Type := mk {
  es_elegible : bool;
  razon_rechazo : option (list Frag);
  monto_maximo : option Q }.
End CreditEligibility.

Module CreditRequest.
Record t : Type := mk {
  usuario_id : string;
  tipo_credito : CreditType.t;
  monto_solicitado : Q;
  plazo_dias : Q }.
End CreditRequest.

Module CreditSimulation.
Record t : Type := mk {
  tipo_credito : CreditType.t;
  monto_solicitado : Q;
  plazo_dias : Q;
  cuotas_totales : Q;
  tasa_tea : Q;
  tasa_cft : Q;
  monto_total : Q;
  costo_financiero : Q;
  plan_cuotas : list InstallmentPlan.t }.
End CreditSimulation.

Module BankingAPIResponse.
Record t : Type := mk {
  exito : bool;
  transaccion_id : option string;
  monto : Q;
  fecha : Z;
  saldo_resultante : Q;
  razon_fallo : option (list Frag) }.
End BankingAPIResponse.

Module Transfer.
Record t : Type := mk {
  id_transferencia : string;
  usuario_id_origen : string;
  usuario_id_destino : option string;
  cbu_destino : option string;
  monto : Q;
  referencia : option string;
  estado : TransferStatus.t;
  fecha_creacion : Z }.
End Transfer.

Module KYCDocument.
Record t : Type := mk {
  id_documento : string;
  usuario_id : string;
  tipo_documento : TipoDocumento.t;
  url_documento : string;
  fecha_carga : Z;
  estado_validacion : KYCStatus.t;
  motivo_rechazo : option string }.
End KYCDocument.

Module PasswordResetToken.
Record t : Type := mk {
  token : string;
  usuario_id : string;
  fecha_creacion : Z;
  fecha_vencimiento : Z;
  utilizado : bool;
  fecha_utilizacion : option Z }.
End PasswordResetToken.

Module CBUValidationResult.
Record t : Type := mk {
  es_valido : bool;
  banco : option string;
  alias : option string;
  cbu : string;
  activo : bool;
  razon_invalido : option string }.
End CBUValidationResult.

Module ExternalTransferRequest.
Record t : Type := mk {
  usuario_id : string;
  cbu_destino : string;
  alias_destino : option string;
  monto : Q;
  referencia : option string }.
End ExternalTransferRequest.

Module Comprobante.
Record t : Type := mk {
  numero : string;
  fecha : Z;
  referencia : option string }.
End Comprobante.

Module ExternalTransferResult.
Record t : Type := mk {
  exito : bool;
  id_transferencia : string;
  cbu_origen : string;
  cbu_destino : string;
  monto : Q;
  transaccion_numero : string;
  fecha_transaccion : Z;
  estado : TransferStatus.t;
  razon_fallo : option (list Frag);
  comprobante : option Comprobante.t }.
End ExternalTransferResult.

(** ** The store (the Supabase tables the repositories read and write) *)

Record DB : Type := mkDB {
  user_accounts : gmap string UserAccount.t;          (* key: usuario_id *)
  creditos : gmap string Credit.t;                    (* key: id_credito *)
  cuotas : list Installment.t;
  kyc_documents : list KYCDocument.t;
  password_reset_tokens : gmap string PasswordResetToken.t;  (* key: token *)
  transferencias : list Transfer.t }.

Definition with_user_accounts (m : gmap string UserAccount.t) (db : DB) : DB :=
  mkDB m (creditos db) (cuotas db) (kyc_documents db)
       (password_reset_tokens db) (transferencias db).

Definition with_creditos (m : gmap string Credit.t) (db : DB) : DB :=
  mkDB (user_accounts db) m (cuotas db) (kyc_documents db)
       (password_reset_tokens db) (transferencias db).

Definition with_cuotas (l : list Installment.t) (db : DB) : DB :=
  mkDB (user_accounts db) (creditos db) l (kyc_documents db)
       (password_reset_tokens db) (transferencias db).

Definition with_password_reset_tokens
    (m : gmap string PasswordResetToken.t) (db : DB) : DB :=
  mkDB (user_accounts db) (creditos db) (cuotas db) (kyc_documents db)
       m (transferencias db).

(** ** The monad of store operations *)

Definition Res (A : Type) : Type := (AppError + A)%type.
Definition M (A : Type) : Type := DB → Res A * DB.

Definition ret {A} (x : A) : M A := λ db, (inr x, db).
Definition throw {A} (e : AppError) : M A := λ db, (inl e, db).
Definition lift {A} (r : Res A) : M A := λ db, (r, db).

Definition bind {A B} (m : M A) (f : A → M B) : M B :=
  λ db, match m db with
        | (inl e, db') => (inl e, db')
        | (inr x, db') => f x db'
        end.

(** [try { body } catch (error) { handler }] *)
Definition try_catch {A} (body : M A) (handler : AppError → M A) : M A :=
  λ db, match body db with
        | (inl e, db') => handler e db'
        | (inr x, db') => (inr x, db')
        end.

Notation "'let*' x ':=' c 'in' k" := (bind c (λ x, k))
  (at level 10, x name, c at level 100, k at level 200).
Notation "c ';;;' k" := (bind c (λ _, k))
  (at level 100, k at level 200, right associativity).

(** The [catch] block shared by the repository methods:
    [if (error instanceof NotFoundError) throw error;
     throw new DatabaseError(`<prefix>${error}`)]. *)
Definition rethrow {A} (prefix : string) (e : AppError) : M A :=
  if isNotFoundError e then throw e
  else throw (DatabaseError (Str prefix :: error_toString e)).

(** ** Strings *)

(** [s.split(sep)] for a one-character separator. *)
Fixpoint split (sep : ascii) (s : string) : list string :=
  match s with
  | EmptyString => [EmptyString]
  | String c s' =>
      if Ascii.eqb c sep then EmptyString :: split sep s'
      else match split sep s' with
           | hd :: tl => String c hd :: tl
           | [] => [String c EmptyString]
           end
  end.

(** [!s] for an optional string: [undefined] and [''] are falsy. *)
Definition falsy_str (s : option string) : bool :=
  match s with
  | None => true
  | Some s => String.eqb s ""
  end.

(** [!n] for an optional number: [undefined] and [0] are falsy. *)
Definition falsy_num (n : option Q) : bool :=
  match n with
  | None => true
  | Some q => Qeq_bool q 0
  end.

Definition substring_to (stop : Z) (s : string) : string :=
  String.substring 0 (Nat.min (Z.to_nat stop) (String.length s)) s.

(** Strings are taken to be ASCII. [is_space] is [\s] and [is_digit] is
    [\d] of a regular expression. *)
Definition is_space (c : ascii) : bool :=
  let n := nat_of_ascii c in
  ((n =? 32) || ((9 <=? n) && (n <=? 13)))%nat.

Definition is_digit (c : ascii) : bool :=
  let n := nat_of_ascii c in
  ((48 <=? n) && (n <=? 57))%nat.

(** [s.replace(/\s+/g, '')] *)
Fixpoint remove_spaces (s : string) : string :=
  match s with
  | EmptyString => EmptyString
  | String c s' => if is_space c then remove_spaces s' else String c (remove_spaces s')
  end.

Fixpoint all_digits (s : string) : bool :=
  match s with
  | EmptyString => true
  | String c s' => is_digit c && all_digits s'
  end.

(** [/^\d{k}$/.test(s)] *)
Definition digits_exactly (k : nat) (s : string) : bool :=
  (String.length s =? k)%nat && all_digits s.

(** ** Partial updates of a row *)

(** One [key: value] entry of a [Partial<UserAccount>] object literal.
    [Set_fecha_proximo_intento None] is the entry
    [fecha_proximo_intento: undefined]. *)
Inductive FieldUpdate : Type :=
| Set_saldo_disponible (v : Q)
| Set_password_hash (v : string)
| Set_kyc_completo (v : bool)
| Set_kyc_status (v : KYCStatus.t)
| Set_bloqueado (v : bool)
| Set_intentos_fallidos (v : Z)
| Set_fecha_proximo_intento (v : option Z)
| Set_limite_transferencia (v : Q)
| Set_fecha_actualizacion (v : Z).

(** One entry of a [Partial<Credit>]. *)
Inductive CreditFieldUpdate : Type :=
| Set_estado (v : CreditStatus.t)
| Set_fecha_desembolso (v : Z)
| Set_credit_fecha_actualizacion (v : Z).

Definition set_credit_field (u : CreditFieldUpdate) (c : Credit.t) : Credit.t :=
  let 'Credit.mk id uid tipo ms mt pd tea cft est fd fv cu fc fa := c in
  match u with
  | Set_estado v => Credit.mk id uid tipo ms mt pd tea cft v fd fv cu fc fa
  | Set_fecha_desembolso v => Credit.mk id uid tipo ms mt pd tea cft est (Some v) fv cu fc fa
  | Set_credit_fecha_actualizacion v => Credit.mk id uid tipo ms mt pd tea cft est fd fv cu fc v
  end.

(** ** Requests and responses of the handlers *)

(** The value passed to [res.json].  A string built by a template literal is
    a [JText]. *)
#[local] Unset Elimination Schemes.
Inductive json : Type :=
| JUndefined
| JNull
| JBool (b : bool)
| JNum (q : Q)
| JStr (s : string)
| JText (t : list Frag)
| JDate (ms : Z)
| JArr (items : list json)
| JObj (fields : list (string * json)).
#[local] Set Elimination Schemes.

(** [obj.key] *)
Definition field (key : string) (obj : json) : json :=
  match obj with
  | JObj fields =>
      match List.find (λ kv, String.eqb (fst kv) key) fields with
      | Some kv => snd kv
      | None => JUndefined
      end
  | _ => JUndefined
  end.

Definition json_of_option_string (s : option string) : json :=
  match s with Some s => JStr s | None => JUndefined end.

Definition json_of_CreditType (t : CreditType.t) : json :=
  match t with
  | CreditType.QUICK => JStr "rapido"
  | CreditType.NORMAL => JStr "normal"
  end.

Definition json_of_InstallmentPlan (p : InstallmentPlan.t) : json :=
  JObj [("nro_cuota", JNum (inject_Z (InstallmentPlan.nro_cuota p)));
        ("importe", JNum (InstallmentPlan.importe p));
        ("fecha_vencimiento", JDate (InstallmentPlan.fecha_vencimiento p))].

Definition json_of_CreditSimulation (s : CreditSimulation.t) : json :=
  JObj [("tipo_credito", json_of_CreditType (CreditSimulation.tipo_credito s));
        ("monto_solicitado", JNum (CreditSimulation.monto_solicitado s));
        ("plazo_dias", JNum (CreditSimulation.plazo_dias s));
        ("cuotas_totales", JNum (CreditSimulation.cuotas_totales s));
        ("tasa_tea", JNum (CreditSimulation.tasa_tea s));
        ("tasa_cft", JNum (CreditSimulation.tasa_cft s));
        ("monto_total", JNum (CreditSimulation.monto_total s));
        ("costo_financiero", JNum (CreditSimulation.costo_financiero s));
        ("plan_cuotas", JArr (json_of_InstallmentPlan <$> CreditSimulation.plan_cuotas s))].

(** [req.body], with the fields the handlers destructure. *)
Module Body.
Record t : Type := mk {
  usuario_id : option string;
  monto_destino : option Q;
  cuenta_destino : option string;
  monto_transferencia : option Q;
  id_credito : option string }.
End Body.

Module FraudRisk.
Record t : Type := mk {
  tipo : string;
  severity : string;
  descripcion : string }.
End FraudRisk.



(** ** Hexadecimal strings *)

(** What [buffer.toString('hex')] produces: characters [0-9a-f] only, and at
    least one of them for a non-empty buffer. *)
Definition is_hex_digit (c : ascii) : bool :=
  let n := nat_of_ascii c in
  is_digit c || ((97 <=? n) && (n <=? 102))%nat.

Fixpoint all_hex (s : string) : bool :=
  match s with
  | EmptyString => true
  | String c s' => is_hex_digit c && all_hex s'
  end.

Definition hex_string (s : string) : bool :=
  negb (String.eqb s "") && all_hex s.

(** ** More strings *)




(** ['*'.repeat(n)] *)
Fixpoint stars (n : nat) : string :=
  match n with
  | O => EmptyString
  | S n => String "*" (stars n)
  end.

(** [s.slice(-k)]: the last [k] characters, or all of [s] when it is
    shorter. *)
Definition slice_last (k : nat) (s : string) : string :=
  String.substring (String.length s - k) k s.

(** [x.toFixed(2)] for a magnitude below 10^21: the sign, then the nearest
    multiple of 1/100 (of two equally near, the larger) with exactly two
    decimals. *)
Definition two_digits (d : Z) : string :=
  if d <? 10 then "0" +:+ pretty d else pretty d.

Definition toFixed2 (x : Q) : string :=
  let n := Qfloor (Qabs x * 100 + (1 # 2)) in
  (if Qltb x 0 then "-" else "")
  +:+ pretty (n `div` 100) +:+ "." +:+ two_digits (n `mod` 100).

(** ** Configuration and requests of the credit endpoints *)

(** [config.credits] and [config.features], read from the environment when
    the server starts. *)
Module Config.
Record t : Type := mk {
  quickCreditMaxAmount : Q;
  normalCreditMaxAmount : Q;
  enableExternalScoring : bool }.
End Config.

(** A [CreditEligibility] whose [limites_maximos] also bounds the term, as
    [validateNormalCreditEligibility] fills it. *)
Module CreditEligibilityTerms.
Record t : Type := mk {
  eligibility : CreditEligibility.t;
  plazo_minimo : option Q;
  plazo_maximo : option Q }.
End CreditEligibilityTerms.

(** [req.body] of the credit endpoints. *)
Module CreditsBody.
Record t : Type := mk {
  usuario_id : option string;
  monto : option Q;
  plazo_dias : option Q;
  plazo_meses : option Q }.
End CreditsBody.

#[local] Instance CreditStatus_eq_dec : EqDecision CreditStatus.t.
Proof. solve_decision. Defined.

Definition json_of_CreditStatus (s : CreditStatus.t) : json :=
  JStr match s with
       | CreditStatus.PREAPPROVED => "preaprobado"
       | CreditStatus.APPROVED => "aprobado"
       | CreditStatus.DISBURSED => "desembolsado"
       | CreditStatus.IN_PROGRESS => "en_curso"
       | CreditStatus.PAID => "pagado"
       | CreditStatus.DEFAULT => "en_mora"
       | CreditStatus.CANCELED => "cancelado"
       end.


Definition with_kyc_documents (l : list KYCDocument.t) (db : DB) : DB :=
  mkDB (user_accounts db) (creditos db) (cuotas db) l
       (password_reset_tokens db) (transferencias db).

(** ** Sample rows *)

Definition sample_account (userId : string) (saldo : Q) : UserAccount.t :=
  UserAccount.mk userId None None false None 0 saldo None false None false 0 None None 0.

Definition sample_credit : Credit.t :=
  Credit.mk "c1" "u1" CreditType.QUICK 300 333 30 110 127
    CreditStatus.PREAPPROVED None 0 1 0 0.

(** Two accounts, with 1000 and 0, and a pre-approved credit of 300 of the
    first one. *)
Definition sample_db : DB :=
  mkDB (<["u1" := sample_account "u1" 1000]> (<["u2" := sample_account "u2" 0]> ∅))
       (<["c1" := sample_credit]> ∅) [] [] ∅ [].



(** An account with a stored password ([salt.hash]) and [n] failed attempts. *)
Definition login_account (n : Z) : UserAccount.t :=
  UserAccount.mk "u1" None (Some "salt.secretsalt") false None 0 1000 None false None
    false n None None 0.

Definition login_db (n : Z) : DB :=
  mkDB (<["u1" := login_account n]> ∅) ∅ [] [] ∅ [].


(** A reset token that expired at time 100. *)
Definition token_db : DB :=
  mkDB (<["u1" := login_account 0]> ∅) ∅ [] []
       (<["tok" := PasswordResetToken.mk "tok" "u1" 0 100 false None]> ∅) [].

(** An account with a [dni] and a [selfie] on file, both still pending. *)
Definition kyc_db : DB :=
  mkDB (<["u1" := sample_account "u1" 1000]> ∅) ∅ []
       [KYCDocument.mk "d1" "u1" TipoDocumento.dni "url1" 1 KYCStatus.PENDIENTE None;
        KYCDocument.mk "d2" "u1" TipoDocumento.selfie "url2" 2 KYCStatus.PENDIENTE None]
       ∅ [].

(** Stand-ins for the hash and the calendar in concrete runs. *)
Definition sample_pbkdf2 (password salt : string) : string := password +:+ salt.
Definition sample_addDays (d : Z) (n : Q) : Z := d + Qfloor n * (1000 * 60 * 60 * 24).

(** Further sample rows, for the runs of the further properties. *)


(** An account registered at time 0 with KYC completed, a declared income of
    1000 and an external score of 70. *)
Definition veteran_account (userId : string) : UserAccount.t :=
  UserAccount.mk userId None None true (Some KYCStatus.APROBADO) 0 5000
    (Some 1000%Q) false (Some 70%Q) false 0 None (Some 50000%Q) 0.

Definition veteran_db : DB :=
  mkDB (<["u1" := veteran_account "u1"]> ∅) ∅ [] [] ∅ [].

(** The same with a credit in progress: 1200 to repay in 1 installment. *)
Definition indebted_db : DB :=
  mkDB (<["u1" := veteran_account "u1"]> ∅)
       (<["c9" := Credit.mk "c9" "u1" CreditType.QUICK 1000 1200 30 110 127
                    CreditStatus.IN_PROGRESS (Some 0) 0 1 0 0]> ∅)
       [] [] ∅ [].

Definition sample_config : Config.t := Config.mk 50000 250000 true.

(** Forty days, in milliseconds. *)
Definition day40 : Z := 40 * (1000 * 60 * 60 * 24).

(** A settled transfer from the first account to the second. *)
Definition sample_transfer : Transfer.t :=
  Transfer.mk "t1" "u1" (Some "u2") None 250 None TransferStatus.ACREDITADA 0.

Definition transfers_db : DB :=
  mkDB (<["u1" := sample_account "u1" 1000]> (<["u2" := sample_account "u2" 0]> ∅))
       ∅ [] [] ∅ [sample_transfer].

Section Core.

(** How the store treats an entry whose value is [undefined]: [true] when the
    column is set to NULL, [false] when the entry is dropped and the column
    keeps its value.  Nothing below depends on which one it is. *)
Variable undefined_clears : bool.

(** [crypto.pbkdf2Sync(password, salt, 1000, 64, 'sha512').toString('hex')] *)
Variable pbkdf2Sync : string → string → string.

(** Calendar arithmetic of [Date]: [d.setDate(d.getDate() + n)] and
    [d.setMonth(d.getMonth() + n)]. *)
Variable Date_addDays : Z → Q → Z.
Variable Date_addMonths : Z → Z → Z.

Definition set_field (u : FieldUpdate) (a : UserAccount.t) : UserAccount.t :=
  let 'UserAccount.mk uid em ph kc ks fr sd ing hm sc bl nf fpi lt fa := a in
  match u with
  | Set_saldo_disponible v => UserAccount.mk uid em ph kc ks fr v ing hm sc bl nf fpi lt fa
  | Set_password_hash v => UserAccount.mk uid em (Some v) kc ks fr sd ing hm sc bl nf fpi lt fa
  | Set_kyc_completo v => UserAccount.mk uid em ph v ks fr sd ing hm sc bl nf fpi lt fa
  | Set_kyc_status v => UserAccount.mk uid em ph kc (Some v) fr sd ing hm sc bl nf fpi lt fa
  | Set_bloqueado v => UserAccount.mk uid em ph kc ks fr sd ing hm sc v nf fpi lt fa
  | Set_intentos_fallidos v => UserAccount.mk uid em ph kc ks fr sd ing hm sc bl v fpi lt fa
  | Set_fecha_proximo_intento (Some v) =>
      UserAccount.mk uid em ph kc ks fr sd ing hm sc bl nf (Some v) lt fa
  | Set_fecha_proximo_intento None =>
      UserAccount.mk uid em ph kc ks fr sd ing hm sc bl nf
        (if undefined_clears then None else fpi) lt fa
  | Set_limite_transferencia v => UserAccount.mk uid em ph kc ks fr sd ing hm sc bl nf fpi (Some v) fa
  | Set_fecha_actualizacion v => UserAccount.mk uid em ph kc ks fr sd ing hm sc bl nf fpi lt v
  end.

(** Entries are applied in the order they are written. *)
Definition apply_updates (updates : list FieldUpdate) (a : UserAccount.t) : UserAccount.t :=
  fold_left (λ acc u, set_field u acc) updates a.

(** ** UserAccountsRepository *)

Definition findByUserId (userId : string) : M (option UserAccount.t) :=
  λ db, (inr (user_accounts db !! userId), db).

(** [.update({...updates, fecha_actualizacion: new Date()}).eq('usuario_id',
    userId).select().single()]: with no matching row the client reports an
    error, which is not a [NotFoundError]. *)
Definition update (now : Z) (userId : string) (updates : list FieldUpdate)
  : M UserAccount.t :=
  λ db, match user_accounts db !! userId with
        | Some row =>
            let data := apply_updates (updates ++ [Set_fecha_actualizacion now]) row in
            (inr data, with_user_accounts (<[userId := data]> (user_accounts db)) db)
        | None =>
            (inl (DatabaseError [Str "Failed to update user account: ";
                                 ClientError "single(): no rows"]), db)
        end.

Definition updateBalance (now : Z) (userId : string) (newBalance : Q) : M UserAccount.t :=
  update now userId [Set_saldo_disponible newBalance].

Definition user_not_found (userId : string) : AppError :=
  NotFoundError [Str "User account "; Str userId; Str " not found"].

Definition getBalance (userId : string) : M Q :=
  try_catch
    (let* account := findByUserId userId in
     match account with
     | None => throw (user_not_found userId)
     | Some account => ret (UserAccount.saldo_disponible account)
     end)
    (rethrow "Failed to get balance: ").

Definition updatePassword (now : Z) (userId passwordHash : string) : M UserAccount.t :=
  update now userId [Set_password_hash passwordHash].

(** [account.password_hash || null] *)
Definition getPasswordHash (userId : string) : M (option string) :=
  try_catch
    (let* account := findByUserId userId in
     match account with
     | None => throw (user_not_found userId)
     | Some account =>
         ret (if falsy_str (UserAccount.password_hash account) then None
              else UserAccount.password_hash account)
     end)
    (rethrow "Failed to get password hash: ").

(** The final [return this.update(userId, updates)] is not awaited, so it is
    outside the reach of the [catch] block. *)
Definition recordFailedLoginAttempt (now : Z) (userId : string) : M UserAccount.t :=
  let* updates :=
    try_catch
      (let* account := findByUserId userId in
       match account with
       | None => throw (user_not_found userId)
       | Some account =>
           let newAttempts := UserAccount.intentos_fallidos account + 1 in
           let shouldBlock := 5 <=? newAttempts in
           let updates := [Set_intentos_fallidos newAttempts] in
           ret (if shouldBlock
                then updates ++ [Set_bloqueado true;
                                 Set_fecha_proximo_intento (Some (now + 60 * 60 * 1000))]
                else updates)
       end)
      (rethrow "Failed to record login attempt: ") in
  update now userId updates.

Definition resetFailedLoginAttempts (now : Z) (userId : string) : M UserAccount.t :=
  update now userId [Set_intentos_fallidos 0; Set_fecha_proximo_intento None].

Definition blockAccount (now : Z) (userId : string) : M UserAccount.t :=
  update now userId [Set_bloqueado true].

Definition unblockAccount (now : Z) (userId : string) : M UserAccount.t :=
  update now userId
    [Set_bloqueado false; Set_intentos_fallidos 0; Set_fecha_proximo_intento None].

Definition isAccountBlocked (now : Z) (userId : string) : M bool :=
  try_catch
    (let* account := findByUserId userId in
     match account with
     | None => throw (user_not_found userId)
     | Some account =>
         if negb (UserAccount.bloqueado account) then ret false
         else
           match UserAccount.fecha_proximo_intento account with
           | Some t =>
               if t <=? now
               then (unblockAccount now userId ;;; ret false)
               else ret (UserAccount.bloqueado account)
           | None => ret (UserAccount.bloqueado account)
           end
     end)
    (rethrow "Failed to check account block status: ").

(** [.order('fecha_carga', { ascending: false })] *)
Definition newest_first (a b : KYCDocument.t) : Prop :=
  KYCDocument.fecha_carga b ≤ KYCDocument.fecha_carga a.

#[local] Instance newest_first_dec a b : Decision (newest_first a b).
Proof. unfold newest_first. apply _. Defined.

(** [UserAccountsRepository.getKYCDocuments] *)
Definition getKYCDocuments_repo (userId : string) : M (list KYCDocument.t) :=
  λ db, (inr (merge_sort newest_first
                (filter (λ d, KYCDocument.usuario_id d = userId) (kyc_documents db))),
         db).

Definition updateKYCStatus (now : Z) (userId : string) (status : KYCStatus.t)
  : M UserAccount.t :=
  let updates := [Set_kyc_status status] in
  let updates :=
    match status with
    | KYCStatus.APROBADO =>
        updates ++ [Set_kyc_completo true; Set_limite_transferencia 50000]
    | KYCStatus.RECHAZADO => updates ++ [Set_kyc_completo false]
    | _ => updates
    end in
  update now userId updates.

(** [.eq('token', token).eq('utilizado', false).single()]; [token] is the
    primary key of the table. *)
Definition unused_token (token : string) (db : DB) : option PasswordResetToken.t :=
  match password_reset_tokens db !! token with
  | Some data => if PasswordResetToken.utilizado data then None else Some data
  | None => None
  end.

Definition validatePasswordResetToken (now : Z) (token : string) : M bool :=
  λ db, match unused_token token db with
        | None => (inr false, db)
        | Some data => (inr (now <? PasswordResetToken.fecha_vencimiento data), db)
        end.

Definition markResetTokenAsUsed (now : Z) (token : string) : M unit :=
  λ db, (inr tt,
         with_password_reset_tokens
           (alter (λ r, PasswordResetToken.mk
                          (PasswordResetToken.token r)
                          (PasswordResetToken.usuario_id r)
                          (PasswordResetToken.fecha_creacion r)
                          (PasswordResetToken.fecha_vencimiento r)
                          true (Some now))
                  token (password_reset_tokens db))
           db).

Definition getUserIdFromResetToken (token : string) : M string :=
  λ db, match unused_token token db with
        | None => (inl (NotFoundError [Str "Invalid or expired reset token"]), db)
        | Some data => (inr (PasswordResetToken.usuario_id data), db)
        end.

(** [UserAccountsRepository.updateTransferLimit]; the final
    [return this.update(...)] is not awaited, so only the guard is inside the
    [try]. *)
Definition updateTransferLimit_repo (now : Z) (userId : string) (limite : Q)
  : M UserAccount.t :=
  try_catch
    (if Qleb limite 0
     then throw (Error [Str "Transfer limit must be greater than 0"])
     else ret tt)
    (rethrow "Failed to update transfer limit: ") ;;;
  update now userId [Set_limite_transferencia limite].

(** [account.limite_transferencia || 10000] *)
Definition getTransferLimit (userId : string) : M Q :=
  try_catch
    (let* account := findByUserId userId in
     match account with
     | None => throw (user_not_found userId)
     | Some account =>
         ret (if falsy_num (UserAccount.limite_transferencia account) then 10000%Q
              else default 10000%Q (UserAccount.limite_transferencia account))
     end)
    (rethrow "Failed to get transfer limit: ").

(** ** UserAccountsService *)

(** [hashPassword]; the 16 random bytes of the salt, in hex, are [salt]. *)
Definition hashPassword (salt password : string) : string :=
  salt +:+ "." +:+ pbkdf2Sync password salt.

(** [const [salt, hash] = passwordHash.split('.')] *)
Definition verifyPassword (password passwordHash : string) : bool :=
  let parts := split "." passwordHash in
  match parts !! 0%nat, parts !! 1%nat with
  | Some salt, Some hash =>
      if String.eqb salt "" || String.eqb hash "" then false
      else String.eqb hash (pbkdf2Sync password salt)
  | _, _ => false
  end.

Definition getUserAccount (userId : string) : M UserAccount.t :=
  let* account := findByUserId userId in
  match account with
  | None => throw (user_not_found userId)
  | Some account => ret account
  end.

Definition updateAccountBalance (now : Z) (userId : string) (amount : Q)
  : M UserAccount.t :=
  let* account := getUserAccount userId in
  if Qltb amount 0
  then throw (ValidationError [Str "Balance amount cannot be negative"])
  else updateBalance now userId amount.

Definition addFunds (now : Z) (userId : string) (amount : Q) : M UserAccount.t :=
  let* account := getUserAccount userId in
  if Qleb amount 0
  then throw (ValidationError [Str "Amount to add must be greater than 0"])
  else
    let newBalance := (UserAccount.saldo_disponible account + amount)%Q in
    updateBalance now userId newBalance.

Definition removeFunds (now : Z) (userId : string) (amount : Q) : M UserAccount.t :=
  let* account := getUserAccount userId in
  if Qleb amount 0
  then throw (ValidationError [Str "Amount to remove must be greater than 0"])
  else if Qltb (UserAccount.saldo_disponible account) amount
  then throw (ValidationError
                [Str "Insufficient balance. Available: ";
                 Num (UserAccount.saldo_disponible account);
                 Str ", Required: "; Num amount])
  else
    let newBalance := (UserAccount.saldo_disponible account - amount)%Q in
    updateBalance now userId newBalance.

(** [UserAccountsService.getBalance] *)
Definition getBalance_service (userId : string) : M Q := getBalance userId.

Definition validateCredentials (now : Z) (userId password : string) : M bool :=
  try_catch
    (let* isBlocked := isAccountBlocked now userId in
     if isBlocked
     then throw (ValidationError [Str "Account is temporarily locked. Try again later."])
     else
       let* passwordHash := getPasswordHash userId in
       match passwordHash with
       | None => throw (NotFoundError [Str "Password not found for user"])
       | Some passwordHash =>
           let isValid := verifyPassword password passwordHash in
           if negb isValid
           then (recordFailedLoginAttempt now userId ;;;
                 throw (UnauthorizedError [Str "Invalid credentials"]))
           else (resetFailedLoginAttempts now userId ;;; ret true)
       end)
    (λ error, throw error).

Definition updatePasswordWithResetToken (now : Z) (salt token newPassword : string)
  : M UserAccount.t :=
  if (String.length newPassword <? 8)%nat
  then throw (ValidationError [Str "Password must be at least 8 characters long"])
  else
    let* isValidToken := validatePasswordResetToken now token in
    if negb isValidToken
    then throw (ValidationError [Str "Invalid or expired password reset token"])
    else
      let* userId := getUserIdFromResetToken token in
      let passwordHash := hashPassword salt newPassword in
      markResetTokenAsUsed now token ;;;
      updatePassword now userId passwordHash.

(** [UserAccountsService.isAccountBlocked] *)
Definition isAccountBlocked_service (now : Z) (userId : string) : M bool :=
  isAccountBlocked now userId.

(** [UserAccountsService.getKYCDocuments] *)
Definition getKYCDocuments (userId : string) : M (list KYCDocument.t) :=
  getUserAccount userId ;;;
  getKYCDocuments_repo userId.

Definition approveKYC (now : Z) (userId : string) : M UserAccount.t :=
  let* documentos := getKYCDocuments userId in
  let hasDNI :=
    existsb (λ d, TipoDocumento.eqb (KYCDocument.tipo_documento d) TipoDocumento.dni)
            documentos in
  let hasSelfie :=
    existsb (λ d, TipoDocumento.eqb (KYCDocument.tipo_documento d) TipoDocumento.selfie)
            documentos in
  if negb hasDNI || negb hasSelfie
  then throw (ValidationError
                [Str "User must upload DNI and selfie photos for KYC approval"])
  else
    let* account := updateKYCStatus now userId KYCStatus.APROBADO in
    updateTransferLimit_repo now userId 50000 ;;;
    ret account.

(** ** CreditsRepository *)

Definition findCreditById (creditId : string) : M (option Credit.t) :=
  λ db, (inr (creditos db !! creditId), db).

(** [{ id_credito: uuidv4(), ...credit, fecha_creacion: new Date(),
    fecha_actualizacion: new Date() }]; [credit] is the record still waiting
    for these three fields.  [id_credito] is the primary key. *)
Definition createCredit (now : Z) (id : string) (credit : string → Z → Z → Credit.t)
  : M Credit.t :=
  λ db, match creditos db !! id with
        | Some _ => (inl (DatabaseError [Str "Failed to create credit: ";
                                         ClientError "insert: duplicate key"]), db)
        | None =>
            let data := credit id now now in
            (inr data, with_creditos (<[id := data]> (creditos db)) db)
        end.

Definition updateCredit (now : Z) (creditId : string) (updates : list CreditFieldUpdate)
  : M Credit.t :=
  λ db, match creditos db !! creditId with
        | Some row =>
            let data :=
              fold_left (λ acc u, set_credit_field u acc)
                        (updates ++ [Set_credit_fecha_actualizacion now]) row in
            (inr data, with_creditos (<[creditId := data]> (creditos db)) db)
        | None =>
            (inl (DatabaseError [Str "Failed to update credit: ";
                                 ClientError "single(): no rows"]), db)
        end.

(** Each row gets its own [uuidv4()]; [uuid k] is the one of the [k]-th row. *)
Definition createInstallmentPlan (uuid : nat → string) (creditId : string)
    (installments : list (string → Installment.t)) : M (list Installment.t) :=
  λ db, let installmentData := imap (λ k inst, inst (uuid k)) installments in
        (inr installmentData, with_cuotas (cuotas db ++ installmentData) db).

(** ** CreditsService *)

Definition quickCreditRates : list (Z * Q) := [(30, 110%Q); (60, 115%Q); (90, 120%Q)].
Definition normalCreditRates : list (Z * Q) := [(3, 85%Q); (6, 90%Q); (12, 95%Q)].
Definition adminChargePercentage : Q := 2.
Definition cftMultiplier : Q := 115 # 100.

(** [rates[term]], which is defined exactly when
    [Object.keys(rates).includes(term.toString())]. *)
Definition rate_of (rates : list (Z * Q)) (term : Q) : option Q :=
  snd <$> List.find (λ kv, Qeq_bool term (inject_Z (fst kv))) rates.

Inductive CalcType : Type := quick | normal.

Definition calculateCredit (now : Z) (principal tea cft termDays : Q) (type : CalcType)
  : CreditCalculation.t :=
  let yearFraction := (termDays / 365)%Q in
  let interestRate := (tea / 100)%Q in
  let interest := (principal * interestRate * yearFraction)%Q in
  let adminCharges := (principal * (adminChargePercentage / 100))%Q in
  let totalAmount := (principal + interest + adminCharges)%Q in
  let numInstallments :=
    match type with
    | quick => Math_ceil (termDays / 30)
    | normal => Math_floor (termDays / 30)
    end in
  let installmentAmount := (totalAmount / inject_Z numInstallments)%Q in
  let startDate := now in
  let daysBetweenPayments := match type with quick => 30 | normal => 30 end in
  let plan :=
    (λ i, InstallmentPlan.mk
            i
            (if i =? numInstallments
             then (totalAmount - installmentAmount * inject_Z (numInstallments - 1))%Q
             else installmentAmount)
            (Date_addDays startDate (inject_Z (i * daysBetweenPayments))))
    <$> seqZ 1 numInstallments in
  CreditCalculation.mk principal tea cft
    (Math_round interest) (Math_round adminCharges) (Math_round totalAmount) plan.

Definition simulateQuickCredit (now : Z) (userId : string) (missingAmount termDays : Q)
  : Res CreditSimulation.t :=
  match rate_of quickCreditRates termDays with
  | None =>
      inl (ValidationError [Str "Invalid term for quick credit. Allowed: 30, 60, 90 days"])
  | Some tea =>
      let cft := Math_round (tea * cftMultiplier) in
      let calculation := calculateCredit now missingAmount tea cft termDays quick in
      inr (CreditSimulation.mk
             CreditType.QUICK missingAmount termDays
             (inject_Z (Z.of_nat (length (CreditCalculation.plan_cuotas calculation))))
             tea cft
             (CreditCalculation.monto_total calculation)
             (CreditCalculation.monto_intereses calculation
              + CreditCalculation.gastos_administrativos calculation)%Q
             (CreditCalculation.plan_cuotas calculation))
  end.

Definition simulateNormalCredit (now : Z) (userId : string) (amount termMonths : Q)
  : Res CreditSimulation.t :=
  match rate_of normalCreditRates termMonths with
  | None =>
      inl (ValidationError
             [Str "Invalid term for normal credit. Allowed: 3, 6, 9, 12 months"])
  | Some tea =>
      let cft := Math_round (tea * cftMultiplier) in
      let termDays := (termMonths * 30)%Q in
      let calculation := calculateCredit now amount tea cft termDays normal in
      inr (CreditSimulation.mk
             CreditType.NORMAL amount termDays termMonths tea cft
             (CreditCalculation.monto_total calculation)
             (CreditCalculation.monto_intereses calculation
              + CreditCalculation.gastos_administrativos calculation)%Q
             (CreditCalculation.plan_cuotas calculation))
  end.

(** [[3, 6, 9, 12].includes(v)] *)
Definition includes (l : list Z) (v : Q) : bool :=
  existsb (λ k, Qeq_bool v (inject_Z k)) l.

Definition quick_terms : list Z := [30; 60; 90].
Definition normal_terms : list Z := [3; 6; 9; 12].

(** The rows built from [simulation.plan_cuotas], each still waiting for its
    [id_cuota]. *)
Definition installmentData (id_credito : string) (plan : list InstallmentPlan.t)
  : list (string → Installment.t) :=
  (λ plan id_cuota,
     Installment.mk id_cuota id_credito
       (InstallmentPlan.nro_cuota plan) (InstallmentPlan.importe plan)
       (InstallmentPlan.fecha_vencimiento plan) InstallmentStatus.PENDING None)
  <$> plan.

Definition createQuickCredit (now : Z) (id : string) (uuid : nat → string)
    (request : CreditRequest.t) : M Credit.t :=
  match CreditRequest.tipo_credito request with
  | CreditType.NORMAL =>
      throw (ValidationError [Str "Invalid credit type for quick credit creation"])
  | CreditType.QUICK =>
      let* simulation :=
        lift (simulateQuickCredit now (CreditRequest.usuario_id request)
                (CreditRequest.monto_solicitado request)
                (CreditRequest.plazo_dias request)) in
      let vencimientoDate := Date_addDays now (CreditRequest.plazo_dias request) in
      let* credit :=
        createCredit now id
          (λ id fc fa,
             Credit.mk id (CreditRequest.usuario_id request) CreditType.QUICK
               (CreditRequest.monto_solicitado request)
               (CreditSimulation.monto_total simulation)
               (CreditRequest.plazo_dias request)
               (CreditSimulation.tasa_tea simulation)
               (CreditSimulation.tasa_cft simulation)
               CreditStatus.PREAPPROVED None vencimientoDate
               (CreditSimulation.cuotas_totales simulation) fc fa) in
      createInstallmentPlan uuid (Credit.id_credito credit)
        (installmentData (Credit.id_credito credit)
           (CreditSimulation.plan_cuotas simulation)) ;;;
      ret credit
  end.

Definition createNormalCredit (now : Z) (id : string) (uuid : nat → string)
    (request : CreditRequest.t) : M Credit.t :=
  match CreditRequest.tipo_credito request with
  | CreditType.QUICK =>
      throw (ValidationError [Str "Invalid credit type for normal credit creation"])
  | CreditType.NORMAL =>
      let termMonths := Math_floor (CreditRequest.plazo_dias request / 30) in
      if negb (includes normal_terms (inject_Z termMonths))
      then throw (ValidationError
                    [Str "Invalid term for normal credit. Allowed: 3, 6, 9, 12 months"])
      else
        let* simulation :=
          lift (simulateNormalCredit now (CreditRequest.usuario_id request)
                  (CreditRequest.monto_solicitado request) (inject_Z termMonths)) in
        let vencimientoDate := Date_addMonths now termMonths in
        let* credit :=
          createCredit now id
            (λ id fc fa,
               Credit.mk id (CreditRequest.usuario_id request) CreditType.NORMAL
                 (CreditRequest.monto_solicitado request)
                 (CreditSimulation.monto_total simulation)
                 (CreditRequest.plazo_dias request)
                 (CreditSimulation.tasa_tea simulation)
                 (CreditSimulation.tasa_cft simulation)
                 CreditStatus.PREAPPROVED None vencimientoDate
                 (CreditSimulation.cuotas_totales simulation) fc fa) in
        createInstallmentPlan uuid (Credit.id_credito credit)
          (installmentData (Credit.id_credito credit)
             (CreditSimulation.plan_cuotas simulation)) ;;;
        ret credit
  end.

Definition approveCreditAndDisburse (now : Z) (creditId : string) : M Credit.t :=
  let* credit := findCreditById creditId in
  match credit with
  | None => throw (ValidationError [Str "Credit "; Str creditId; Str " not found"])
  | Some credit =>
      let* userBalance := getBalance (Credit.usuario_id credit) in
      if Qltb userBalance (Credit.monto_solicitado credit)
      then throw (InsufficientFundsError
                    [Str "Insufficient funds to disburse credit. Available: ";
                     Num userBalance; Str ", Required: ";
                     Num (Credit.monto_solicitado credit)])
      else
        let newBalance := (userBalance - Credit.monto_solicitado credit)%Q in
        updateBalance now (Credit.usuario_id credit) newBalance ;;;
        let* updatedCredit :=
          updateCredit now creditId
            [Set_estado CreditStatus.IN_PROGRESS; Set_fecha_desembolso now] in
        ret updatedCredit
  end.

(** ** CreditsValidator *)

Definition validateTerm (termValue : Q) (creditType : CreditType.t) : CreditEligibility.t :=
  match creditType with
  | CreditType.QUICK =>
      if negb (includes quick_terms termValue)
      then CreditEligibility.mk false
             (Some [Str "Quick credit terms must be 30, 60, or 90 days"]) None
      else CreditEligibility.mk true None None
  | CreditType.NORMAL =>
      if negb (includes normal_terms termValue)
      then CreditEligibility.mk false
             (Some [Str "Normal credit terms must be 3, 6, 9, or 12 months"]) None
      else CreditEligibility.mk true None None
  end.

(** ** BankingAPI *)

Definition transferFunds (now : Z) (txid fromUserId toUserId : string) (amount : Q)
  : M BankingAPIResponse.t :=
  try_catch
    (let* senderBalance := getBalance_service fromUserId in
     if Qltb senderBalance amount
     then ret (BankingAPIResponse.mk false None amount now senderBalance
                 (Some [Str "Sender has insufficient balance"]))
     else
       let* senderUpdated := removeFunds now fromUserId amount in
       let* recipientUpdated := addFunds now toUserId amount in
       ret (BankingAPIResponse.mk true (Some txid) amount now
              (UserAccount.saldo_disponible senderUpdated) None))
    (λ error,
       ret (BankingAPIResponse.mk false None amount now 0%Q
              (Some (Str "Transfer failed: " :: error_toString error)))).

(** [BankingAPI.disburseCredit] *)
Definition disburseCredit (now : Z) (txid userId : string) (amount : Q)
  : M BankingAPIResponse.t :=
  try_catch
    (let* account := getUserAccount userId in
     let* updatedAccount := addFunds now userId amount in
     ret (BankingAPIResponse.mk true (Some txid) amount now
            (UserAccount.saldo_disponible updatedAccount) None))
    (λ error,
       ret (BankingAPIResponse.mk false None amount now 0%Q
              (Some (Str "Disbursement failed: " :: error_toString error)))).

Definition processInstallmentPayment (now : Z) (txid userId : string) (amount : Q)
  : M BankingAPIResponse.t :=
  try_catch
    (let* account := getUserAccount userId in
     if Qltb (UserAccount.saldo_disponible account) amount
     then ret (BankingAPIResponse.mk false None amount now
                 (UserAccount.saldo_disponible account)
                 (Some [Str "Insufficient balance for payment"]))
     else
       let* updatedAccount := removeFunds now userId amount in
       ret (BankingAPIResponse.mk true (Some txid) amount now
              (UserAccount.saldo_disponible updatedAccount) None))
    (λ error,
       ret (BankingAPIResponse.mk false None amount now 0%Q
              (Some (Str "Payment processing failed: " :: error_toString error)))).

Definition bankMap : list (string * string) :=
  [("000", "Banco Central"); ("001", "Banco Nación"); ("002", "Banco Provincia");
   ("005", "Banco Diagonal"); ("006", "BBVA Francés"); ("007", "Banco Hipotecario");
   ("011", "Banco Santander"); ("014", "Banco Supvielle"); ("016", "Citibank");
   ("017", "Banco Galicia"); ("020", "Banco Tornquist"); ("023", "Banco Macri");
   ("026", "Banco Invex"); ("027", "Bansí"); ("028", "Banco Hipotecario Federal");
   ("029", "Coficred"); ("030", "Intercam"); ("031", "Banco Icbcl");
   ("032", "Banco Credicorp"); ("033", "Banco Bankboston"); ("034", "Banco Bamsa");
   ("035", "Banco Finterra"); ("036", "Rabobank"); ("037", "Banco Monex");
   ("038", "Hsbc"); ("039", "Banco Bice"); ("040", "Banco Roela");
   ("041", "Banca Més"); ("042", "Banco Yadá"); ("043", "Banco del Inversiones");
   ("044", "Nuevo Banco Comercial"); ("045", "Mercado Pago"); ("046", "Financial Bank")].

Definition validateCBUFormat (cbu : string) : CBUValidationResult.t :=
  let cleanCBU := remove_spaces cbu in
  if negb (digits_exactly 22 cleanCBU)
  then CBUValidationResult.mk false None None cleanCBU false (Some "CBU must be 22 digits")
  else
    let bankCode := substring_to 3 cleanCBU in
    let bancoDB :=
      match List.find (λ kv, String.eqb (fst kv) bankCode) bankMap with
      | Some kv => snd kv
      | None => "Banco Desconocido"
      end in
    CBUValidationResult.mk true (Some bancoDB) None cleanCBU true None.

Definition validateCVUFormat (cvu : string) : CBUValidationResult.t :=
  let cleanCVU := remove_spaces cvu in
  if negb (digits_exactly 10 cleanCVU)
  then CBUValidationResult.mk false None None cleanCVU false (Some "CVU must be 10 digits")
  else CBUValidationResult.mk true None (Some "alias.default") cleanCVU true None.

Definition validateExternalAccount (cuenta : string) : CBUValidationResult.t :=
  let cleanCuenta := remove_spaces cuenta in
  if (String.length cleanCuenta =? 22)%nat then validateCBUFormat cleanCuenta
  else if (String.length cleanCuenta =? 10)%nat then validateCVUFormat cleanCuenta
  else CBUValidationResult.mk false None None cleanCuenta false
         (Some "Account number must be 22 digits (CBU) or 10 digits (CVU)").

Definition blockedAccounts : list string := ["00000000000000000000001"].

Definition isExternalAccountActive (cbu : string) : bool :=
  negb (existsb (String.eqb cbu) blockedAccounts).

(** [transferId] and [failId] are the [uuidv4()] of the transfer and of a
    rejection, [transactionNumber] the random [EXT...] number. *)
Definition executeExternalTransfer (now : Z) (transferId failId transactionNumber : string)
    (request : ExternalTransferRequest.t) : M ExternalTransferResult.t :=
  let failed (id numero : string) (razon : list Frag) :=
    ExternalTransferResult.mk false id "unknown"
      (ExternalTransferRequest.cbu_destino request)
      (ExternalTransferRequest.monto request) numero now
      TransferStatus.FALLIDA (Some razon) None in
  try_catch
    (let validation := validateExternalAccount (ExternalTransferRequest.cbu_destino request) in
     if negb (CBUValidationResult.es_valido validation)
     then ret (failed failId ""
                 [Str (default "Invalid account format"
                         (if falsy_str (CBUValidationResult.razon_invalido validation)
                          then None
                          else CBUValidationResult.razon_invalido validation))])
     else if negb (isExternalAccountActive (CBUValidationResult.cbu validation))
     then ret (failed failId "" [Str "Destination account is inactive"])
     else
       let* senderBalance :=
         getBalance_service (ExternalTransferRequest.usuario_id request) in
       if Qltb senderBalance (ExternalTransferRequest.monto request)
       then ret (failed failId "" [Str "Insufficient balance"])
       else
         try_catch
           (removeFunds now (ExternalTransferRequest.usuario_id request)
              (ExternalTransferRequest.monto request) ;;;
            ret (ExternalTransferResult.mk true transferId "Tu CBU"
                   (CBUValidationResult.cbu validation)
                   (ExternalTransferRequest.monto request) transactionNumber now
                   TransferStatus.ACREDITADA None
                   (Some (Comprobante.mk transactionNumber now
                            (ExternalTransferRequest.referencia request)))))
           (λ error,
              addFunds now (ExternalTransferRequest.usuario_id request)
                (ExternalTransferRequest.monto request) ;;;
              ret (failed transferId transactionNumber
                     (Str "Transfer execution failed: " :: error_toString error))))
    (λ error,
       throw (ValidationError (Str "External transfer error: " :: error_toString error))).

(** ** TransfersRepository and TransfersService *)

Definition ms_per_day : Z := 1000 * 60 * 60 * 24.

(** [setUTCHours(0, 0, 0, 0)] and [setUTCHours(23, 59, 59, 999)] *)
Definition startOfDay (date : Z) : Z := date - date `mod` ms_per_day.
Definition endOfDay (date : Z) : Z := startOfDay date + (ms_per_day - 1).

Definition getTransfersByUserIdAndDate (userId : string) (date : Z) : M (list Transfer.t) :=
  λ db, (inr (List.filter
                (λ t, String.eqb (Transfer.usuario_id_origen t) userId
                      && (startOfDay date <=? Transfer.fecha_creacion t)
                      && (Transfer.fecha_creacion t <=? endOfDay date))
                (transferencias db)),
         db).

Definition acreditada (transfer : Transfer.t) : bool :=
  TransferStatus.eqb (Transfer.estado transfer) TransferStatus.ACREDITADA.

Definition getDailyTransferTotal (now : Z) (usuarioId : string) : M Q :=
  let* transfers := getTransfersByUserIdAndDate usuarioId now in
  ret (fold_left (λ sum transfer, (sum + Transfer.monto transfer)%Q)
                 (List.filter acreditada transfers) 0%Q).

Definition getDailyTransferCount (now : Z) (usuarioId : string) : M Z :=
  let* transfers := getTransfersByUserIdAndDate usuarioId now in
  ret (Z.of_nat (length (List.filter acreditada transfers))).

(** ** TransferHandler *)

(** A handler returns what it passes to [res.json], or the error it passes
    to [next]. *)
Definition handleTransfer (now : Z) (txid : string) (body : Body.t) : M json :=
  try_catch
    (match Body.usuario_id body, Body.monto_destino body, Body.cuenta_destino body with
     | Some usuario_id, Some monto_destino, Some cuenta_destino =>
         if falsy_str (Some usuario_id) || falsy_num (Some monto_destino)
            || falsy_str (Some cuenta_destino)
         then throw (ValidationError
                       [Str "Missing required fields: usuario_id, monto_destino, cuenta_destino"])
         else if Qleb monto_destino 0
         then throw (ValidationError [Str "Transfer amount must be greater than 0"])
         else
           let* currentBalance := getBalance_service usuario_id in
           if Qleb monto_destino currentBalance
           then
             let* result := transferFunds now txid usuario_id cuenta_destino monto_destino in
             if BankingAPIResponse.exito result
             then ret (JObj [("exito", JBool true);
                             ("tipo_resultado", JStr "transferencia_directa");
                             ("transaccion_id",
                              json_of_option_string (BankingAPIResponse.transaccion_id result));
                             ("monto", JNum monto_destino);
                             ("saldo_resultante",
                              JNum (BankingAPIResponse.saldo_resultante result));
                             ("fecha", JDate (BankingAPIResponse.fecha result))])
             else throw (Error (default [] (BankingAPIResponse.razon_fallo result)))
           else
             let faltante := (monto_destino - currentBalance)%Q in
             let* creditOffer := lift (simulateQuickCredit now usuario_id faltante 30) in
             ret (JObj [("exito", JBool false);
                        ("tipo_resultado", JStr "saldo_insuficiente_oferta_credito");
                        ("mensaje", JStr "Saldo insuficiente. Se ofrece crédito rápido");
                        ("saldo_actual", JNum currentBalance);
                        ("monto_faltante", JNum faltante);
                        ("oferta_credito", json_of_CreditSimulation creditOffer)])
     | _, _, _ =>
         throw (ValidationError
                  [Str "Missing required fields: usuario_id, monto_destino, cuenta_destino"])
     end)
    (λ error, throw error).

Definition confirmTransferWithCredit (now : Z) (txid : string) (body : Body.t) : M json :=
  try_catch
    (match Body.usuario_id body, Body.id_credito body,
           Body.monto_destino body, Body.cuenta_destino body with
     | Some usuario_id, Some id_credito, Some monto_destino, Some cuenta_destino =>
         if falsy_str (Some usuario_id) || falsy_str (Some id_credito)
            || falsy_num (Some monto_destino) || falsy_str (Some cuenta_destino)
         then throw (ValidationError
                       [Str "Missing required fields: usuario_id, id_credito, monto_destino, cuenta_destino"])
         else
           let* credit := approveCreditAndDisburse now id_credito in
           let* transferResult :=
             transferFunds now txid usuario_id cuenta_destino monto_destino in
           if negb (BankingAPIResponse.exito transferResult)
           then throw (Error (Str "Transfer failed: "
                              :: default [] (BankingAPIResponse.razon_fallo transferResult)))
           else ret (JObj [("exito", JBool true);
                           ("tipo_resultado", JStr "transferencia_con_credito");
                           ("transaccion_id",
                            json_of_option_string
                              (BankingAPIResponse.transaccion_id transferResult));
                           ("credito",
                            JObj [("id_credito", JStr (Credit.id_credito credit));
                                  ("monto_desembolsado", JNum (Credit.monto_solicitado credit));
                                  ("monto_total_a_pagar", JNum (Credit.monto_total credit));
                                  ("cuotas", JNum (Credit.cuotas credit));
                                  ("tasa_tea", JNum (Credit.tasa_tea credit));
                                  ("tasa_cft", JNum (Credit.tasa_cft credit))]);
                           ("transferencia",
                            JObj [("monto", JNum monto_destino);
                                  ("saldo_resultante",
                                   JNum (BankingAPIResponse.saldo_resultante transferResult))]);
                           ("fecha", JDate now)])
     | _, _, _, _ =>
         throw (ValidationError
                  [Str "Missing required fields: usuario_id, id_credito, monto_destino, cuenta_destino"])
     end)
    (λ error, throw error).

Definition checkLimitsPreview (now : Z) (body : Body.t) : M json :=
  try_catch
    (match Body.usuario_id body, Body.monto_transferencia body with
     | Some usuario_id, Some monto_transferencia =>
         if falsy_str (Some usuario_id) || falsy_num (Some monto_transferencia)
         then throw (ValidationError
                       [Str "Missing required fields: usuario_id, monto_transferencia"])
         else if Qleb monto_transferencia 0
         then throw (ValidationError [Str "Transfer amount must be greater than 0"])
         else
           let* account := getUserAccount usuario_id in
           let limite_actual := if UserAccount.kyc_completo account then 50000%Q else 10000%Q in
           let* usedToday := getDailyTransferTotal now usuario_id in
           let disponible := Math_max 0 (limite_actual - usedToday) in
           if Qltb disponible monto_transferencia
           then ret (JObj [("exito", JBool false);
                           ("puede_transferir", JBool false);
                           ("code", JStr "LIMITE_EXCEDIDO");
                           ("error", JText [Str "Excediste tu límite diario de $";
                                            Num limite_actual;
                                            Str ". Completá tu KYC para ampliarlo."]);
                           ("data",
                            JObj [("limite_actual", JNum limite_actual);
                                  ("usado_hoy", JNum usedToday);
                                  ("disponible", JNum disponible);
                                  ("monto_solicitado", JNum monto_transferencia);
                                  ("exceso", JNum (monto_transferencia - disponible));
                                  ("como_ampliar",
                                   if UserAccount.kyc_completo account
                                   then JNull else JStr "kyc")])])
           else ret (JObj [("exito", JBool true);
                           ("puede_transferir", JBool true);
                           ("data",
                            JObj [("limite_actual", JNum limite_actual);
                                  ("usado_hoy", JNum usedToday);
                                  ("disponible", JNum disponible);
                                  ("monto_solicitado", JNum monto_transferencia);
                                  ("kyc_completo",
                                   JBool (UserAccount.kyc_completo account))])])
     | _, _ =>
         throw (ValidationError
                  [Str "Missing required fields: usuario_id, monto_transferencia"])
     end)
    (λ error, throw error).



(** ** UserAccountsRepository, the remaining reads *)

Definition checkKYCStatus (userId : string) : M bool :=
  try_catch
    (let* account := findByUserId userId in
     match account with
     | None => throw (user_not_found userId)
     | Some account => ret (UserAccount.kyc_completo account)
     end)
    (rethrow "Failed to check KYC status: ").

(** [Math.floor(ageInMs / (1000 * 60 * 60 * 24))] *)
Definition getAccountAge (now : Z) (userId : string) : M Z :=
  try_catch
    (let* account := findByUserId userId in
     match account with
     | None => throw (user_not_found userId)
     | Some account =>
         let ageInMs := now - UserAccount.fecha_registro account in
         ret (ageInMs `div` (1000 * 60 * 60 * 24))
     end)
    (rethrow "Failed to get account age: ").

Definition getDeclaredIncome (userId : string) : M (option Q) :=
  try_catch
    (let* account := findByUserId userId in
     match account with
     | None => throw (user_not_found userId)
     | Some account => ret (UserAccount.ingresos_declarados account)
     end)
    (rethrow "Failed to get declared income: ").

Definition hasDefaultHistory (userId : string) : M bool :=
  try_catch
    (let* account := findByUserId userId in
     match account with
     | None => throw (user_not_found userId)
     | Some account => ret (UserAccount.historial_mora account)
     end)
    (rethrow "Failed to check default history: ").

Definition getExternalScore (userId : string) : M (option Q) :=
  try_catch
    (let* account := findByUserId userId in
     match account with
     | None => throw (user_not_found userId)
     | Some account => ret (UserAccount.score_externo account)
     end)
    (rethrow "Failed to get external score: ").

(** ** UserAccountsRepository, the inserts *)

(** [UserAccountsRepository.create].  The insert names eight columns; the
    others take the defaults of the schema ([bloqueado] false,
    [intentos_fallidos] 0, [kyc_status] 'pendiente', [limite_transferencia]
    10000, the rest NULL).  [usuario_id] is the primary key. *)
Definition create (now : Z) (account : UserAccount.t) : M UserAccount.t :=
  λ db, match user_accounts db !! UserAccount.usuario_id account with
        | Some _ =>
            (inl (DatabaseError [Str "Failed to create user account: ";
                                 ClientError "insert: duplicate key"]), db)
        | None =>
            let data :=
              UserAccount.mk (UserAccount.usuario_id account) None None
                (UserAccount.kyc_completo account) (Some KYCStatus.PENDIENTE)
                (UserAccount.fecha_registro account)
                (UserAccount.saldo_disponible account)
                (UserAccount.ingresos_declarados account)
                (UserAccount.historial_mora account)
                (UserAccount.score_externo account)
                false 0 None (Some 10000%Q) now in
            (inr data,
             with_user_accounts
               (<[UserAccount.usuario_id account := data]> (user_accounts db)) db)
        end.

(** [storeKYCDocument]; [id_documento] is the primary key and [usuario_id]
    references [user_accounts]. *)
Definition storeKYCDocument (documento : KYCDocument.t) : M KYCDocument.t :=
  λ db, if existsb (λ d, String.eqb (KYCDocument.id_documento d)
                           (KYCDocument.id_documento documento))
                   (kyc_documents db)
        then (inl (DatabaseError [Str "Failed to store KYC document: ";
                                  ClientError "insert: duplicate key"]), db)
        else match user_accounts db !! KYCDocument.usuario_id documento with
             | None =>
                 (inl (DatabaseError [Str "Failed to store KYC document: ";
                                      ClientError "insert: foreign key"]), db)
             | Some _ =>
                 (inr documento,
                  with_kyc_documents (kyc_documents db ++ [documento]) db)
             end.

(** [UserAccountsRepository.createPasswordResetToken]; [token] is the 32
    random bytes in hexadecimal, and the primary key. *)
Definition createPasswordResetToken_repo (now : Z) (token userId : string)
  : M PasswordResetToken.t :=
  λ db, let ahora := now in
        let vencimiento := ahora + 24 * 60 * 60 * 1000 in
        match password_reset_tokens db !! token with
        | Some _ =>
            (inl (DatabaseError [Str "Failed to create password reset token: ";
                                 ClientError "insert: duplicate key"]), db)
        | None =>
            match user_accounts db !! userId with
            | None =>
                (inl (DatabaseError [Str "Failed to create password reset token: ";
                                     ClientError "insert: foreign key"]), db)
            | Some _ =>
                let data :=
                  PasswordResetToken.mk token userId ahora vencimiento false None in
                (inr data,
                 with_password_reset_tokens
                   (<[token := data]> (password_reset_tokens db)) db)
            end
        end.

(** ** UserAccountsService, further methods *)

Definition createUserAccount (now : Z) (userId : string) : M UserAccount.t :=
  let* existingAccount := findByUserId userId in
  match existingAccount with
  | Some _ =>
      throw (ValidationError [Str "User account "; Str userId; Str " already exists"])
  | None =>
      create now
        (UserAccount.mk userId None None false None now 0 None false None
           false 0 None None now)
  end.

(** [UserAccountsService.createPasswordResetToken] *)
Definition createPasswordResetToken (now : Z) (token userId : string)
  : M PasswordResetToken.t :=
  getUserAccount userId ;;;
  createPasswordResetToken_repo now token userId.

(** [id] is the [crypto.randomUUID()] of the document. *)
Definition uploadKYCDocument (now : Z) (id userId : string)
    (tipoDocumento : TipoDocumento.t) (urlDocumento : string) : M KYCDocument.t :=
  getUserAccount userId ;;;
  if String.eqb urlDocumento ""
  then throw (ValidationError [Str "Invalid document URL"])
  else
    let documento :=
      KYCDocument.mk id userId tipoDocumento urlDocumento now
        KYCStatus.PENDIENTE None in
    storeKYCDocument documento.


(** [UserAccountsService.updateTransferLimit] *)
Definition updateTransferLimit (now : Z) (userId : string) (limite : Q)
  : M UserAccount.t :=
  if Qleb limite 0
  then throw (ValidationError [Str "Transfer limit must be greater than 0"])
  else updateTransferLimit_repo now userId limite.

(** ** BankingAPI, the limit check *)

Definition validateTransferLimit (userId : string) (monto : Q) : M bool :=
  try_catch
    (let* limite := getTransferLimit userId in
     ret (Qleb monto limite))
    (λ error,
       throw (ValidationError
                (Str "Failed to validate transfer limit: " :: error_toString error))).

(** ** CreditsRepository, the active credits *)

(** [.order('fecha_creacion', { ascending: false })] *)
Definition credit_newest_first (a b : Credit.t) : Prop :=
  Credit.fecha_creacion b ≤ Credit.fecha_creacion a.

#[local] Instance credit_newest_first_dec a b : Decision (credit_newest_first a b).
Proof. unfold credit_newest_first. apply _. Defined.

(** [.eq('usuario_id', userId).in('estado', [IN_PROGRESS, DEFAULT])] *)
Definition getActiveCreditsByUser (userId : string) : M (list Credit.t) :=
  λ db, (inr (merge_sort credit_newest_first
                (filter (λ c, Credit.usuario_id c = userId
                              ∧ (Credit.estado c = CreditStatus.IN_PROGRESS
                                 ∨ Credit.estado c = CreditStatus.DEFAULT))
                        (snd <$> map_to_list (creditos db)))),
         db).

(** [.order('nro_cuota', { ascending: true })] *)
Definition by_nro_cuota (a b : Installment.t) : Prop :=
  Installment.nro_cuota a ≤ Installment.nro_cuota b.

#[local] Instance by_nro_cuota_dec a b : Decision (by_nro_cuota a b).
Proof. unfold by_nro_cuota. apply _. Defined.


(** ** CreditsService, the debt ratio *)

(** The sum runs over the active credits; [credit.cuotas || 1] and
    [income || 0] replace a 0 or a missing value. *)
Definition getDebtToIncomeRatio (userId : string) : M Q :=
  let* activeCredits := getActiveCreditsByUser userId in
  let totalMonthlyDebt :=
    fold_left
      (λ sum credit,
         let monthlyPayment :=
           (Credit.monto_total credit
            / (if Qeq_bool (Credit.cuotas credit) 0 then 1 else Credit.cuotas credit))%Q in
         (sum + monthlyPayment)%Q)
      activeCredits 0%Q in
  let* income := getDeclaredIncome userId in
  let income := if falsy_num income then 0%Q else default 0%Q income in
  if Qeq_bool income 0 then ret 0%Q
  else ret (totalMonthlyDebt / income * 100)%Q.

(** ** CreditsValidator, eligibility and amounts *)

Definition validateQuickCreditEligibility (config : Config.t) (now : Z) (userId : string)
  : M CreditEligibility.t :=
  try_catch
    (let* kycCompleted := checkKYCStatus userId in
     if negb kycCompleted
     then ret (CreditEligibility.mk false (Some [Str "KYC not completed"]) None)
     else
       let* accountAge := getAccountAge now userId in
       if accountAge <? 30
       then ret (CreditEligibility.mk false
                   (Some [Str "Account must be at least 30 days old. Current age: ";
                          Num (inject_Z accountAge); Str " days"]) None)
       else
         let* hasDefaultHistory := hasDefaultHistory userId in
         if hasDefaultHistory
         then ret (CreditEligibility.mk false (Some [Str "User has default history"]) None)
         else
           let* debtToIncome := getDebtToIncomeRatio userId in
           if Qltb 40 debtToIncome
           then ret (CreditEligibility.mk false
                       (Some [Str "Debt-to-income ratio exceeds 40%. Current ratio: ";
                              Str (toFixed2 debtToIncome); Str "%"]) None)
           else ret (CreditEligibility.mk true None
                       (Some (Config.quickCreditMaxAmount config))))
    (λ error,
       ret (CreditEligibility.mk false
              (Some (Str "Eligibility check failed: " :: error_toString error)) None)).

Definition validateNormalCreditEligibility (config : Config.t) (userId : string)
  : M CreditEligibilityTerms.t :=
  let rejected razon :=
    CreditEligibilityTerms.mk (CreditEligibility.mk false (Some razon) None) None None in
  try_catch
    (let* kycCompleted := checkKYCStatus userId in
     if negb kycCompleted
     then ret (rejected [Str "KYC not completed"])
     else
       let* income := getDeclaredIncome userId in
       if falsy_num income || Qleb (default 0%Q income) 0
       then ret (rejected [Str "Income not declared or invalid"])
       else
         let* hasDefaultHistory := hasDefaultHistory userId in
         if hasDefaultHistory
         then ret (rejected [Str "User has default history"])
         else
           let* activeCredits := getActiveCreditsByUser userId in
           let hasUnpaidCredits :=
             existsb (λ credit,
                        bool_decide (Credit.estado credit = CreditStatus.DEFAULT)
                        || bool_decide (Credit.estado credit = CreditStatus.IN_PROGRESS))
                     activeCredits in
           if hasUnpaidCredits
           then ret (rejected [Str "User has unpaid credits"])
           else
             let* externalScore := getExternalScore userId in
             if Config.enableExternalScoring config
                && (falsy_num externalScore || Qltb (default 0%Q externalScore) 50)
             then ret (rejected
                         [Str "External score below threshold. Current score: ";
                          Num (if falsy_num externalScore then 0%Q
                               else default 0%Q externalScore)])
             else ret (CreditEligibilityTerms.mk
                         (CreditEligibility.mk true None
                            (Some (Config.normalCreditMaxAmount config)))
                         (Some 3%Q) (Some 12%Q)))
    (λ error,
       ret (rejected (Str "Eligibility check failed: " :: error_toString error))).


(** ** CreditsHandler *)


Definition requestQuickCredit (config : Config.t) (now : Z) (id : string)
    (uuid : nat → string) (body : CreditsBody.t) : M (Z * json) :=
  try_catch
    (match CreditsBody.usuario_id body, CreditsBody.monto body,
           CreditsBody.plazo_dias body with
     | Some usuario_id, Some monto, Some plazo_dias =>
         if falsy_str (Some usuario_id) || falsy_num (Some monto)
            || falsy_num (Some plazo_dias)
         then throw (ValidationError
                       [Str "Missing required fields: usuario_id, monto, plazo_dias"])
         else
           let* eligibility := validateQuickCreditEligibility config now usuario_id in
           if negb (CreditEligibility.es_elegible eligibility)
           then throw (ValidationError
                         (Str "Not eligible for quick credit: "
                          :: default [Str "undefined"]
                               (CreditEligibility.razon_rechazo eligibility)))
           else
             let* credit :=
               createQuickCredit now id uuid
                 (CreditRequest.mk usuario_id CreditType.QUICK monto plazo_dias) in
             ret (201,
                  JObj [("exito", JBool true);
                        ("credito",
                         JObj [("id_credito", JStr (Credit.id_credito credit));
                               ("estado", json_of_CreditStatus (Credit.estado credit));
                               ("monto_solicitado", JNum (Credit.monto_solicitado credit));
                               ("monto_total", JNum (Credit.monto_total credit));
                               ("tasa_tea", JNum (Credit.tasa_tea credit));
                               ("tasa_cft", JNum (Credit.tasa_cft credit));
                               ("cuotas", JNum (Credit.cuotas credit));
                               ("fecha_vencimiento",
                                JDate (Credit.fecha_vencimiento credit))]);
                        ("siguiente_paso", JStr "revisar_terminos_y_aceptar")])
     | _, _, _ =>
         throw (ValidationError
                  [Str "Missing required fields: usuario_id, monto, plazo_dias"])
     end)
    (λ error, throw error).

(** ** TransfersRepository and TransfersService, one transfer *)

(** [.eq('id_transferencia', transferId).single()]: anything but exactly one
    row is reported with the code the method lets through, and read as
    [null]. *)
Definition getTransferById (transferId : string) : M (option Transfer.t) :=
  λ db, (inr match List.filter
                     (λ t, String.eqb (Transfer.id_transferencia t) transferId)
                     (transferencias db) with
             | [t] => Some t
             | _ => None
             end,
         db).

Definition getTransferDetail (transferId usuarioId : string) : M Transfer.t :=
  let* transfer := getTransferById transferId in
  match transfer with
  | None => throw (NotFoundError [Str "Transfer not found"])
  | Some transfer =>
      if negb (String.eqb (Transfer.usuario_id_origen transfer) usuarioId)
         && negb (match Transfer.usuario_id_destino transfer with
                  | Some destino => String.eqb destino usuarioId
                  | None => false
                  end)
      then throw (ValidationError [Str "User does not have access to this transfer"])
      else ret transfer
  end.

(** [TransfersService.maskCBU] *)
Definition maskCBU (cbu : string) : string :=
  if (String.length cbu <? 4)%nat then "****"
  else stars (String.length cbu - 4) +:+ slice_last 4 cbu.

(** ** TransferHandler, the previews *)


(** [usuario_id] is [req.params.usuario_id]. *)
Definition getTransferLimits (now : Z) (usuario_id : string) : M json :=
  try_catch
    (if falsy_str (Some usuario_id)
     then throw (ValidationError [Str "Missing required field: usuario_id"])
     else
       let* account := getUserAccount usuario_id in
       let limite_actual := if UserAccount.kyc_completo account then 50000%Q else 10000%Q in
       let* usedToday := getDailyTransferTotal now usuario_id in
       let disponible := Math_max 0 (limite_actual - usedToday) in
       ret (JObj [("exito", JBool true);
                  ("usuario_id", JStr usuario_id);
                  ("limite_actual", JNum limite_actual);
                  ("usado_hoy", JNum usedToday);
                  ("disponible", JNum disponible);
                  ("kyc_completo", JBool (UserAccount.kyc_completo account));
                  ("como_ampliar",
                   if UserAccount.kyc_completo account then JNull else JStr "kyc")]))
    (λ error, throw error).

(** * Notions used in the statements *)

(** ** The balance invariant *)

Definition balances_nonneg (db : DB) : Prop :=
  ∀ userId account,
    user_accounts db !! userId = Some account →
    (0 <= UserAccount.saldo_disponible account)%Q.

(** [yields m Q]: run from a store with non-negative balances, [m] leaves
    the balances non-negative, and a value it returns satisfies [Q]. *)
Definition yields {A} (m : M A) (Q : A → Prop) : Prop :=
  ∀ db, balances_nonneg db →
        balances_nonneg (snd (m db)) ∧ ∀ x, fst (m db) = inr x → Q x.

(** The operations that write [saldo_disponible]. *)
Inductive BalanceOp : Type :=
| AddFunds (userId : string) (amount : Q)
| RemoveFunds (userId : string) (amount : Q)
| UpdateAccountBalance (userId : string) (amount : Q)
| ApproveCreditAndDisburse (creditId : string)
| TransferFunds (txid fromUserId toUserId : string) (amount : Q)
| HandleTransfer (txid : string) (body : Body.t)
| ConfirmTransferWithCredit (txid : string) (body : Body.t)
| DisburseCredit (txid userId : string) (amount : Q)
| ProcessInstallmentPayment (txid userId : string) (amount : Q)
| ExecuteExternalTransfer (transferId failId transactionNumber : string)
    (request : ExternalTransferRequest.t).

(** The store after running an operation at time [now], whether it returned
    or threw. *)
Definition run (now : Z) (op : BalanceOp) (db : DB) : DB :=
  match op with
  | AddFunds userId amount => snd (addFunds now userId amount db)
  | RemoveFunds userId amount => snd (removeFunds now userId amount db)
  | UpdateAccountBalance userId amount => snd (updateAccountBalance now userId amount db)
  | ApproveCreditAndDisburse creditId => snd (approveCreditAndDisburse now creditId db)
  | TransferFunds txid fromUserId toUserId amount =>
      snd (transferFunds now txid fromUserId toUserId amount db)
  | HandleTransfer txid body => snd (handleTransfer now txid body db)
  | ConfirmTransferWithCredit txid body => snd (confirmTransferWithCredit now txid body db)
  | DisburseCredit txid userId amount => snd (disburseCredit now txid userId amount db)
  | ProcessInstallmentPayment txid userId amount =>
      snd (processInstallmentPayment now txid userId amount db)
  | ExecuteExternalTransfer transferId failId transactionNumber request =>
      snd (executeExternalTransfer now transferId failId transactionNumber request db)
  end.

(** ** The installment schedule *)


(** [totalAmount] of [calculateCredit], before [Math.round]. *)
Definition totalAmount (principal tea termDays : Q) : Q :=
  (principal + principal * (tea / 100) * (termDays / 365)
   + principal * (adminChargePercentage / 100))%Q.


(** The terms for which [normalCreditRates] has a rate. *)
Definition normal_rate_terms : list Z := fst <$> normalCreditRates.

(** ** Rows written by the security and KYC operations *)

(** The row [unblockAccount] writes. *)
Definition unblocked (now : Z) (account : UserAccount.t) : UserAccount.t :=
  apply_updates
    ([Set_bloqueado false; Set_intentos_fallidos 0; Set_fecha_proximo_intento None]
     ++ [Set_fecha_actualizacion now]) account.

(** The row [recordFailedLoginAttempt] writes. *)
Definition failed_once (now : Z) (account : UserAccount.t) : UserAccount.t :=
  apply_updates
    ((if 5 <=? UserAccount.intentos_fallidos account + 1
      then [Set_intentos_fallidos (UserAccount.intentos_fallidos account + 1)]
           ++ [Set_bloqueado true;
               Set_fecha_proximo_intento (Some (now + 60 * 60 * 1000))]
      else [Set_intentos_fallidos (UserAccount.intentos_fallidos account + 1)])
     ++ [Set_fecha_actualizacion now]) account.


(** A document of kind [tipo] of this user is on file. *)
Definition on_file (userId : string) (tipo : TipoDocumento.t) (db : DB) : Prop :=
  ∃ d, d ∈ kyc_documents db
       ∧ KYCDocument.usuario_id d = userId
       ∧ KYCDocument.tipo_documento d = tipo.

(** The row [updateKYCStatus(userId, APROBADO)] writes, in one [update]. *)
Definition approved (now : Z) (account : UserAccount.t) : UserAccount.t :=
  apply_updates
    (([Set_kyc_status KYCStatus.APROBADO]
      ++ [Set_kyc_completo true; Set_limite_transferencia 50000])
     ++ [Set_fecha_actualizacion now]) account.

(** ** Reads and errors *)

(** [readonly m]: [m] never writes the store. *)
Definition readonly {A} (m : M A) : Prop := ∀ db, snd (m db) = db.

Definition invalid_quick_term : AppError :=
  ValidationError [Str "Invalid term for quick credit. Allowed: 30, 60, 90 days"].

Definition invalid_normal_term : AppError :=
  ValidationError [Str "Invalid term for normal credit. Allowed: 3, 6, 9, 12 months"].

(** ** Rows after a write *)

(** The row [updateBalance] stores: the new balance and the time of the
    write. *)
Definition rebalanced (now : Z) (v : Q) (account : UserAccount.t) : UserAccount.t :=
  apply_updates [Set_saldo_disponible v; Set_fecha_actualizacion now] account.

(** The store with the row of [userId] replaced. *)
Definition with_account (userId : string) (account : UserAccount.t) (db : DB) : DB :=
  with_user_accounts (<[userId := account]> (user_accounts db)) db.

(** The shape every [BankingAPIResponse] has: it echoes the amount and the
    time; a success carries the transaction id and no reason, a failure a
    reason and no transaction id. *)
Definition response_of (now : Z) (txid : string) (amount : Q)
    (response : BankingAPIResponse.t) : Prop :=
  BankingAPIResponse.monto response = amount
  ∧ BankingAPIResponse.fecha response = now
  ∧ if BankingAPIResponse.exito response
    then BankingAPIResponse.transaccion_id response = Some txid
         ∧ BankingAPIResponse.razon_fallo response = None
    else BankingAPIResponse.transaccion_id response = None
         ∧ is_Some (BankingAPIResponse.razon_fallo response).

(** The row [updatePassword] writes. *)
Definition with_password (now : Z) (passwordHash : string) (account : UserAccount.t)
  : UserAccount.t :=
  apply_updates [Set_password_hash passwordHash; Set_fecha_actualizacion now] account.

(** The row [blockAccount] writes. *)
Definition blocked (now : Z) (account : UserAccount.t) : UserAccount.t :=
  apply_updates [Set_bloqueado true; Set_fecha_actualizacion now] account.

(** The store with the reset token marked as used at [now]. *)
Definition with_token_used (now : Z) (token : string) (db : DB) : DB :=
  snd (markResetTokenAsUsed now token db).

Definition account_locked : AppError :=
  ValidationError [Str "Account is temporarily locked. Try again later."].

(** ** Stored installments *)




(** The row [updateKYCStatus(userId, RECHAZADO)] writes. *)
Definition rejected (now : Z) (account : UserAccount.t) : UserAccount.t :=
  apply_updates
    [Set_kyc_status KYCStatus.RECHAZADO; Set_kyc_completo false;
     Set_fecha_actualizacion now] account.

Definition invalid_reset_token : AppError :=
  ValidationError [Str "Invalid or expired password reset token"].

(** ** Credits that count as debt *)

(** The user has a credit that is in progress or in default. *)
Definition has_active_credit (userId : string) (db : DB) : Prop :=
  ∃ id credit,
    creditos db !! id = Some credit
    ∧ Credit.usuario_id credit = userId
    ∧ (Credit.estado credit = CreditStatus.IN_PROGRESS
       ∨ Credit.estado credit = CreditStatus.DEFAULT).

(** The age of the account in whole days, as the eligibility checks count
    it. *)
Definition age_in_days (now : Z) (account : UserAccount.t) : Z :=
  (now - UserAccount.fecha_registro account) `div` (1000 * 60 * 60 * 24).

(** * Properties *)

(** ** Comparisons and rounding *)

Lemma Qleb_true x y : Qleb x y = true ↔ (x <= y)%Q.
Proof. apply Qle_bool_iff. Qed.

Lemma Qleb_false x y : Qleb x y = false ↔ (y < x)%Q.
Proof.
  unfold Qleb. split; intros H.
  - apply Qnot_le_lt. intros Hle. apply Qle_bool_iff in Hle. congruence.
  - destruct (Qle_bool x y) eqn:E; [|done].
    apply Qle_bool_iff in E. exfalso. eapply Qlt_not_le; eauto.
Qed.

Lemma Qltb_true x y : Qltb x y = true ↔ (x < y)%Q.
Proof.
  unfold Qltb. rewrite negb_true_iff. apply Qleb_false.
Qed.

Lemma Qltb_false x y : Qltb x y = false ↔ (y <= x)%Q.
Proof.
  unfold Qltb. rewrite negb_false_iff. apply Qle_bool_iff.
Qed.


Lemma Math_max_spec x y : (x <= Math_max x y)%Q ∧ (y <= Math_max x y)%Q.
Proof.
  unfold Math_max. destruct (Qle_bool x y) eqn:E.
  - apply Qle_bool_iff in E. split; lra.
  - apply Qleb_false in E. split; lra.
Qed.

(** ** Reading and writing rows *)

Lemma saldo_set_field u a :
  UserAccount.saldo_disponible (set_field u a) =
  match u with
  | Set_saldo_disponible v => v
  | _ => UserAccount.saldo_disponible a
  end.
Proof. destruct a, u as [| | | | | |[?|]| |]; reflexivity. Qed.

Lemma update_found now userId updates db row :
  user_accounts db !! userId = Some row →
  update now userId updates db =
  (inr (apply_updates (updates ++ [Set_fecha_actualizacion now]) row),
   with_user_accounts
     (<[userId := apply_updates (updates ++ [Set_fecha_actualizacion now]) row]>
        (user_accounts db)) db).
Proof. intros H. unfold update. by rewrite H. Qed.

Lemma getUserAccount_found userId db row :
  user_accounts db !! userId = Some row →
  getUserAccount userId db = (inr row, db).
Proof. intros H. unfold getUserAccount, bind, findByUserId. by rewrite H. Qed.

Lemma getUserAccount_missing userId db :
  user_accounts db !! userId = None →
  getUserAccount userId db = (inl (user_not_found userId), db).
Proof. intros H. unfold getUserAccount, bind, findByUserId. by rewrite H. Qed.

Lemma getBalance_found userId db row :
  user_accounts db !! userId = Some row →
  getBalance userId db = (inr (UserAccount.saldo_disponible row), db).
Proof.
  intros H. unfold getBalance, try_catch, bind, findByUserId. by rewrite H.
Qed.

Lemma getBalance_missing userId db :
  user_accounts db !! userId = None →
  getBalance userId db = (inl (user_not_found userId), db).
Proof.
  intros H. unfold getBalance, try_catch, bind, findByUserId. by rewrite H.
Qed.

(** ** The balance invariant *)

Lemma balances_nonneg_checked db :
  bool_decide (map_Forall (λ _ a, Qle_bool 0 (UserAccount.saldo_disponible a) = true)
                          (user_accounts db)) = true →
  balances_nonneg db.
Proof.
  intros H%bool_decide_eq_true userId account Hacc.
  apply Qle_bool_iff. exact (H userId account Hacc).
Qed.

Lemma yields_ret {A} (x : A) (Q : A → Prop) : Q x → yields (ret x) Q.
Proof. intros HQ db Hdb. split; [done|]. simpl. by intros ? [= <-]. Qed.

Lemma yields_throw {A} e (Q : A → Prop) : yields (throw e) Q.
Proof. intros db Hdb. split; [done|]. simpl. by intros ? [=]. Qed.

Lemma yields_lift {A} (r : Res A) : yields (lift r) (λ _, True).
Proof. intros db Hdb. by split. Qed.

Lemma yields_weaken {A} (m : M A) (Q R : A → Prop) :
  yields m Q → (∀ x, Q x → R x) → yields m R.
Proof. intros Hm HQR db Hdb. destruct (Hm db Hdb) as [H1 H2]. split; eauto. Qed.

Lemma yields_bind {A B} (m : M A) (f : A → M B) (Q : A → Prop) (R : B → Prop) :
  yields m Q → (∀ x, Q x → yields (f x) R) → yields (bind m f) R.
Proof.
  intros Hm Hf db Hdb. destruct (Hm db Hdb) as [H1 H2]. unfold bind.
  destruct (m db) as [[e|x] db']; simpl in *.
  - split; [done|]. by intros ? [=].
  - apply (Hf x); eauto.
Qed.

Lemma yields_try_catch {A} (body : M A) (handler : AppError → M A) (Q : A → Prop) :
  yields body Q → (∀ e, yields (handler e) Q) → yields (try_catch body handler) Q.
Proof.
  intros Hb Hh db Hdb. destruct (Hb db Hdb) as [H1 H2]. unfold try_catch.
  destruct (body db) as [[e|x] db']; simpl in *.
  - by apply Hh.
  - split; [done|]. intros ? [= <-]. eauto.
Qed.

Lemma yields_rethrow {A} prefix e (Q : A → Prop) : yields (rethrow prefix e) Q.
Proof. unfold rethrow. destruct (isNotFoundError e); apply yields_throw. Qed.

Lemma yields_getUserAccount userId :
  yields (getUserAccount userId) (λ a, (0 <= UserAccount.saldo_disponible a)%Q).
Proof.
  intros db Hdb. destruct (user_accounts db !! userId) as [row|] eqn:E.
  - rewrite (getUserAccount_found _ _ _ E). split; [done|].
    simpl. intros ? [= <-]. eauto.
  - rewrite (getUserAccount_missing _ _ E). split; [done|]. by intros ? [=].
Qed.

Lemma yields_getBalance userId : yields (getBalance userId) (λ b, (0 <= b)%Q).
Proof.
  intros db Hdb. destruct (user_accounts db !! userId) as [row|] eqn:E.
  - rewrite (getBalance_found _ _ _ E). split; [done|].
    simpl. intros ? [= <-]. eauto.
  - rewrite (getBalance_missing _ _ E). split; [done|]. by intros ? [=].
Qed.

Lemma yields_updateBalance now userId v :
  (0 <= v)%Q →
  yields (updateBalance now userId v) (λ a, UserAccount.saldo_disponible a = v).
Proof.
  intros Hv db Hdb. unfold updateBalance.
  destruct (user_accounts db !! userId) as [row|] eqn:E.
  - rewrite (update_found _ _ _ _ _ E). simpl.
    assert (Hs : UserAccount.saldo_disponible
                   (set_field (Set_fecha_actualizacion now)
                      (set_field (Set_saldo_disponible v) row)) = v)
      by (by rewrite !saldo_set_field).
    split.
    + intros u a. simpl. destruct (decide (userId = u)) as [->|Hne].
      * rewrite lookup_insert_eq. intros [= <-]. by rewrite Hs.
      * rewrite lookup_insert_ne by done. apply Hdb.
    + by intros ? [= <-].
  - unfold update. rewrite E. split; [done|]. by intros ? [=].
Qed.

Lemma yields_addFunds now userId amount :
  yields (addFunds now userId amount) (λ _, True).
Proof.
  unfold addFunds. eapply yields_bind; [apply yields_getUserAccount|].
  intros account Hacc. simpl in *. destruct (Qleb amount 0) eqn:E.
  - apply yields_throw.
  - apply Qleb_false in E.
    eapply yields_weaken; [apply yields_updateBalance; lra | done].
Qed.

Lemma yields_removeFunds now userId amount :
  yields (removeFunds now userId amount) (λ _, True).
Proof.
  unfold removeFunds. eapply yields_bind; [apply yields_getUserAccount|].
  intros account Hacc. simpl in *. destruct (Qleb amount 0) eqn:E.
  - apply yields_throw.
  - destruct (Qltb (UserAccount.saldo_disponible account) amount) eqn:E'.
    + apply yields_throw.
    + apply Qltb_false in E'.
      eapply yields_weaken; [apply yields_updateBalance; lra | done].
Qed.

Lemma yields_updateAccountBalance now userId amount :
  yields (updateAccountBalance now userId amount) (λ _, True).
Proof.
  unfold updateAccountBalance. eapply yields_bind; [apply yields_getUserAccount|].
  intros account Hacc. simpl in *. destruct (Qltb amount 0) eqn:E.
  - apply yields_throw.
  - apply Qltb_false in E.
    eapply yields_weaken; [by apply yields_updateBalance | done].
Qed.

Lemma yields_updateCredit now creditId updates :
  yields (updateCredit now creditId updates) (λ _, True).
Proof.
  intros db Hdb. unfold updateCredit.
  destruct (creditos db !! creditId); simpl; by split.
Qed.

Lemma yields_approveCreditAndDisburse now creditId :
  yields (approveCreditAndDisburse now creditId) (λ _, True).
Proof.
  unfold approveCreditAndDisburse.
  eapply yields_bind with (Q := λ _, True); [intros db Hdb; by split|].
  intros [credit|] _; [|apply yields_throw].
  eapply yields_bind; [apply yields_getBalance|].
  intros userBalance Hb. simpl in *.
  destruct (Qltb userBalance (Credit.monto_solicitado credit)) eqn:E.
  - apply yields_throw.
  - apply Qltb_false in E.
    eapply yields_bind; [apply yields_updateBalance; lra|].
    intros _ _. eapply yields_bind; [apply yields_updateCredit|].
    intros. by apply yields_ret.
Qed.

Lemma yields_transferFunds now txid fromUserId toUserId amount :
  yields (transferFunds now txid fromUserId toUserId amount) (λ _, True).
Proof.
  unfold transferFunds. apply yields_try_catch.
  - eapply yields_bind; [apply yields_getBalance|].
    intros senderBalance _. simpl. destruct (Qltb senderBalance amount).
    + by apply yields_ret.
    + eapply yields_bind; [apply yields_removeFunds|]. intros senderUpdated _.
      eapply yields_bind; [apply yields_addFunds|]. intros. by apply yields_ret.
  - intros. by apply yields_ret.
Qed.

Lemma yields_handleTransfer now txid body :
  yields (handleTransfer now txid body) (λ _, True).
Proof.
  unfold handleTransfer. apply yields_try_catch; [|intros; apply yields_throw].
  destruct (Body.usuario_id body) as [usuario_id|]; [|apply yields_throw].
  destruct (Body.monto_destino body) as [monto_destino|]; [|apply yields_throw].
  destruct (Body.cuenta_destino body) as [cuenta_destino|]; [|apply yields_throw].
  destruct (_ || _); [apply yields_throw|].
  destruct (Qleb monto_destino 0); [apply yields_throw|].
  eapply yields_bind; [apply yields_getBalance|]. intros currentBalance _. simpl.
  destruct (Qleb monto_destino currentBalance).
  - eapply yields_bind; [apply yields_transferFunds|]. intros result _.
    destruct (BankingAPIResponse.exito result); [by apply yields_ret|apply yields_throw].
  - eapply yields_bind; [apply yields_lift|]. intros. by apply yields_ret.
Qed.

Lemma yields_confirmTransferWithCredit now txid body :
  yields (confirmTransferWithCredit now txid body) (λ _, True).
Proof.
  unfold confirmTransferWithCredit.
  apply yields_try_catch; [|intros; apply yields_throw].
  destruct (Body.usuario_id body) as [usuario_id|]; [|apply yields_throw].
  destruct (Body.id_credito body) as [id_credito|]; [|apply yields_throw].
  destruct (Body.monto_destino body) as [monto_destino|]; [|apply yields_throw].
  destruct (Body.cuenta_destino body) as [cuenta_destino|]; [|apply yields_throw].
  destruct (_ || _); [apply yields_throw|].
  eapply yields_bind; [apply yields_approveCreditAndDisburse|]. intros credit _.
  eapply yields_bind; [apply yields_transferFunds|]. intros result _.
  destruct (negb _); [apply yields_throw|by apply yields_ret].
Qed.

Lemma yields_disburseCredit now txid userId amount :
  yields (disburseCredit now txid userId amount) (λ _, True).
Proof.
  unfold disburseCredit. apply yields_try_catch; [|intros; by apply yields_ret].
  eapply yields_bind; [apply yields_getUserAccount|]. intros account _.
  eapply yields_bind; [apply yields_addFunds|]. intros. by apply yields_ret.
Qed.

Lemma yields_processInstallmentPayment now txid userId amount :
  yields (processInstallmentPayment now txid userId amount) (λ _, True).
Proof.
  unfold processInstallmentPayment.
  apply yields_try_catch; [|intros; by apply yields_ret].
  eapply yields_bind; [apply yields_getUserAccount|]. intros account _.
  destruct (Qltb _ _); [by apply yields_ret|].
  eapply yields_bind; [apply yields_removeFunds|]. intros. by apply yields_ret.
Qed.

Lemma yields_executeExternalTransfer now transferId failId transactionNumber request :
  yields (executeExternalTransfer now transferId failId transactionNumber request)
         (λ _, True).
Proof.
  unfold executeExternalTransfer.
  apply yields_try_catch; [|intros; apply yields_throw].
  destruct (negb (CBUValidationResult.es_valido _)); [by apply yields_ret|].
  destruct (negb (isExternalAccountActive _)); [by apply yields_ret|].
  eapply yields_bind; [apply yields_getBalance|]. intros senderBalance _.
  destruct (Qltb _ _); [by apply yields_ret|].
  apply yields_try_catch.
  - eapply yields_bind; [apply yields_removeFunds|]. intros. by apply yields_ret.
  - intros error. eapply yields_bind; [apply yields_addFunds|].
    intros. by apply yields_ret.
Qed.

Lemma removeFunds_insufficient now userId amount db account :
  user_accounts db !! userId = Some account →
  (UserAccount.saldo_disponible account < amount)%Q →
  ∃ message, removeFunds now userId amount db = (inl (ValidationError message), db).
Proof.
  intros Hacc Hlt. unfold removeFunds, bind.
  rewrite (getUserAccount_found _ _ _ Hacc).
  destruct (Qleb amount 0); [by eexists|].
  apply Qltb_true in Hlt. rewrite Hlt. by eexists.
Qed.

Lemma approve_insufficient now creditId db credit account :
  creditos db !! creditId = Some credit →
  user_accounts db !! Credit.usuario_id credit = Some account →
  (UserAccount.saldo_disponible account < Credit.monto_solicitado credit)%Q →
  approveCreditAndDisburse now creditId db =
  (inl (InsufficientFundsError
          [Str "Insufficient funds to disburse credit. Available: ";
           Num (UserAccount.saldo_disponible account); Str ", Required: ";
           Num (Credit.monto_solicitado credit)]),
   db).
Proof.
  intros Hc Hacc Hlt. unfold approveCreditAndDisburse, bind, findCreditById.
  rewrite Hc. rewrite (getBalance_found _ _ _ Hacc).
  apply Qltb_true in Hlt. by rewrite Hlt.
Qed.

(** C2. Every operation that writes an account balance ([addFunds],
    [removeFunds], [updateAccountBalance], credit disbursement, transfer
    execution) keeps every [saldo_disponible] greater than or equal to 0,
    whether it returns or throws, and so does any sequence of them; an
    operation that would go below 0 ([removeFunds] with an amount above the
    balance, disbursement with a balance below the principal) fails and
    leaves the store as it was. *)
Theorem balance_never_negative db :
  balances_nonneg db →
  (∀ now op, balances_nonneg (run now op db))
  ∧ (∀ ops : list (Z * BalanceOp),
       balances_nonneg (fold_left (λ db step, run (fst step) (snd step) db) ops db))
  ∧ (∀ now userId account amount,
       user_accounts db !! userId = Some account →
       (UserAccount.saldo_disponible account < amount)%Q →
       ∃ message,
         removeFunds now userId amount db = (inl (ValidationError message), db))
  ∧ (∀ now creditId credit account,
       creditos db !! creditId = Some credit →
       user_accounts db !! Credit.usuario_id credit = Some account →
       (UserAccount.saldo_disponible account < Credit.monto_solicitado credit)%Q →
       ∃ message,
         approveCreditAndDisburse now creditId db =
         (inl (InsufficientFundsError message), db)).
Proof.
  assert (Hrun : ∀ now op db, balances_nonneg db → balances_nonneg (run now op db)).
  { intros now op db0 Hdb. destruct op; simpl.
    - by apply yields_addFunds.
    - by apply yields_removeFunds.
    - by apply yields_updateAccountBalance.
    - by apply yields_approveCreditAndDisburse.
    - by apply yields_transferFunds.
    - by apply yields_handleTransfer.
    - by apply yields_confirmTransferWithCredit.
    - by apply yields_disburseCredit.
    - by apply yields_processInstallmentPayment.
    - by apply yields_executeExternalTransfer. }
  intros Hdb. repeat split.
  - intros. by apply Hrun.
  - intros ops. revert db Hdb.
    induction ops as [|[now op] ops IH]; intros db Hdb; simpl; [done|].
    apply IH. by apply Hrun.
  - intros. by eapply removeFunds_insufficient.
  - intros now creditId credit account Hc Hacc Hlt.
    eexists. by apply approve_insufficient.
Qed.

(** ** Disbursement *)



(** ** The installment schedule *)












(** ** The daily limit *)

Lemma getDailyTransferTotal_reads now usuarioId db :
  ∃ usedToday, getDailyTransferTotal now usuarioId db = (inr usedToday, db).
Proof. by eexists. Qed.

Lemma getDailyTransferCount_reads now usuarioId db :
  ∃ n, getDailyTransferCount now usuarioId db = (inr n, db) ∧ 0 ≤ n.
Proof. eexists. split; [reflexivity|]. lia. Qed.

Lemma falsy_str_Some s : s ≠ "" → falsy_str (Some s) = false.
Proof. intros H. simpl. by apply String.eqb_neq. Qed.

Lemma falsy_num_Some q : (0 < q)%Q → falsy_num (Some q) = false.
Proof.
  intros H. simpl. destruct (Qeq_bool q 0) eqn:E; [|done].
  apply Qeq_bool_eq in E. lra.
Qed.


(** ** Login attempts and the lock *)

Lemma isAccountBlocked_open now userId db account :
  user_accounts db !! userId = Some account →
  UserAccount.bloqueado account = false →
  isAccountBlocked now userId db = (inr false, db).
Proof.
  intros Hacc Hb. unfold isAccountBlocked, try_catch, bind, findByUserId.
  by rewrite Hacc, Hb.
Qed.


Lemma unblocked_fields now account :
  UserAccount.bloqueado (unblocked now account) = false
  ∧ UserAccount.intentos_fallidos (unblocked now account) = 0
  ∧ UserAccount.password_hash (unblocked now account) = UserAccount.password_hash account
  ∧ UserAccount.saldo_disponible (unblocked now account)
    = UserAccount.saldo_disponible account
  ∧ UserAccount.fecha_proximo_intento (unblocked now account)
    = if undefined_clears then None else UserAccount.fecha_proximo_intento account.
Proof. by destruct account. Qed.


Lemma getPasswordHash_found userId db account hash :
  user_accounts db !! userId = Some account →
  UserAccount.password_hash account = Some hash →
  hash ≠ "" →
  getPasswordHash userId db = (inr (Some hash), db).
Proof.
  intros Hacc Hh Hne. unfold getPasswordHash, try_catch, bind, findByUserId.
  by rewrite Hacc, Hh, (falsy_str_Some _ Hne).
Qed.


Lemma recordFailedLoginAttempt_found now userId db account :
  user_accounts db !! userId = Some account →
  recordFailedLoginAttempt now userId db =
  (inr (failed_once now account),
   with_user_accounts (<[userId := failed_once now account]> (user_accounts db)) db).
Proof.
  intros Hacc. unfold recordFailedLoginAttempt, try_catch, bind, findByUserId.
  rewrite Hacc. cbn [ret]. by rewrite (update_found _ _ _ _ _ Hacc).
Qed.



(** ** Password reset *)


Lemma reset_with_unknown_token now salt token newPassword db :
  password_reset_tokens db !! token = None →
  updatePasswordWithResetToken now salt token newPassword db =
  (inl (ValidationError
          (if (String.length newPassword <? 8)%nat
           then [Str "Password must be at least 8 characters long"]
           else [Str "Invalid or expired password reset token"])),
   db).
Proof.
  intros Hdata. unfold updatePasswordWithResetToken.
  destruct (String.length newPassword <? 8)%nat; [done|].
  unfold bind, validatePasswordResetToken, unused_token. by rewrite Hdata.
Qed.

(** With a valid token and a password of at least 8 characters the reset goes
    through: the new hash is stored and the token is marked as used. *)
Lemma reset_with_valid_token now salt token newPassword db data account :
  password_reset_tokens db !! token = Some data →
  PasswordResetToken.utilizado data = false →
  now < PasswordResetToken.fecha_vencimiento data →
  user_accounts db !! PasswordResetToken.usuario_id data = Some account →
  (8 ≤ String.length newPassword)%nat →
  ∃ account' db',
    updatePasswordWithResetToken now salt token newPassword db = (inr account', db')
    ∧ UserAccount.password_hash account' = Some (hashPassword salt newPassword)
    ∧ user_accounts db' !! PasswordResetToken.usuario_id data = Some account'
    ∧ PasswordResetToken.utilizado <$> password_reset_tokens db' !! token = Some true.
Proof.
  intros Hdata Hunused Hfresh Hacc Hlen. unfold updatePasswordWithResetToken.
  replace (String.length newPassword <? 8)%nat with false
    by (symmetry; apply Nat.ltb_ge; lia).
  unfold bind, validatePasswordResetToken, getUserIdFromResetToken, unused_token.
  rewrite Hdata, Hunused.
  replace (now <? PasswordResetToken.fecha_vencimiento data) with true
    by (symmetry; apply Z.ltb_lt; lia).
  cbn [negb]. unfold markResetTokenAsUsed, updatePassword, update.
  cbn. rewrite Hdata, Hunused. cbn. rewrite Hacc.
  eexists _, _. split; [reflexivity|]. split_and!.
  - by destruct account.
  - cbn. apply lookup_insert_eq.
  - cbn. by rewrite lookup_alter_eq, Hdata.
Qed.

(** ** KYC approval *)

Lemma existsb_Permutation {A} (f : A → bool) (l l' : list A) :
  l ≡ₚ l' → existsb f l = existsb f l'.
Proof.
  induction 1 as [|x l l' _ IH|x y l|l l' l'' _ IH1 _ IH2]; simpl.
  - done.
  - by rewrite IH.
  - destruct (f x), (f y); done.
  - by rewrite IH1.
Qed.

Lemma TipoDocumento_eqb_eq a b : TipoDocumento.eqb a b = true ↔ a = b.
Proof. destruct a, b; simpl; split; congruence. Qed.

Lemma has_document_on_file userId tipo db docs :
  getKYCDocuments_repo userId db = (inr docs, db) →
  existsb (λ d, TipoDocumento.eqb (KYCDocument.tipo_documento d) tipo) docs = true
  ↔ on_file userId tipo db.
Proof.
  unfold getKYCDocuments_repo. intros [= <-].
  rewrite (existsb_Permutation _ _ _ (merge_sort_Permutation _ _)).
  rewrite existsb_exists. unfold on_file. split.
  - intros (d & Hin & Htipo). exists d.
    apply list_elem_of_In, list_elem_of_filter in Hin as [Hu Hd].
    split_and!; [done..|]. by apply TipoDocumento_eqb_eq.
  - intros (d & Hd & Hu & Htipo). exists d. split.
    + apply list_elem_of_In, list_elem_of_filter. by split.
    + by apply TipoDocumento_eqb_eq.
Qed.

Lemma updateTransferLimit_positive now userId limite db :
  (0 < limite)%Q →
  updateTransferLimit_repo now userId limite db =
  update now userId [Set_limite_transferencia limite] db.
Proof.
  intros Hpos. apply Qleb_false in Hpos.
  unfold updateTransferLimit_repo, bind, try_catch. by rewrite Hpos.
Qed.

(** C7. For an existing user, KYC approval succeeds exactly when at least
    one [dni] document and at least one [selfie] document of that user are
    on file, whatever their [estado_validacion].  On success the status
    [APROBADO], [kyc_completo] and the transfer limit 50000 are written by
    one and the same [update], and the whole approval leaves the store
    exactly as that single write does; with either document missing it
    fails with a validation error and writes nothing. *)
Theorem approveKYC_spec now userId db account :
  user_accounts db !! userId = Some account →
  (on_file userId TipoDocumento.dni db ∧ on_file userId TipoDocumento.selfie db →
   updateKYCStatus now userId KYCStatus.APROBADO db =
   (inr (approved now account),
    with_user_accounts (<[userId := approved now account]> (user_accounts db)) db)
   ∧ approveKYC now userId db = updateKYCStatus now userId KYCStatus.APROBADO db
   ∧ UserAccount.kyc_status (approved now account) = Some KYCStatus.APROBADO
   ∧ UserAccount.kyc_completo (approved now account) = true
   ∧ UserAccount.limite_transferencia (approved now account) = Some 50000%Q)
  ∧ (¬ (on_file userId TipoDocumento.dni db ∧ on_file userId TipoDocumento.selfie db) →
     approveKYC now userId db =
     (inl (ValidationError
             [Str "User must upload DNI and selfie photos for KYC approval"]),
      db)
     ∧ ∀ acc, user_accounts db !! userId = Some acc →
              UserAccount.kyc_status acc = UserAccount.kyc_status account
              ∧ UserAccount.limite_transferencia acc
                = UserAccount.limite_transferencia account).
Proof.
  intros Hacc.
  assert (Hdocs : ∃ docs, getKYCDocuments_repo userId db = (inr docs, db))
    by by eexists.
  destruct Hdocs as [docs Hdocs].
  pose proof (has_document_on_file userId TipoDocumento.dni db docs Hdocs) as Hdni.
  pose proof (has_document_on_file userId TipoDocumento.selfie db docs Hdocs) as Hselfie.
  assert (Hupd : updateKYCStatus now userId KYCStatus.APROBADO db =
                 (inr (approved now account),
                  with_user_accounts
                    (<[userId := approved now account]> (user_accounts db)) db))
    by (unfold updateKYCStatus; by rewrite (update_found _ _ _ _ _ Hacc)).
  split.
  - intros [Hd Hs]. apply Hdni in Hd. apply Hselfie in Hs.
    split_and!; [done| |by destruct account..].
    rewrite Hupd. unfold approveKYC, bind, getKYCDocuments, bind.
    rewrite (getUserAccount_found _ _ _ Hacc), Hdocs, Hd, Hs. cbn [negb orb].
    rewrite Hupd, updateTransferLimit_positive by done.
    unfold update. cbn [user_accounts with_user_accounts].
    rewrite lookup_insert_eq. cbn [ret]. rewrite insert_insert_eq.
    f_equal. unfold with_user_accounts. cbn. f_equal. f_equal. by destruct account.
  - intros Hmissing. split.
    + unfold approveKYC, bind, getKYCDocuments, bind.
      rewrite (getUserAccount_found _ _ _ Hacc), Hdocs.
      destruct (existsb _ docs) eqn:Ed; [|done].
      destruct (existsb (λ d, TipoDocumento.eqb _ TipoDocumento.selfie) docs) eqn:Es; [|done].
      exfalso. apply Hmissing. split; [by apply Hdni | by apply Hselfie].
    + intros acc Hacc'. rewrite Hacc in Hacc'. by injection Hacc' as <-.
Qed.

(** ** Fraud scoring *)

Lemma readonly_ret {A} (x : A) : readonly (ret x).
Proof. done. Qed.

Lemma readonly_throw {A} e : readonly (@throw A e).
Proof. done. Qed.

Lemma readonly_lift {A} (r : Res A) : readonly (lift r).
Proof. done. Qed.

Lemma readonly_bind {A B} (m : M A) (f : A → M B) :
  readonly m → (∀ x, readonly (f x)) → readonly (bind m f).
Proof.
  intros Hm Hf db. unfold bind. specialize (Hm db).
  destruct (m db) as [[e|x] db']; simpl in *; [done|].
  subst db'. apply Hf.
Qed.

Lemma readonly_try_catch {A} (body : M A) handler :
  readonly body → (∀ e, readonly (handler e)) → readonly (try_catch body handler).
Proof.
  intros Hb Hh db. unfold try_catch. specialize (Hb db).
  destruct (body db) as [[e|x] db']; simpl in *; [|done].
  subst db'. apply Hh.
Qed.

Lemma readonly_getUserAccount userId : readonly (getUserAccount userId).
Proof.
  unfold getUserAccount. apply readonly_bind; [done|].
  intros [account|]; [apply readonly_ret | apply readonly_throw].
Qed.


Lemma readonly_getDailyTransferTotal now userId :
  readonly (getDailyTransferTotal now userId).
Proof. done. Qed.


Lemma readonly_checkLimitsPreview now body : readonly (checkLimitsPreview now body).
Proof.
  unfold checkLimitsPreview. apply readonly_try_catch; [|intros; apply readonly_throw].
  destruct (Body.usuario_id body) as [usuario_id|]; [|apply readonly_throw].
  destruct (Body.monto_transferencia body) as [monto|]; [|apply readonly_throw].
  destruct (_ || _); [apply readonly_throw|].
  destruct (Qleb monto 0); [apply readonly_throw|].
  apply readonly_bind; [apply readonly_getUserAccount|]. intros account.
  apply readonly_bind; [apply readonly_getDailyTransferTotal|]. intros used.
  destruct (Qltb _ _); apply readonly_ret.
Qed.



(** ** Insufficient balance on a transfer *)


(** ** Terms *)

Lemma quick_rate_iff termDays :
  is_Some (rate_of quickCreditRates termDays) ↔ includes quick_terms termDays = true.
Proof.
  unfold rate_of, includes, quickCreditRates, quick_terms. cbn [List.find existsb fst].
  destruct (Qeq_bool termDays (inject_Z 30)); simpl; [split; intros; [done|by eexists]|].
  destruct (Qeq_bool termDays (inject_Z 60)); simpl; [split; intros; [done|by eexists]|].
  destruct (Qeq_bool termDays (inject_Z 90)); simpl; [split; intros; [done|by eexists]|].
  split; [by intros [? [=]] | done].
Qed.

Lemma normal_rate_iff termMonths :
  is_Some (rate_of normalCreditRates termMonths)
  ↔ includes normal_rate_terms termMonths = true.
Proof.
  change normal_rate_terms with [3; 6; 12].
  unfold rate_of, includes, normalCreditRates. cbn [List.find existsb fst].
  destruct (Qeq_bool termMonths (inject_Z 3)); simpl; [split; intros; [done|by eexists]|].
  destruct (Qeq_bool termMonths (inject_Z 6)); simpl; [split; intros; [done|by eexists]|].
  destruct (Qeq_bool termMonths (inject_Z 12)); simpl; [split; intros; [done|by eexists]|].
  split; [by intros [? [=]] | done].
Qed.

(** A Quick credit is simulated exactly for the terms 30, 60 and 90; any
    other term is an invalid-term validation error. *)
Lemma simulateQuickCredit_term now userId amount termDays :
  (includes quick_terms termDays = true →
   ∃ sim, simulateQuickCredit now userId amount termDays = inr sim)
  ∧ (includes quick_terms termDays = false →
     simulateQuickCredit now userId amount termDays = inl invalid_quick_term).
Proof.
  unfold simulateQuickCredit. split; intros H.
  - apply quick_rate_iff in H as [tea ->]. by eexists.
  - destruct (rate_of quickCreditRates termDays) as [tea|] eqn:E; [|done].
    assert (includes quick_terms termDays = true)
      by (apply quick_rate_iff; by rewrite E).
    congruence.
Qed.

(** Creating a Quick credit with another term fails the same way and
    writes no record. *)
Lemma createQuickCredit_invalid_term now id uuid request db :
  CreditRequest.tipo_credito request = CreditType.QUICK →
  includes quick_terms (CreditRequest.plazo_dias request) = false →
  createQuickCredit now id uuid request db = (inl invalid_quick_term, db).
Proof.
  intros Ht Hterm. unfold createQuickCredit, bind, lift. rewrite Ht.
  by rewrite (proj2 (simulateQuickCredit_term _ _ _ _) Hterm).
Qed.

(** A Normal credit with a term outside 3, 6, 9, 12 months is refused, by
    the simulation and by the creation, which then writes no record. *)
Lemma normal_outside_terms now userId amount termMonths :
  includes normal_terms termMonths = false →
  simulateNormalCredit now userId amount termMonths = inl invalid_normal_term.
Proof.
  intros H. unfold simulateNormalCredit.
  destruct (rate_of normalCreditRates termMonths) as [tea|] eqn:E; [|done].
  assert (Hin : includes normal_rate_terms termMonths = true)
    by (apply normal_rate_iff; by rewrite E).
  exfalso. revert H Hin. change normal_rate_terms with [3; 6; 12].
  unfold includes, normal_terms. cbn [existsb].
  destruct (Qeq_bool termMonths (inject_Z 3)), (Qeq_bool termMonths (inject_Z 6)),
    (Qeq_bool termMonths (inject_Z 9)), (Qeq_bool termMonths (inject_Z 12)); done.
Qed.

Lemma createNormalCredit_invalid_term now id uuid request db :
  CreditRequest.tipo_credito request = CreditType.NORMAL →
  includes normal_terms
    (inject_Z (Math_floor (CreditRequest.plazo_dias request / 30))) = false →
  createNormalCredit now id uuid request db = (inl invalid_normal_term, db).
Proof.
  intros Ht Hterm. unfold createNormalCredit. by rewrite Ht, Hterm.
Qed.

(** C9, where the code departs from it. The term of 9 months is in the
    allowed set of Normal credits: [validateTerm] accepts it, the term check
    of [createNormalCredit] accepts it and the error message itself lists it.
    But [normalCreditRates] has no rate for 9, so the simulation, and with
    it the creation, fail with the invalid-term validation error. *)
Theorem normal_term_9_rejected now userId amount id uuid db :
  CreditEligibility.es_elegible (validateTerm 9 CreditType.NORMAL) = true
  ∧ includes normal_terms
      (inject_Z (Math_floor
                   (CreditRequest.plazo_dias
                      (CreditRequest.mk userId CreditType.NORMAL amount (9 * 30)) / 30)))
    = true
  ∧ simulateNormalCredit now userId amount 9 = inl invalid_normal_term
  ∧ createNormalCredit now id uuid
      (CreditRequest.mk userId CreditType.NORMAL amount (9 * 30)) db
    = (inl invalid_normal_term, db).
Proof. split_and!; reflexivity. Qed.

(** * Further properties *)

(** ** Funds *)

Lemma updateBalance_found now userId v db account :
  user_accounts db !! userId = Some account →
  updateBalance now userId v db
  = (inr (rebalanced now v account), with_account userId (rebalanced now v account) db).
Proof. intros H. unfold updateBalance. by rewrite (update_found _ _ _ _ _ H). Qed.


Lemma removeFunds_found now userId amount db account :
  user_accounts db !! userId = Some account →
  (0 < amount)%Q →
  (amount <= UserAccount.saldo_disponible account)%Q →
  removeFunds now userId amount db
  = (inr (rebalanced now (UserAccount.saldo_disponible account - amount) account),
     with_account userId
       (rebalanced now (UserAccount.saldo_disponible account - amount) account) db).
Proof.
  intros Hacc Hpos Hle. unfold removeFunds, bind.
  rewrite (getUserAccount_found _ _ _ Hacc).
  apply Qleb_false in Hpos. rewrite Hpos.
  apply Qltb_false in Hle. rewrite Hle.
  by apply updateBalance_found.
Qed.

Lemma removeFunds_nonpositive now userId amount db account :
  user_accounts db !! userId = Some account →
  (amount <= 0)%Q →
  removeFunds now userId amount db
  = (inl (ValidationError [Str "Amount to remove must be greater than 0"]), db).
Proof.
  intros Hacc Hle. unfold removeFunds, bind.
  rewrite (getUserAccount_found _ _ _ Hacc).
  apply Qleb_true in Hle. by rewrite Hle.
Qed.

Lemma addFunds_nonpositive now userId amount db account :
  user_accounts db !! userId = Some account →
  (amount <= 0)%Q →
  addFunds now userId amount db
  = (inl (ValidationError [Str "Amount to add must be greater than 0"]), db).
Proof.
  intros Hacc Hle. unfold addFunds, bind.
  rewrite (getUserAccount_found _ _ _ Hacc).
  apply Qleb_true in Hle. by rewrite Hle.
Qed.

Lemma addFunds_missing now userId amount db :
  user_accounts db !! userId = None →
  addFunds now userId amount db = (inl (user_not_found userId), db).
Proof.
  intros Hacc. unfold addFunds, bind. by rewrite (getUserAccount_missing _ _ Hacc).
Qed.

Lemma with_account_lookup userId account db :
  user_accounts (with_account userId account db) !! userId = Some account.
Proof. apply lookup_insert_eq. Qed.

Lemma with_account_lookup_ne userId userId' account db :
  userId ≠ userId' →
  user_accounts (with_account userId account db) !! userId'
  = user_accounts db !! userId'.
Proof. intros H. by apply lookup_insert_ne. Qed.


(** X2. When the recipient account does not exist, the transfer is reported
    as failed, with balance 0 and the lookup error as the reason, but the
    sender has been debited by then and the debit stays. *)
Theorem transferFunds_missing_recipient now txid fromUserId toUserId amount db sender :
  user_accounts db !! fromUserId = Some sender →
  user_accounts db !! toUserId = None →
  (0 < amount)%Q →
  (amount <= UserAccount.saldo_disponible sender)%Q →
  transferFunds now txid fromUserId toUserId amount db
  = (inr (BankingAPIResponse.mk false None amount now 0
            (Some (Str "Transfer failed: " :: error_toString (user_not_found toUserId)))),
     with_account fromUserId
       (rebalanced now (UserAccount.saldo_disponible sender - amount) sender) db).
Proof.
  intros Hfrom Hto Hpos Hle.
  assert (fromUserId ≠ toUserId) as Hne by congruence.
  unfold transferFunds, try_catch, bind, getBalance_service.
  rewrite (getBalance_found _ _ _ Hfrom).
  pose proof Hle as Hle'. apply Qltb_false in Hle'. rewrite Hle'.
  rewrite (removeFunds_found _ _ _ _ _ Hfrom Hpos Hle).
  rewrite addFunds_missing; [done|].
  by rewrite with_account_lookup_ne.
Qed.

(** X3. A transfer the sender's balance does not cover, or from an account
    that does not exist, is reported as failed and writes nothing. *)
Theorem transferFunds_refused now txid fromUserId toUserId amount db :
  (∀ sender,
     user_accounts db !! fromUserId = Some sender →
     (UserAccount.saldo_disponible sender < amount)%Q →
     transferFunds now txid fromUserId toUserId amount db
     = (inr (BankingAPIResponse.mk false None amount now
               (UserAccount.saldo_disponible sender)
               (Some [Str "Sender has insufficient balance"])),
        db))
  ∧ (user_accounts db !! fromUserId = None →
     transferFunds now txid fromUserId toUserId amount db
     = (inr (BankingAPIResponse.mk false None amount now 0
               (Some (Str "Transfer failed: "
                      :: error_toString (user_not_found fromUserId)))),
        db)).
Proof.
  split.
  - intros sender Hfrom Hlt.
    unfold transferFunds, try_catch, bind, getBalance_service.
    rewrite (getBalance_found _ _ _ Hfrom).
    apply Qltb_true in Hlt. by rewrite Hlt.
  - intros Hfrom.
    unfold transferFunds, try_catch, bind, getBalance_service.
    by rewrite (getBalance_missing _ _ Hfrom).
Qed.

Lemma response_of_caught now txid amount (body : M BankingAPIResponse.t)
    (reason : AppError → list Frag) db :
  (∀ response db', body db = (inr response, db') → response_of now txid amount response) →
  ∃ response db',
    try_catch body
      (λ error, ret (BankingAPIResponse.mk false None amount now 0 (Some (reason error))))
      db = (inr response, db')
    ∧ response_of now txid amount response.
Proof.
  intros Hbody. unfold try_catch.
  destruct (body db) as [[error|response] db'] eqn:E.
  - eexists _, _. split; [reflexivity|]. by repeat split.
  - eexists _, _. split; [reflexivity|]. by eapply Hbody.
Qed.

(** X4. The three money operations of the banking interface never throw:
    for every input and every store they return a response, which echoes the
    amount and the time, and carries the transaction id exactly when it
    reports success and a reason exactly when it reports failure. *)
Theorem banking_api_always_answers now txid userId toUserId amount db :
  (∃ response db',
     transferFunds now txid userId toUserId amount db = (inr response, db')
     ∧ response_of now txid amount response)
  ∧ (∃ response db',
       disburseCredit now txid userId amount db = (inr response, db')
       ∧ response_of now txid amount response)
  ∧ (∃ response db',
       processInstallmentPayment now txid userId amount db = (inr response, db')
       ∧ response_of now txid amount response).
Proof.
  split_and!.
  - apply response_of_caught. intros response db'. unfold bind.
    destruct (getBalance_service userId db) as [[e|senderBalance] db1]; [done|].
    destruct (Qltb senderBalance amount).
    { intros [= <- <-]. by repeat split. }
    destruct (removeFunds now userId amount db1) as [[e|senderUpdated] db2]; [done|].
    destruct (addFunds now toUserId amount db2) as [[e|recipientUpdated] db3]; [done|].
    intros [= <- <-]. by repeat split.
  - apply response_of_caught. intros response db'. unfold bind.
    destruct (getUserAccount userId db) as [[e|account] db1]; [done|].
    destruct (addFunds now userId amount db1) as [[e|updatedAccount] db2]; [done|].
    intros [= <- <-]. by repeat split.
  - apply response_of_caught. intros response db'. unfold bind.
    destruct (getUserAccount userId db) as [[e|account] db1]; [done|].
    destruct (Qltb (UserAccount.saldo_disponible account) amount).
    { intros [= <- <-]. by repeat split. }
    destruct (removeFunds now userId amount db1) as [[e|updatedAccount] db2]; [done|].
    intros [= <- <-]. by repeat split.
Qed.

(** X5. An installment payment debits the account by exactly the amount when
    the amount is positive and the balance covers it; when the balance is
    short, or the amount is not positive, it is reported as failed and the
    store is left as it was. *)
Theorem processInstallmentPayment_spec now txid userId amount db account :
  user_accounts db !! userId = Some account →
  ((0 < amount)%Q → (amount <= UserAccount.saldo_disponible account)%Q →
   processInstallmentPayment now txid userId amount db
   = (inr (BankingAPIResponse.mk true (Some txid) amount now
             (UserAccount.saldo_disponible account - amount) None),
      with_account userId
        (rebalanced now (UserAccount.saldo_disponible account - amount) account) db))
  ∧ ((UserAccount.saldo_disponible account < amount)%Q →
     processInstallmentPayment now txid userId amount db
     = (inr (BankingAPIResponse.mk false None amount now
               (UserAccount.saldo_disponible account)
               (Some [Str "Insufficient balance for payment"])),
        db))
  ∧ ((amount <= 0)%Q → (amount <= UserAccount.saldo_disponible account)%Q →
     processInstallmentPayment now txid userId amount db
     = (inr (BankingAPIResponse.mk false None amount now 0
               (Some [Str "Payment processing failed: "; Str "Error: ";
                      Str "Amount to remove must be greater than 0"])),
        db)).
Proof.
  intros Hacc. unfold processInstallmentPayment, try_catch, bind.
  rewrite (getUserAccount_found _ _ _ Hacc). split_and!.
  - intros Hpos Hle. pose proof Hle as Hle'. apply Qltb_false in Hle'. rewrite Hle'.
    rewrite (removeFunds_found _ _ _ _ _ Hacc Hpos Hle). by destruct account.
  - intros Hlt. apply Qltb_true in Hlt. by rewrite Hlt.
  - intros Hnp Hle. apply Qltb_false in Hle. rewrite Hle.
    by rewrite (removeFunds_nonpositive _ _ _ _ _ Hacc Hnp).
Qed.


(** ** External accounts *)

Lemma remove_spaces_idem s : remove_spaces (remove_spaces s) = remove_spaces s.
Proof.
  induction s as [|c s IH]; [done|]. simpl.
  destruct (is_space c) eqn:E; [done|]. simpl. by rewrite E, IH.
Qed.

Lemma validateCBUFormat_clean s :
  CBUValidationResult.cbu (validateCBUFormat s) = remove_spaces s
  ∧ CBUValidationResult.es_valido (validateCBUFormat s)
    = digits_exactly 22 (remove_spaces s)
  ∧ CBUValidationResult.activo (validateCBUFormat s)
    = CBUValidationResult.es_valido (validateCBUFormat s)
  ∧ (is_Some (CBUValidationResult.razon_invalido (validateCBUFormat s))
     ↔ CBUValidationResult.es_valido (validateCBUFormat s) = false).
Proof.
  unfold validateCBUFormat. destruct (digits_exactly 22 (remove_spaces s)); simpl.
  all: split_and!; try done.
  all: first [by split; [intros [? [=]]|] | by split; [|eexists]].
Qed.

Lemma validateCVUFormat_clean s :
  CBUValidationResult.cbu (validateCVUFormat s) = remove_spaces s
  ∧ CBUValidationResult.es_valido (validateCVUFormat s)
    = digits_exactly 10 (remove_spaces s)
  ∧ CBUValidationResult.activo (validateCVUFormat s)
    = CBUValidationResult.es_valido (validateCVUFormat s)
  ∧ (is_Some (CBUValidationResult.razon_invalido (validateCVUFormat s))
     ↔ CBUValidationResult.es_valido (validateCVUFormat s) = false).
Proof.
  unfold validateCVUFormat. destruct (digits_exactly 10 (remove_spaces s)); simpl.
  all: split_and!; try done.
  all: first [by split; [intros [? [=]]|] | by split; [|eexists]].
Qed.

(** X7. An external account number is valid exactly when, once its white
    space is removed, it consists of digits only and has 22 of them (a CBU)
    or 10 (a CVU).  The result carries the cleaned number, is active exactly
    when valid, gives a reason exactly when invalid, and does not depend on
    the white space in the input. *)
Theorem validateExternalAccount_spec cuenta :
  let result := validateExternalAccount cuenta in
  let clean := remove_spaces cuenta in
  CBUValidationResult.cbu result = clean
  ∧ (CBUValidationResult.es_valido result = true
     ↔ all_digits clean = true
       ∧ (String.length clean = 22%nat ∨ String.length clean = 10%nat))
  ∧ CBUValidationResult.activo result = CBUValidationResult.es_valido result
  ∧ (is_Some (CBUValidationResult.razon_invalido result)
     ↔ CBUValidationResult.es_valido result = false)
  ∧ validateExternalAccount clean = result.
Proof.
  intros result clean. subst result clean. unfold validateExternalAccount.
  rewrite remove_spaces_idem. set (clean := remove_spaces cuenta).
  destruct (String.length clean =? 22)%nat eqn:E22.
  { apply Nat.eqb_eq in E22.
    destruct (validateCBUFormat_clean clean) as (Hcbu & Hval & Hact & Hrazon).
    unfold clean in Hcbu, Hval. rewrite remove_spaces_idem in Hcbu, Hval. fold clean in Hcbu, Hval.
    split_and!; try done.
    rewrite Hval. unfold digits_exactly. rewrite E22. simpl.
    split; [by intros ->; split; [|left]|by intros [-> _]]. }
  destruct (String.length clean =? 10)%nat eqn:E10.
  { apply Nat.eqb_eq in E10.
    destruct (validateCVUFormat_clean clean) as (Hcbu & Hval & Hact & Hrazon).
    unfold clean in Hcbu, Hval. rewrite remove_spaces_idem in Hcbu, Hval. fold clean in Hcbu, Hval.
    split_and!; try done.
    rewrite Hval. unfold digits_exactly. rewrite E10. simpl.
    split; [by intros ->; split; [|right]|by intros [-> _]]. }
  apply Nat.eqb_neq in E22, E10. simpl. split_and!; try done.
  all: first [by split; [|eexists] | split; [done|intros [_ [?|?]]; congruence]].
Qed.

Lemma String_eqb_length s t : String.eqb s t = true → String.length s = String.length t.
Proof. by intros ->%String.eqb_eq. Qed.

(** X8. Every account number that passes the format validation is active:
    the only blocked number has 23 digits, which is neither a CBU nor a CVU.
    The rejection of an inactive destination is therefore never reached by a
    transfer. *)
Theorem valid_external_account_is_active cuenta :
  CBUValidationResult.es_valido (validateExternalAccount cuenta) = true →
  isExternalAccountActive (CBUValidationResult.cbu (validateExternalAccount cuenta)) = true.
Proof.
  intros Hvalid.
  destruct (validateExternalAccount_spec cuenta) as (Hcbu & Hiff & _).
  apply Hiff in Hvalid as [_ Hlen]. rewrite Hcbu.
  unfold isExternalAccountActive, blockedAccounts. cbn [existsb]. rewrite orb_false_r.
  apply negb_true_iff. destruct (String.eqb _ _) eqn:E; [|done].
  apply String_eqb_length in E. simpl in E. lia.
Qed.

(** X9. A transfer to an external account either settles or changes
    nothing.  When it reports success, the sender exists, the amount is
    positive and within the balance, the store differs from the one before
    exactly by the debit of the amount, the result is [ACREDITADA] towards
    the cleaned account number and its receipt carries the transaction
    number.  When it reports failure, or throws, the store is the one
    before, and a reported failure is [FALLIDA]. *)
Theorem executeExternalTransfer_all_or_nothing
    now transferId failId transactionNumber request db :
  match executeExternalTransfer now transferId failId transactionNumber request db with
  | (inr result, db') =>
      if ExternalTransferResult.exito result
      then ∃ account,
             user_accounts db !! ExternalTransferRequest.usuario_id request = Some account
             ∧ (0 < ExternalTransferRequest.monto request)%Q
             ∧ (ExternalTransferRequest.monto request
                <= UserAccount.saldo_disponible account)%Q
             ∧ db' = with_account (ExternalTransferRequest.usuario_id request)
                       (rebalanced now
                          (UserAccount.saldo_disponible account
                           - ExternalTransferRequest.monto request) account) db
             ∧ result
               = ExternalTransferResult.mk true transferId "Tu CBU"
                   (remove_spaces (ExternalTransferRequest.cbu_destino request))
                   (ExternalTransferRequest.monto request) transactionNumber now
                   TransferStatus.ACREDITADA None
                   (Some (Comprobante.mk transactionNumber now
                            (ExternalTransferRequest.referencia request)))
      else db' = db
           ∧ ExternalTransferResult.estado result = TransferStatus.FALLIDA
           ∧ is_Some (ExternalTransferResult.razon_fallo result)
           ∧ ExternalTransferResult.comprobante result = None
  | (inl error, db') => db' = db
  end.
Proof.
  unfold executeExternalTransfer.
  pose proof (validateExternalAccount_spec (ExternalTransferRequest.cbu_destino request))
    as (Hcbu & _).
  set (validation := validateExternalAccount _) in *.
  unfold try_catch at 1.
  destruct (CBUValidationResult.es_valido validation); simpl; [|by eauto].
  destruct (isExternalAccountActive _); simpl; [|by eauto].
  unfold bind at 1, getBalance_service.
  destruct (user_accounts db !! ExternalTransferRequest.usuario_id request)
    as [account|] eqn:Hacc.
  2: { by rewrite (getBalance_missing _ _ Hacc). }
  rewrite (getBalance_found _ _ _ Hacc).
  destruct (Qltb (UserAccount.saldo_disponible account) _) eqn:Hlt; simpl; [by eauto|].
  apply Qltb_false in Hlt. unfold try_catch, bind.
  destruct (Qleb (ExternalTransferRequest.monto request) 0) eqn:Hpos.
  - apply Qleb_true in Hpos.
    rewrite (removeFunds_nonpositive _ _ _ _ _ Hacc Hpos).
    by rewrite (addFunds_nonpositive _ _ _ _ _ Hacc Hpos).
  - apply Qleb_false in Hpos.
    rewrite (removeFunds_found _ _ _ _ _ Hacc Hpos Hlt). simpl.
    exists account. by rewrite Hcbu.
Qed.

(** ** Passwords *)

Lemma split_hex s : all_hex s = true → split "." s = [s].
Proof.
  induction s as [|c s IH]; [done|]. cbn [all_hex split].
  intros [Hc Hs]%andb_true_iff. rewrite (IH Hs).
  destruct (Ascii.eqb c ".") eqn:E; [|done].
  apply Ascii.eqb_eq in E. by subst c.
Qed.

Lemma split_hex_dot s t :
  all_hex s = true → all_hex t = true → split "." (s +:+ "." +:+ t) = [s; t].
Proof.
  intros Hs Ht. induction s as [|c s IH].
  - change ("" +:+ "." +:+ t) with (String "." t).
    cbn [split]. rewrite Ascii.eqb_refl. by rewrite (split_hex _ Ht).
  - simpl in Hs. apply andb_true_iff in Hs as [Hc Hs].
    change (String c s +:+ "." +:+ t) with (String c (s +:+ "." +:+ t)).
    cbn [split]. rewrite (IH Hs).
    destruct (Ascii.eqb c ".") eqn:E; [|done].
    apply Ascii.eqb_eq in E. by subst c.
Qed.

Lemma verifyPassword_hashed salt password attempt :
  hex_string salt = true →
  hex_string (pbkdf2Sync password salt) = true →
  verifyPassword attempt (hashPassword salt password)
  = String.eqb (pbkdf2Sync password salt) (pbkdf2Sync attempt salt).
Proof.
  intros [Hs1 Hs2]%andb_true_iff [Hh1 Hh2]%andb_true_iff.
  unfold verifyPassword, hashPassword.
  rewrite (split_hex_dot _ _ Hs2 Hh2). simpl.
  apply negb_true_iff in Hs1, Hh1. by rewrite Hs1, Hh1.
Qed.

(** X10. A stored password hash, [salt.hash] with both parts in hexadecimal,
    verifies the password it was made from, and verifies another attempt
    exactly when that attempt has the same derived key under the same
    salt. *)
Theorem verifyPassword_round_trip salt password attempt :
  hex_string salt = true →
  hex_string (pbkdf2Sync password salt) = true →
  verifyPassword password (hashPassword salt password) = true
  ∧ (verifyPassword attempt (hashPassword salt password) = true
     ↔ pbkdf2Sync attempt salt = pbkdf2Sync password salt).
Proof.
  intros Hsalt Hhash. rewrite !(verifyPassword_hashed _ _ _ Hsalt Hhash). split.
  - apply String.eqb_refl.
  - rewrite String.eqb_eq. split; congruence.
Qed.

Lemma with_password_fields now passwordHash account :
  UserAccount.password_hash (with_password now passwordHash account) = Some passwordHash
  ∧ UserAccount.bloqueado (with_password now passwordHash account)
    = UserAccount.bloqueado account
  ∧ UserAccount.intentos_fallidos (with_password now passwordHash account)
    = UserAccount.intentos_fallidos account
  ∧ UserAccount.saldo_disponible (with_password now passwordHash account)
    = UserAccount.saldo_disponible account.
Proof. by destruct account. Qed.

Lemma unused_token_used now token db :
  unused_token token (with_token_used now token db) = None.
Proof.
  unfold unused_token, with_token_used, markResetTokenAsUsed. cbn.
  rewrite lookup_alter_eq. by destruct (password_reset_tokens db !! token).
Qed.

Lemma unused_token_with_account token userId account db :
  unused_token token (with_account userId account db) = unused_token token db.
Proof. done. Qed.

(** What a successful reset has done: the token was unused and not expired,
    its account exists, and the store now has the token marked as used and
    the new hash in the account. *)
Lemma updatePasswordWithResetToken_inv now salt token newPassword db account' db' :
  updatePasswordWithResetToken now salt token newPassword db = (inr account', db') →
  ∃ data account,
    unused_token token db = Some data
    ∧ now < PasswordResetToken.fecha_vencimiento data
    ∧ (8 ≤ String.length newPassword)%nat
    ∧ user_accounts db !! PasswordResetToken.usuario_id data = Some account
    ∧ account' = with_password now (hashPassword salt newPassword) account
    ∧ db' = with_account (PasswordResetToken.usuario_id data) account'
              (with_token_used now token db).
Proof.
  unfold updatePasswordWithResetToken.
  destruct (String.length newPassword <? 8)%nat eqn:Hlen; [done|].
  apply Nat.ltb_ge in Hlen.
  unfold bind, validatePasswordResetToken, getUserIdFromResetToken.
  destruct (unused_token token db) as [data|] eqn:Htok; [|done].
  destruct (now <? PasswordResetToken.fecha_vencimiento data) eqn:Hfresh; [|done].
  apply Z.ltb_lt in Hfresh. cbn [negb]. rewrite Htok.
  unfold updatePassword.
  destruct (markResetTokenAsUsed now token db) as [[e|[]] db1] eqn:Hmark; [done|].
  assert (db1 = with_token_used now token db) as -> by (unfold with_token_used; by rewrite Hmark).
  destruct (user_accounts db !! PasswordResetToken.usuario_id data) as [account|] eqn:Hacc.
  - rewrite (update_found _ _ _ _ account); [|done].
    intros [= <- <-]. by exists data, account.
  - unfold update. cbn. by rewrite Hacc.
Qed.

(** X11. A reset token works once.  After a reset that succeeded, every
    further confirmation with the same token, at any time and with any new
    password, fails with a validation error and changes nothing. *)
Theorem used_reset_token_is_refused now salt token newPassword db account' db' :
  updatePasswordWithResetToken now salt token newPassword db = (inr account', db') →
  ∀ now' salt' newPassword',
    ∃ message,
      updatePasswordWithResetToken now' salt' token newPassword' db'
      = (inl (ValidationError message), db').
Proof.
  intros (data & account & _ & _ & _ & _ & _ & ->)%updatePasswordWithResetToken_inv
    now' salt' newPassword'.
  unfold updatePasswordWithResetToken.
  destruct (String.length newPassword' <? 8)%nat; [by eexists|].
  unfold bind, validatePasswordResetToken.
  rewrite unused_token_with_account, unused_token_used. by eexists.
Qed.

(** X12. After a reset that succeeded on an account that is not locked, the
    new password logs in, and an attempt whose derived key differs is
    refused as invalid credentials (salt and derived key in hexadecimal). *)
Theorem reset_then_login now now' salt token newPassword db data account :
  password_reset_tokens db !! token = Some data →
  PasswordResetToken.utilizado data = false →
  now < PasswordResetToken.fecha_vencimiento data →
  user_accounts db !! PasswordResetToken.usuario_id data = Some account →
  (8 ≤ String.length newPassword)%nat →
  UserAccount.bloqueado account = false →
  hex_string salt = true →
  hex_string (pbkdf2Sync newPassword salt) = true →
  ∃ account' db',
    updatePasswordWithResetToken now salt token newPassword db = (inr account', db')
    ∧ (∃ db'', validateCredentials now' (PasswordResetToken.usuario_id data)
                 newPassword db' = (inr true, db''))
    ∧ ∀ attempt,
        pbkdf2Sync attempt salt ≠ pbkdf2Sync newPassword salt →
        ∃ db'', validateCredentials now' (PasswordResetToken.usuario_id data)
                  attempt db'
                = (inl (UnauthorizedError [Str "Invalid credentials"]), db'').
Proof.
  intros Hdata Hunused Hfresh Hacc Hlen Hopen Hsalt Hhash.
  destruct (reset_with_valid_token now salt token newPassword db data account)
    as (account' & db' & Hrun & _ & Hacc' & _); [done..|].
  exists account', db'. split; [done|].
  apply updatePasswordWithResetToken_inv in Hrun
    as (data' & account0 & Htok & _ & _ & Hacc0 & -> & _).
  assert (data' = data) as ->.
  { unfold unused_token in Htok. rewrite Hdata, Hunused in Htok. congruence. }
  assert (account0 = account) as -> by congruence.
  destruct (with_password_fields now (hashPassword salt newPassword) account)
    as (Hph & Hbl & _).
  assert (hashPassword salt newPassword ≠ "") as Hne.
  { unfold hashPassword. apply andb_true_iff in Hsalt as [Hs _].
    destruct salt; [done|]. discriminate. }
  rewrite Hopen in Hbl.
  pose proof (verifyPassword_hashed salt newPassword) as Hverify.
  split.
  - unfold validateCredentials, try_catch, bind.
    rewrite (isAccountBlocked_open _ _ _ _ Hacc' Hbl).
    rewrite (getPasswordHash_found _ _ _ _ Hacc' Hph Hne).
    rewrite (Hverify newPassword Hsalt Hhash), String.eqb_refl. cbn [negb].
    unfold resetFailedLoginAttempts. rewrite (update_found _ _ _ _ _ Hacc').
    by eexists.
  - intros attempt Hdiff.
    unfold validateCredentials, try_catch, bind.
    rewrite (isAccountBlocked_open _ _ _ _ Hacc' Hbl).
    rewrite (getPasswordHash_found _ _ _ _ Hacc' Hph Hne).
    rewrite (Hverify attempt Hsalt Hhash).
    replace (String.eqb _ _) with false
      by (symmetry; apply String.eqb_neq; congruence).
    cbn [negb]. rewrite (recordFailedLoginAttempt_found _ _ _ _ Hacc').
    by eexists.
Qed.

(** ** Locks set by hand and accounts without a password *)

Lemma blocked_fields now account :
  UserAccount.bloqueado (blocked now account) = true
  ∧ UserAccount.fecha_proximo_intento (blocked now account)
    = UserAccount.fecha_proximo_intento account
  ∧ UserAccount.intentos_fallidos (blocked now account)
    = UserAccount.intentos_fallidos account.
Proof. by destruct account. Qed.

Lemma isAccountBlocked_no_expiry now userId db account :
  user_accounts db !! userId = Some account →
  UserAccount.bloqueado account = true →
  UserAccount.fecha_proximo_intento account = None →
  isAccountBlocked now userId db = (inr true, db).
Proof.
  intros Hacc Hb Ht. unfold isAccountBlocked, try_catch, bind, findByUserId.
  by rewrite Hacc, Hb, Ht.
Qed.

(** X13. A lock set by [blockAccount] on an account that has no expiry time
    does not lapse: at every later time the status check answers that the
    account is blocked and a login is refused whatever the password, both
    without writing; [unblockAccount] lifts the lock and sets the counter
    of failed attempts to 0. *)
Theorem manual_block_holds now userId db account :
  user_accounts db !! userId = Some account →
  UserAccount.fecha_proximo_intento account = None →
  let db1 := with_account userId (blocked now account) db in
  blockAccount now userId db = (inr (blocked now account), db1)
  ∧ (∀ now' password,
       isAccountBlocked now' userId db1 = (inr true, db1)
       ∧ validateCredentials now' userId password db1 = (inl account_locked, db1))
  ∧ ∀ now' now'',
      let db2 := with_account userId (unblocked now' (blocked now account)) db1 in
      unblockAccount now' userId db1 = (inr (unblocked now' (blocked now account)), db2)
      ∧ isAccountBlocked now'' userId db2 = (inr false, db2)
      ∧ UserAccount.intentos_fallidos (unblocked now' (blocked now account)) = 0.
Proof.
  intros Hacc Hnone db1.
  destruct (blocked_fields now account) as (Hb & Hf & _). rewrite Hnone in Hf.
  assert (user_accounts db1 !! userId = Some (blocked now account)) as Hacc1
    by apply with_account_lookup.
  split_and!.
  - unfold blockAccount. by rewrite (update_found _ _ _ _ _ Hacc).
  - intros now' password.
    pose proof (isAccountBlocked_no_expiry now' _ _ _ Hacc1 Hb Hf) as Hblocked.
    split; [done|].
    unfold validateCredentials, try_catch, bind. by rewrite Hblocked.
  - intros now' now'' db2.
    destruct (unblocked_fields now' (blocked now account)) as (Hb2 & Hn2 & _).
    split_and!; [|apply isAccountBlocked_open with (account := unblocked now' (blocked now account))|]; try done.
    + unfold unblockAccount. by rewrite (update_found _ _ _ _ _ Hacc1).
    + apply with_account_lookup.
Qed.

(** X14. A login for a user that does not exist, or for an account that is
    not locked and has no password stored, fails with a not-found error
    and writes nothing: the counter of failed attempts is not touched. *)
Theorem validateCredentials_nothing_to_check now userId password db :
  (user_accounts db !! userId = None →
   validateCredentials now userId password db = (inl (user_not_found userId), db))
  ∧ (∀ account,
       user_accounts db !! userId = Some account →
       UserAccount.bloqueado account = false →
       falsy_str (UserAccount.password_hash account) = true →
       validateCredentials now userId password db
       = (inl (NotFoundError [Str "Password not found for user"]), db)).
Proof.
  split.
  - intros Hacc.
    unfold validateCredentials, isAccountBlocked, try_catch, bind, findByUserId.
    by rewrite Hacc.
  - intros account Hacc Hopen Hnone.
    unfold validateCredentials, try_catch, bind.
    rewrite (isAccountBlocked_open _ _ _ _ Hacc Hopen).
    unfold getPasswordHash, try_catch, bind, findByUserId. by rewrite Hacc, Hnone.
Qed.

(** ** Creating a credit *)









(** ** New accounts *)

(** X16. Creating an account for a user that has none stores a row with
    balance 0, KYC not completed, no default history, not blocked, no failed
    attempts and no password; the balance invariant is kept, and the balance
    read back is 0.  For a user that already has an account it fails with a
    validation error and writes nothing. *)
Theorem createUserAccount_spec now userId db :
  (user_accounts db !! userId = None →
   ∃ account,
     createUserAccount now userId db = (inr account, with_account userId account db)
     ∧ UserAccount.usuario_id account = userId
     ∧ UserAccount.saldo_disponible account = 0%Q
     ∧ UserAccount.kyc_completo account = false
     ∧ UserAccount.historial_mora account = false
     ∧ UserAccount.bloqueado account = false
     ∧ UserAccount.intentos_fallidos account = 0
     ∧ UserAccount.password_hash account = None
     ∧ UserAccount.fecha_registro account = now
     ∧ getBalance userId (with_account userId account db)
       = (inr 0%Q, with_account userId account db)
     ∧ (balances_nonneg db → balances_nonneg (with_account userId account db)))
  ∧ (∀ existing,
       user_accounts db !! userId = Some existing →
       createUserAccount now userId db
       = (inl (ValidationError
                 [Str "User account "; Str userId; Str " already exists"]), db)).
Proof.
  split.
  - intros Hnone. unfold createUserAccount, bind, findByUserId, create.
    rewrite Hnone. cbn [UserAccount.usuario_id]. rewrite Hnone.
    eexists. split; [reflexivity|]. split_and!; try done.
    + by rewrite (getBalance_found _ _ _ (with_account_lookup _ _ _)).
    + intros Hdb uid acc. unfold with_account. cbn [user_accounts with_user_accounts].
      destruct (decide (uid = userId)) as [->|Hne].
      * rewrite lookup_insert_eq. by intros [= <-].
      * rewrite lookup_insert_ne by done. apply Hdb.
  - intros existing Hacc. unfold createUserAccount, bind, findByUserId.
    by rewrite Hacc.
Qed.

(** ** The lifetime of a reset token *)

Lemma reset_with_stale_token now salt token newPassword db data :
  password_reset_tokens db !! token = Some data →
  PasswordResetToken.fecha_vencimiento data ≤ now →
  (8 ≤ String.length newPassword)%nat →
  updatePasswordWithResetToken now salt token newPassword db
  = (inl invalid_reset_token, db).
Proof.
  intros Hdata Hstale Hlen. unfold updatePasswordWithResetToken.
  replace (String.length newPassword <? 8)%nat with false
    by (symmetry; apply Nat.ltb_ge; lia).
  unfold bind, validatePasswordResetToken, unused_token. rewrite Hdata.
  destruct (PasswordResetToken.utilizado data); [done|].
  by replace (now <? PasswordResetToken.fecha_vencimiento data) with false
    by (symmetry; apply Z.ltb_ge; lia).
Qed.

(** X17. A reset token is good for 24 hours.  Issued at [now] for an
    existing user, under a token value not in use, it expires at
    [now + 86400000] ms: a confirmation with a password of at least 8
    characters succeeds at every time before that, and from that time on it
    fails as an invalid token and writes nothing.  For a user that does not
    exist no token is issued. *)
Theorem reset_token_lifetime now token userId db :
  (∀ account,
     user_accounts db !! userId = Some account →
     password_reset_tokens db !! token = None →
     ∃ data db1,
       createPasswordResetToken now token userId db = (inr data, db1)
       ∧ PasswordResetToken.usuario_id data = userId
       ∧ PasswordResetToken.fecha_vencimiento data = now + 86400000
       ∧ ∀ now' salt newPassword,
           (8 ≤ String.length newPassword)%nat →
           (now' < now + 86400000 →
            ∃ account' db2,
              updatePasswordWithResetToken now' salt token newPassword db1
              = (inr account', db2)
              ∧ UserAccount.password_hash account'
                = Some (hashPassword salt newPassword))
           ∧ (now + 86400000 ≤ now' →
              updatePasswordWithResetToken now' salt token newPassword db1
              = (inl invalid_reset_token, db1)))
  ∧ (user_accounts db !! userId = None →
     createPasswordResetToken now token userId db = (inl (user_not_found userId), db)).
Proof.
  split.
  - intros account Hacc Hfresh.
    unfold createPasswordResetToken, bind, createPasswordResetToken_repo.
    rewrite (getUserAccount_found _ _ _ Hacc), Hfresh, Hacc.
    eexists _, _. split; [reflexivity|]. split_and!; [done|done|].
    intros now' salt newPassword Hlen. split.
    + intros Hbefore.
      destruct (reset_with_valid_token now' salt token newPassword
                  (with_password_reset_tokens
                     (<[token := PasswordResetToken.mk token userId now
                                   (now + 24 * 60 * 60 * 1000) false None]>
                        (password_reset_tokens db)) db)
                  (PasswordResetToken.mk token userId now
                     (now + 24 * 60 * 60 * 1000) false None) account)
        as (account' & db2 & Hrun & Hhash & _);
        [apply lookup_insert_eq | done | simpl; lia | exact Hacc | done |].
      by exists account', db2.
    + intros Hafter. eapply reset_with_stale_token; [apply lookup_insert_eq| |done].
      simpl. lia.
  - intros Hnone. unfold createPasswordResetToken, bind.
    by rewrite (getUserAccount_missing _ _ Hnone).
Qed.

(** ** KYC documents *)

Lemma approveKYC_on_file now userId db account :
  user_accounts db !! userId = Some account →
  on_file userId TipoDocumento.dni db →
  on_file userId TipoDocumento.selfie db →
  approveKYC now userId db
  = (inr (approved now account), with_account userId (approved now account) db).
Proof.
  intros Hacc Hd Hs.
  assert (Hdocs : ∃ docs, getKYCDocuments_repo userId db = (inr docs, db))
    by by eexists.
  destruct Hdocs as [docs Hdocs].
  apply (has_document_on_file _ _ _ _ Hdocs) in Hd, Hs.
  unfold approveKYC, bind, getKYCDocuments, bind.
  rewrite (getUserAccount_found _ _ _ Hacc), Hdocs, Hd, Hs. cbn [negb orb].
  unfold updateKYCStatus. rewrite (update_found _ _ _ _ _ Hacc).
  rewrite updateTransferLimit_positive by done.
  unfold update. cbn [user_accounts with_user_accounts].
  rewrite lookup_insert_eq. cbn [ret]. rewrite insert_insert_eq.
  f_equal. unfold with_account, with_user_accounts. cbn. f_equal. f_equal.
  by destruct account.
Qed.

Lemma approveKYC_missing now userId db account tipo :
  user_accounts db !! userId = Some account →
  tipo = TipoDocumento.dni ∨ tipo = TipoDocumento.selfie →
  ¬ on_file userId tipo db →
  approveKYC now userId db
  = (inl (ValidationError
            [Str "User must upload DNI and selfie photos for KYC approval"]), db).
Proof.
  intros Hacc Htipo Hmissing.
  assert (Hdocs : ∃ docs, getKYCDocuments_repo userId db = (inr docs, db))
    by by eexists.
  destruct Hdocs as [docs Hdocs].
  unfold approveKYC, bind, getKYCDocuments, bind.
  rewrite (getUserAccount_found _ _ _ Hacc), Hdocs.
  destruct (existsb _ docs) eqn:Ed; [|done].
  destruct (existsb (λ d, TipoDocumento.eqb _ TipoDocumento.selfie) docs) eqn:Es; [|done].
  exfalso. apply Hmissing.
  destruct Htipo as [-> | ->]; by apply (has_document_on_file _ _ _ _ Hdocs).
Qed.

Lemma uploadKYCDocument_found now id userId tipo url db account :
  user_accounts db !! userId = Some account →
  url ≠ "" →
  (∀ d, d ∈ kyc_documents db → KYCDocument.id_documento d ≠ id) →
  uploadKYCDocument now id userId tipo url db
  = (inr (KYCDocument.mk id userId tipo url now KYCStatus.PENDIENTE None),
     with_kyc_documents
       (kyc_documents db
        ++ [KYCDocument.mk id userId tipo url now KYCStatus.PENDIENTE None]) db).
Proof.
  intros Hacc Hurl Hfresh. unfold uploadKYCDocument, bind.
  rewrite (getUserAccount_found _ _ _ Hacc).
  replace (String.eqb url "") with false by (symmetry; by apply String.eqb_neq).
  unfold storeKYCDocument. cbn [KYCDocument.id_documento KYCDocument.usuario_id].
  replace (existsb _ (kyc_documents db)) with false; [by rewrite Hacc|].
  symmetry. apply not_true_is_false. rewrite existsb_exists.
  intros (d & Hin%list_elem_of_In & Heq%String.eqb_eq). by apply (Hfresh d).
Qed.

(** X18. Uploading is what puts documents on file.  For an existing user,
    uploading a [dni] and then a [selfie] (non-empty URLs, document ids not
    in use) stores both as pending, and the approval that follows succeeds
    and writes the approved row; if no [selfie] was on file before, an
    approval attempted after the [dni] alone is refused and writes
    nothing. *)
Theorem upload_then_approve now1 now2 now3 id1 id2 userId url1 url2 db account :
  user_accounts db !! userId = Some account →
  url1 ≠ "" → url2 ≠ "" → id1 ≠ id2 →
  (∀ d, d ∈ kyc_documents db →
        KYCDocument.id_documento d ≠ id1 ∧ KYCDocument.id_documento d ≠ id2) →
  let d1 := KYCDocument.mk id1 userId TipoDocumento.dni url1 now1
              KYCStatus.PENDIENTE None in
  let d2 := KYCDocument.mk id2 userId TipoDocumento.selfie url2 now2
              KYCStatus.PENDIENTE None in
  let db1 := with_kyc_documents (kyc_documents db ++ [d1]) db in
  let db2 := with_kyc_documents (kyc_documents db ++ [d1; d2]) db in
  uploadKYCDocument now1 id1 userId TipoDocumento.dni url1 db = (inr d1, db1)
  ∧ uploadKYCDocument now2 id2 userId TipoDocumento.selfie url2 db1 = (inr d2, db2)
  ∧ approveKYC now3 userId db2
    = (inr (approved now3 account), with_account userId (approved now3 account) db2)
  ∧ (¬ on_file userId TipoDocumento.selfie db →
     approveKYC now3 userId db1
     = (inl (ValidationError
               [Str "User must upload DNI and selfie photos for KYC approval"]), db1)).
Proof.
  intros Hacc Hurl1 Hurl2 Hids Hfresh d1 d2 db1 db2. split_and!.
  - apply (uploadKYCDocument_found now1 id1 userId TipoDocumento.dni url1 db account);
      [done..|].
    intros d Hd. by apply Hfresh.
  - unfold db2. replace (kyc_documents db ++ [d1; d2])
      with (kyc_documents db1 ++ [d2]) by (cbn; by rewrite <- app_assoc).
    apply (uploadKYCDocument_found now2 id2 userId TipoDocumento.selfie url2 db1 account);
      [done..|].
    intros d Hd. cbn in Hd. apply elem_of_app in Hd as [Hd|Hd].
    + by apply Hfresh.
    + apply list_elem_of_singleton in Hd as ->. simpl. congruence.
  - apply (approveKYC_on_file now3 userId db2 account); [done| |].
    + exists d1. split_and!; [|done..]. cbn. apply elem_of_app. right. left.
    + exists d2. split_and!; [|done..]. cbn. apply elem_of_app. right. right. left.
  - intros Hmissing. apply (approveKYC_missing _ _ _ account TipoDocumento.selfie);
      [done|by right|].
    intros (d & Hd & Hu & Ht). cbn in Hd. apply elem_of_app in Hd as [Hd|Hd].
    + apply Hmissing. by exists d.
    + apply list_elem_of_singleton in Hd as ->. done.
Qed.



(** ** Eligibility *)

Lemma active_credits_elem userId db credit :
  credit ∈ (merge_sort credit_newest_first
              (filter (λ c, Credit.usuario_id c = userId
                            ∧ (Credit.estado c = CreditStatus.IN_PROGRESS
                               ∨ Credit.estado c = CreditStatus.DEFAULT))
                      (snd <$> map_to_list (creditos db))))
  ↔ ∃ id, creditos db !! id = Some credit
          ∧ Credit.usuario_id credit = userId
          ∧ (Credit.estado credit = CreditStatus.IN_PROGRESS
             ∨ Credit.estado credit = CreditStatus.DEFAULT).
Proof.
  rewrite merge_sort_Permutation, list_elem_of_filter, list_elem_of_fmap. split.
  - intros [[Hu He] ([id c] & -> & Hin)]. exists id.
    by apply elem_of_map_to_list in Hin.
  - intros (id & Hc & Hu & He). split; [done|].
    exists (id, credit). split; [done|]. by apply elem_of_map_to_list.
Qed.

Lemma active_credits_nil userId db :
  merge_sort credit_newest_first
    (filter (λ c, Credit.usuario_id c = userId
                  ∧ (Credit.estado c = CreditStatus.IN_PROGRESS
                     ∨ Credit.estado c = CreditStatus.DEFAULT))
            (snd <$> map_to_list (creditos db))) = []
  ↔ ¬ has_active_credit userId db.
Proof.
  split.
  - intros Hnil (id & credit & Hc & Hu & He).
    assert (credit ∈ @nil Credit.t) as Hin
      by (rewrite <- Hnil; apply active_credits_elem; by exists id).
    by apply elem_of_nil in Hin.
  - intros Hnone.
    destruct (merge_sort _ _) as [|credit l] eqn:E; [done|]. exfalso.
    assert (credit ∈ credit :: l) as Hin by left. rewrite <- E in Hin.
    apply active_credits_elem in Hin as (id & Hc & Hu & He).
    apply Hnone. by exists id, credit.
Qed.

Lemma getDebtToIncomeRatio_found userId db account :
  user_accounts db !! userId = Some account →
  ∃ ratio, getDebtToIncomeRatio userId db = (inr ratio, db).
Proof.
  intros Hacc.
  unfold getDebtToIncomeRatio, bind, getActiveCreditsByUser, getDeclaredIncome,
    try_catch, bind, findByUserId.
  rewrite Hacc. cbn [ret].
  destruct (Qeq_bool _ 0); by eexists.
Qed.

(** X20. The debt-to-income ratio of an existing user is always computed
    and reading it writes nothing.  It is 0 when no income is declared (or
    the declared income is 0), whatever the debts, and it is 0 when the user
    has no credit in progress or in default; for a user that does not exist
    the lookup error is thrown. *)
Theorem getDebtToIncomeRatio_spec userId db :
  (∀ account,
     user_accounts db !! userId = Some account →
     ∃ ratio,
       getDebtToIncomeRatio userId db = (inr ratio, db)
       ∧ (falsy_num (UserAccount.ingresos_declarados account) = true → ratio = 0%Q)
       ∧ (¬ has_active_credit userId db → (ratio == 0)%Q))
  ∧ (user_accounts db !! userId = None →
     getDebtToIncomeRatio userId db = (inl (user_not_found userId), db)).
Proof.
  split.
  - intros account Hacc.
    unfold getDebtToIncomeRatio, bind, getActiveCreditsByUser, getDeclaredIncome,
      try_catch, bind, findByUserId.
    rewrite Hacc. cbn [ret].
    destruct (falsy_num (UserAccount.ingresos_declarados account)) eqn:Hfalsy.
    + change (Qeq_bool 0 0) with true. cbn. eexists. by split_and!.
    + destruct (Qeq_bool _ 0) eqn:Hzero; eexists; (split; [reflexivity|]);
        (split; [done|]); [done|].
      intros Hnone%active_credits_nil. rewrite Hnone. simpl.
      unfold Qdiv. ring.
  - intros Hnone.
    unfold getDebtToIncomeRatio, bind, getActiveCreditsByUser, getDeclaredIncome,
      try_catch, bind, findByUserId.
    by rewrite Hnone.
Qed.

(** X21. The Quick eligibility check never throws and never writes.  It
    answers eligible exactly when the account exists, has completed KYC, is
    at least 30 whole days old, has no default history and a debt-to-income
    ratio of at most 40; an eligible answer carries the configured maximum
    amount and no reason, any other answer a reason and no maximum. *)
Theorem validateQuickCreditEligibility_spec config now userId db :
  ∃ eligibility,
    validateQuickCreditEligibility config now userId db = (inr eligibility, db)
    ∧ (CreditEligibility.es_elegible eligibility = true
       ↔ ∃ account ratio,
           user_accounts db !! userId = Some account
           ∧ UserAccount.kyc_completo account = true
           ∧ 30 ≤ age_in_days now account
           ∧ UserAccount.historial_mora account = false
           ∧ getDebtToIncomeRatio userId db = (inr ratio, db)
           ∧ (ratio <= 40)%Q)
    ∧ (if CreditEligibility.es_elegible eligibility
       then CreditEligibility.razon_rechazo eligibility = None
            ∧ CreditEligibility.monto_maximo eligibility
              = Some (Config.quickCreditMaxAmount config)
       else is_Some (CreditEligibility.razon_rechazo eligibility)
            ∧ CreditEligibility.monto_maximo eligibility = None).
Proof.
  unfold validateQuickCreditEligibility, try_catch at 1, bind at 1.
  unfold checkKYCStatus, try_catch at 1, bind at 1, findByUserId.
  destruct (user_accounts db !! userId) as [account|] eqn:Hacc;
    cbn [ret throw rethrow isNotFoundError user_not_found].
  2: { eexists. split; [reflexivity|]. split; [|by split; [eexists|]].
       split; [done|]. by intros (? & ? & ? & _). }
  destruct (UserAccount.kyc_completo account) eqn:Hkyc; cbn [negb].
  2: { eexists. split; [reflexivity|]. split; [|by split; [eexists|]].
       split; [done|]. intros (a & r & [= <-] & ? & _). congruence. }
  unfold bind at 1, getAccountAge, try_catch at 1, bind at 1, findByUserId.
  rewrite Hacc. cbn [ret]. fold (age_in_days now account).
  destruct (age_in_days now account <? 30) eqn:Hage.
  { eexists. split; [reflexivity|]. split; [|by split; [eexists|]].
    apply Z.ltb_lt in Hage.
    split; [done|]. intros (a & r & [= <-] & _ & ? & _). lia. }
  apply Z.ltb_ge in Hage.
  unfold bind at 1, hasDefaultHistory, try_catch at 1, bind at 1, findByUserId.
  rewrite Hacc. cbn [ret].
  destruct (UserAccount.historial_mora account) eqn:Hmora.
  { eexists. split; [reflexivity|]. split; [|by split; [eexists|]].
    split; [done|]. intros (a & r & [= <-] & _ & _ & ? & _). congruence. }
  destruct (getDebtToIncomeRatio_found _ _ _ Hacc) as [ratio Hratio].
  unfold bind at 1. rewrite Hratio.
  destruct (Qltb 40 ratio) eqn:Hdebt.
  { eexists. split; [reflexivity|]. split; [|by split; [eexists|]].
    apply Qltb_true in Hdebt.
    split; [done|]. intros (a & r & _ & _ & _ & _ & [= <-] & Hle). lra. }
  apply Qltb_false in Hdebt.
  eexists. split; [reflexivity|]. split; [|done].
  split; [|done]. intros _. by exists account, ratio.
Qed.

Lemma declared_income income :
  falsy_num income || Qleb (default 0%Q income) 0 = false
  ↔ ∃ q, income = Some q ∧ (0 < q)%Q.
Proof.
  destruct income as [q|]; simpl.
  - rewrite orb_false_iff. split.
    + intros [_ Hpos%Qleb_false]. by exists q.
    + intros (? & [= <-] & Hpos). split; [|by apply Qleb_false].
      apply not_true_is_false. intros Hz%Qeq_bool_eq. lra.
  - split; [done|]. by intros (? & [=] & _).
Qed.

Lemma score_passes (enabled : bool) score :
  enabled && (falsy_num score || Qltb (default 0%Q score) 50) = false
  ↔ (enabled = true → ∃ s, score = Some s ∧ (50 <= s)%Q).
Proof.
  destruct enabled; simpl; [|by split].
  destruct score as [s|]; simpl.
  - rewrite orb_false_iff. split.
    + intros [_ Hs%Qltb_false] _. by exists s.
    + intros Hs. destruct (Hs eq_refl) as (? & [= <-] & Hle).
      split; [|by apply Qltb_false].
      apply not_true_is_false. intros Hz%Qeq_bool_eq. lra.
  - split; [done|]. intros Hs. by destruct (Hs eq_refl) as (? & [=] & _).
Qed.

Lemma has_unpaid_credits userId db :
  existsb (λ credit,
             bool_decide (Credit.estado credit = CreditStatus.DEFAULT)
             || bool_decide (Credit.estado credit = CreditStatus.IN_PROGRESS))
          (merge_sort credit_newest_first
             (filter (λ c, Credit.usuario_id c = userId
                           ∧ (Credit.estado c = CreditStatus.IN_PROGRESS
                              ∨ Credit.estado c = CreditStatus.DEFAULT))
                     (snd <$> map_to_list (creditos db)))) = true
  ↔ has_active_credit userId db.
Proof.
  rewrite existsb_exists. split.
  - intros (credit & Hin%list_elem_of_In & _).
    apply active_credits_elem in Hin as (id & ?). by exists id, credit.
  - intros (id & credit & Hc & Hu & He). exists credit. split.
    + apply list_elem_of_In, active_credits_elem. by exists id.
    + destruct He as [-> | ->]; done.
Qed.

(** X22. The Normal eligibility check never throws and never writes.  It
    answers eligible exactly when the account exists, has completed KYC,
    has a declared income above 0, has no default history, has no credit in
    progress or in default and, when external scoring is enabled, has an
    external score of at least 50; an eligible answer carries the configured
    maximum amount and the term bounds 3 and 12, any other answer only a
    reason. *)
Theorem validateNormalCreditEligibility_spec config userId db :
  ∃ result,
    validateNormalCreditEligibility config userId db = (inr result, db)
    ∧ (CreditEligibility.es_elegible (CreditEligibilityTerms.eligibility result) = true
       ↔ ∃ account income,
           user_accounts db !! userId = Some account
           ∧ UserAccount.kyc_completo account = true
           ∧ UserAccount.ingresos_declarados account = Some income
           ∧ (0 < income)%Q
           ∧ UserAccount.historial_mora account = false
           ∧ ¬ has_active_credit userId db
           ∧ (Config.enableExternalScoring config = true →
              ∃ score, UserAccount.score_externo account = Some score
                       ∧ (50 <= score)%Q))
    ∧ (if CreditEligibility.es_elegible (CreditEligibilityTerms.eligibility result)
       then result
            = CreditEligibilityTerms.mk
                (CreditEligibility.mk true None
                   (Some (Config.normalCreditMaxAmount config)))
                (Some 3%Q) (Some 12%Q)
       else is_Some (CreditEligibility.razon_rechazo
                       (CreditEligibilityTerms.eligibility result))
            ∧ CreditEligibility.monto_maximo
                (CreditEligibilityTerms.eligibility result) = None
            ∧ CreditEligibilityTerms.plazo_minimo result = None
            ∧ CreditEligibilityTerms.plazo_maximo result = None).
Proof.
  unfold validateNormalCreditEligibility, try_catch at 1, bind at 1.
  unfold checkKYCStatus, try_catch at 1, bind at 1, findByUserId.
  destruct (user_accounts db !! userId) as [account|] eqn:Hacc;
    cbn [ret throw rethrow isNotFoundError user_not_found].
  2: { eexists. split; [reflexivity|]. split; [|by split_and!; [eexists|..]].
       split; [done|]. by intros (? & ? & ? & _). }
  destruct (UserAccount.kyc_completo account) eqn:Hkyc; cbn [negb].
  2: { eexists. split; [reflexivity|]. split; [|by split_and!; [eexists|..]].
       split; [done|]. intros (a & r & [= <-] & ? & _). congruence. }
  unfold bind at 1, getDeclaredIncome, try_catch at 1, bind at 1, findByUserId.
  rewrite Hacc. cbn [ret].
  destruct (falsy_num _ || Qleb _ 0) eqn:Hincome.
  { eexists. split; [reflexivity|]. split; [|by split_and!; [eexists|..]].
    split; [done|]. intros (a & q & [= <-] & _ & Hq & Hpos & _).
    assert (falsy_num (UserAccount.ingresos_declarados account)
            || Qleb (default 0%Q (UserAccount.ingresos_declarados account)) 0 = false)
      by (apply declared_income; by exists q).
    congruence. }
  apply declared_income in Hincome as (income & Hincome & Hpos).
  unfold bind at 1, hasDefaultHistory, try_catch at 1, bind at 1, findByUserId.
  rewrite Hacc. cbn [ret].
  destruct (UserAccount.historial_mora account) eqn:Hmora.
  { eexists. split; [reflexivity|]. split; [|by split_and!; [eexists|..]].
    split; [done|]. intros (a & q & [= <-] & _ & _ & _ & ? & _). congruence. }
  unfold bind at 1, getActiveCreditsByUser.
  destruct (existsb _ _) eqn:Hunpaid.
  { apply has_unpaid_credits in Hunpaid.
    eexists. split; [reflexivity|]. split; [|by split_and!; [eexists|..]].
    split; [done|]. by intros (a & q & _ & _ & _ & _ & _ & ? & _). }
  assert (¬ has_active_credit userId db) as Hnone.
  { intros Hactive%has_unpaid_credits. congruence. }
  unfold bind at 1, getExternalScore, try_catch at 1, bind at 1, findByUserId.
  rewrite Hacc. cbn [ret].
  destruct (_ && _) eqn:Hscore.
  { eexists. split; [reflexivity|]. split; [|by split_and!; [eexists|..]].
    split; [done|]. intros (a & q & [= <-] & _ & _ & _ & _ & _ & Hs).
    apply score_passes in Hs. congruence. }
  pose proof (proj1 (score_passes _ _) Hscore) as Hpasses.
  eexists. split; [reflexivity|]. split; [|done].
  split; [|done]. intros _. by exists account, income.
Qed.

(** ** Requesting a Quick credit *)





(** ** One transfer *)

(** X25. The detail of a transfer is only given to its origin or its
    destination: whenever [getTransferDetail] returns a transfer, it is the
    stored transfer with the requested id and the requesting user is its
    origin or its destination; and the lookup writes nothing. *)
Theorem getTransferDetail_access transferId usuarioId db transfer db' :
  getTransferDetail transferId usuarioId db = (inr transfer, db') →
  db' = db
  ∧ transfer ∈ transferencias db
  ∧ Transfer.id_transferencia transfer = transferId
  ∧ (Transfer.usuario_id_origen transfer = usuarioId
     ∨ Transfer.usuario_id_destino transfer = Some usuarioId).
Proof.
  unfold getTransferDetail, bind, getTransferById.
  destruct (List.filter _ (transferencias db)) as [|t [|t' l]] eqn:Hfilter; [done| |done].
  assert (In t (List.filter
                  (λ t, String.eqb (Transfer.id_transferencia t) transferId)
                  (transferencias db))) as Hin by (rewrite Hfilter; by left).
  apply filter_In in Hin as [Hin Hid%String.eqb_eq].
  destruct (String.eqb (Transfer.usuario_id_origen t) usuarioId) eqn:Ho; cbn [negb andb].
  - intros [= <- <-]. apply String.eqb_eq in Ho.
    split_and!; [done|by apply list_elem_of_In|done|by left].
  - destruct (Transfer.usuario_id_destino t) as [destino|] eqn:Hd; [|done].
    destruct (String.eqb destino usuarioId) eqn:Hdu; [|done].
    intros [= <- <-]. apply String.eqb_eq in Hdu. subst destino.
    split_and!; [done|by apply list_elem_of_In|done|by right].
Qed.

Lemma stars_length n : String.length (stars n) = n.
Proof. induction n; simpl; [done|by f_equal]. Qed.

Lemma append_length s t : String.length (s +:+ t) = (String.length s + String.length t)%nat.
Proof. induction s; simpl; [done|by f_equal]. Qed.

Lemma substring_length s i k :
  (i + k ≤ String.length s)%nat → String.length (String.substring i k s) = k.
Proof.
  revert i k. induction s as [|c s IH]; intros i k Hle; simpl in *.
  - destruct i, k; simpl in *; lia.
  - destruct i as [|i].
    + destruct k as [|k]; [done|]. simpl. rewrite IH; [done|lia].
    + apply IH. lia.
Qed.

Lemma stars_get n i : (i < n)%nat → String.get i (stars n) = Some "*"%char.
Proof.
  revert i. induction n as [|n IH]; intros i Hi; [lia|].
  destruct i as [|i]; [done|]. simpl. apply IH. lia.
Qed.

Lemma get_append_l s t i :
  (i < String.length s)%nat → String.get i (s +:+ t) = String.get i s.
Proof.
  revert i. induction s as [|c s IH]; intros i Hi; simpl in *; [lia|].
  destruct i as [|i]; [done|]. apply IH. lia.
Qed.

Lemma get_append_r s t i :
  String.get (String.length s + i) (s +:+ t) = String.get i t.
Proof. induction s as [|c s IH]; simpl; [done|]. apply IH. Qed.

Lemma get_substring s i k j :
  (j < k)%nat → String.get j (String.substring i k s) = String.get (i + j) s.
Proof.
  revert i k j. induction s as [|c s IH]; intros i k j Hj; simpl.
  - destruct i, k; simpl; try done; lia.
  - destruct i as [|i].
    + destruct k as [|k]; [lia|]. simpl. destruct j as [|j]; [done|].
      rewrite IH by lia. done.
    + simpl. apply IH. lia.
Qed.

(** X26. Masking an account number of at least 4 characters keeps its
    length, shows its last 4 characters in place and shows a star at every
    position before them; a shorter number is masked as four stars. *)
Theorem maskCBU_spec cbu :
  ((4 ≤ String.length cbu)%nat →
   String.length (maskCBU cbu) = String.length cbu
   ∧ ∀ i, (i < String.length cbu)%nat →
          String.get i (maskCBU cbu)
          = if (i <? String.length cbu - 4)%nat then Some "*"%char
            else String.get i cbu)
  ∧ ((String.length cbu < 4)%nat → maskCBU cbu = "****").
Proof.
  unfold maskCBU, slice_last. split.
  - intros Hlen.
    replace (String.length cbu <? 4)%nat with false
      by (symmetry; apply Nat.ltb_ge; lia).
    split.
    + rewrite append_length, stars_length, substring_length; lia.
    + intros i Hi. destruct (i <? String.length cbu - 4)%nat eqn:E.
      * apply Nat.ltb_lt in E.
        rewrite get_append_l by (rewrite stars_length; lia). by apply stars_get.
      * apply Nat.ltb_ge in E.
        replace i with (String.length (stars (String.length cbu - 4))
                        + (i - (String.length cbu - 4)))%nat at 1
          by (rewrite stars_length; lia).
        rewrite get_append_r, get_substring by lia. f_equal. lia.
  - intros Hlen. by replace (String.length cbu <? 4)%nat with true
      by (symmetry; apply Nat.ltb_lt; lia).
Qed.

(** ** Previews of a transfer *)

Lemma Math_max_0_nonneg x : (0 <= Math_max 0 x)%Q.
Proof.
  unfold Math_max. destruct (Qle_bool 0 x) eqn:E; [by apply Qle_bool_iff|lra].
Qed.

(** X27. The limits endpoint and the limits preview agree.  For an existing
    user the limits endpoint reports the tier (50000 with KYC completed,
    10000 without), what was used today and what is left, which is never
    negative; and a preview for a positive amount is accepted exactly when
    the amount is within what is left, and refused as [LIMITE_EXCEDIDO]
    otherwise.  Neither writes. *)
Theorem limits_agree_with_preview now usuario_id db account usedToday :
  usuario_id ≠ "" →
  user_accounts db !! usuario_id = Some account →
  getDailyTransferTotal now usuario_id db = (inr usedToday, db) →
  let limite_actual := if UserAccount.kyc_completo account then 50000%Q else 10000%Q in
  let disponible := Math_max 0 (limite_actual - usedToday) in
  getTransferLimits now usuario_id db
  = (inr (JObj [("exito", JBool true);
                ("usuario_id", JStr usuario_id);
                ("limite_actual", JNum limite_actual);
                ("usado_hoy", JNum usedToday);
                ("disponible", JNum disponible);
                ("kyc_completo", JBool (UserAccount.kyc_completo account));
                ("como_ampliar",
                 if UserAccount.kyc_completo account then JNull else JStr "kyc")]),
     db)
  ∧ (0 <= disponible)%Q
  ∧ ∀ monto,
      (0 < monto)%Q →
      let preview :=
        checkLimitsPreview now (Body.mk (Some usuario_id) None None (Some monto) None) db in
      ((monto <= disponible)%Q →
       preview
       = (inr (JObj [("exito", JBool true);
                     ("puede_transferir", JBool true);
                     ("data",
                      JObj [("limite_actual", JNum limite_actual);
                            ("usado_hoy", JNum usedToday);
                            ("disponible", JNum disponible);
                            ("monto_solicitado", JNum monto);
                            ("kyc_completo",
                             JBool (UserAccount.kyc_completo account))])]),
          db))
      ∧ ((disponible < monto)%Q →
         ∃ response,
           preview = (inr response, db)
           ∧ field "puede_transferir" response = JBool false
           ∧ field "code" response = JStr "LIMITE_EXCEDIDO"
           ∧ field "exceso" (field "data" response) = JNum (monto - disponible)).
Proof.
  intros Hne Hacc Hused limite_actual disponible. split_and!.
  - unfold getTransferLimits, try_catch. rewrite (falsy_str_Some _ Hne).
    unfold bind. by rewrite (getUserAccount_found _ _ _ Hacc), Hused.
  - apply Math_max_0_nonneg.
  - intros monto Hpos preview.
    subst preview.
    unfold checkLimitsPreview, try_catch. cbn [Body.usuario_id Body.monto_transferencia].
    rewrite (falsy_str_Some _ Hne), (falsy_num_Some _ Hpos). cbn [orb].
    pose proof Hpos as Hpos'. apply Qleb_false in Hpos'. rewrite Hpos'.
    unfold bind. rewrite (getUserAccount_found _ _ _ Hacc), Hused.
    fold limite_actual. fold disponible. split.
    + intros Hle. apply Qltb_false in Hle. by rewrite Hle.
    + intros Hlt. apply Qltb_true in Hlt. rewrite Hlt. by eexists.
Qed.


(** ** Reading back what was stored *)




#[local] Instance by_nro_cuota_trans : Transitive by_nro_cuota.
Proof. unfold by_nro_cuota. intros x y z. lia. Qed.

#[local] Instance by_nro_cuota_total : Total by_nro_cuota.
Proof. unfold by_nro_cuota. intros x y. lia. Qed.





(** ** The stored transfer limit *)

(** X30. The stored transfer limit reads back as it was set.  Setting a
    limit above 0 for an existing user stores it, after which
    [getTransferLimit] answers that limit and [validateTransferLimit]
    accepts exactly the amounts up to it; a limit of 0 or less is refused
    and nothing is written; and an account with no limit stored, or with 0
    stored, reads as 10000. *)
Theorem transfer_limit_round_trip now userId limite db account :
  user_accounts db !! userId = Some account →
  ((0 < limite)%Q →
   ∃ account' db',
     updateTransferLimit now userId limite db = (inr account', db')
     ∧ user_accounts db' !! userId = Some account'
     ∧ UserAccount.limite_transferencia account' = Some limite
     ∧ UserAccount.saldo_disponible account' = UserAccount.saldo_disponible account
     ∧ getTransferLimit userId db' = (inr limite, db')
     ∧ ∀ monto, validateTransferLimit userId monto db' = (inr (Qleb monto limite), db'))
  ∧ ((limite <= 0)%Q →
     updateTransferLimit now userId limite db
     = (inl (ValidationError [Str "Transfer limit must be greater than 0"]), db))
  ∧ (falsy_num (UserAccount.limite_transferencia account) = true →
     getTransferLimit userId db = (inr 10000%Q, db)).
Proof.
  intros Hacc. split_and!.
  - intros Hpos. unfold updateTransferLimit.
    pose proof Hpos as Hpos'. apply Qleb_false in Hpos'. rewrite Hpos'.
    rewrite (updateTransferLimit_positive _ _ _ _ Hpos).
    rewrite (update_found _ _ _ _ _ Hacc).
    set (account' := apply_updates _ account).
    assert (UserAccount.limite_transferencia account' = Some limite) as Hlim
      by (by destruct account).
    assert (falsy_num (Some limite) = false) as Hfalsy by by apply falsy_num_Some.
    exists account', (with_account userId account' db).
    split; [done|]. split_and!.
    + apply with_account_lookup.
    + done.
    + by destruct account.
    + unfold getTransferLimit, try_catch, bind, findByUserId.
      by rewrite with_account_lookup, Hlim, Hfalsy.
    + intros monto.
      unfold validateTransferLimit, getTransferLimit, try_catch, bind, findByUserId.
      by rewrite with_account_lookup, Hlim, Hfalsy.
  - intros Hle. unfold updateTransferLimit. apply Qleb_true in Hle. by rewrite Hle.
  - intros Hunset. unfold getTransferLimit, try_catch, bind, findByUserId.
    by rewrite Hacc, Hunset.
Qed.

End Core.

(** * Concrete runs *)

(** ** Balances *)

Lemma balance_never_negative_witness :
  balances_nonneg sample_db
  ∧ balances_nonneg
      (run false sample_addDays 5 (TransferFunds "tx" "u1" "u2" 400) sample_db)
  ∧ ∃ message,
      removeFunds false 5 "u1" 2000 sample_db
      = (inl (ValidationError message), sample_db).
Proof.
  assert (H : balances_nonneg sample_db).
  { apply balances_nonneg_checked. vm_compute. reflexivity. }
  destruct (balance_never_negative false sample_addDays sample_db H)
    as (Hrun & _ & Hremove & _).
  split_and!.
  - exact H.
  - apply Hrun.
  - apply (Hremove 5 "u1" (sample_account "u1" 1000) 2000%Q).
    + reflexivity.
    + vm_compute. reflexivity.
Defined.

(** ** Disbursing a credit twice *)



(** ** The schedule and the reported total *)



(** ** The daily limit *)



(** ** Login attempts *)


(** Five wrong passwords in a row, at times 1 to 5, then the right password
    at time 6: the sixth attempt is refused and changes nothing; a status
    check after the hour, at time 5 + 3600000, reopens the account. *)
Example five_failures_then_locked :
  let attempt now password db :=
    validateCredentials false sample_pbkdf2 now "u1" password db in
  let db5 :=
    snd (attempt 5 "wrong"
           (snd (attempt 4 "wrong"
                   (snd (attempt 3 "wrong"
                           (snd (attempt 2 "wrong"
                                   (snd (attempt 1 "wrong" (login_db 0))))))))))
  in
  user_accounts db5 !! "u1"
  = Some (UserAccount.mk "u1" None (Some "salt.secretsalt") false None 0 1000 None
            false None true 5 (Some (5 + 3600000)) None 5)
  ∧ attempt 6 "secret" db5
    = (inl (ValidationError [Str "Account is temporarily locked. Try again later."]),
       db5)
  ∧ fst (attempt 2 "secret" (snd (attempt 1 "wrong" (login_db 0)))) = inr true
  ∧ UserAccount.intentos_fallidos
      <$> user_accounts (snd (attempt 2 "secret" (snd (attempt 1 "wrong" (login_db 0)))))
          !! "u1"
    = Some 0
  ∧ fst (isAccountBlocked false (5 + 3600000) "u1" db5) = inr false
  ∧ UserAccount.bloqueado
      <$> user_accounts (snd (isAccountBlocked false (5 + 3600000) "u1" db5)) !! "u1"
    = Some false.
Proof. vm_compute. split_and!; reflexivity. Qed.

(** ** Password reset *)



(** Before its expiry the token works once: the second confirmation with the
    same token is refused. *)
Example reset_token_single_use :
  ∃ account' db',
    updatePasswordWithResetToken false sample_pbkdf2 50 "salt" "tok" "long enough"
      token_db = (inr account', db')
    ∧ UserAccount.password_hash account'
      = Some (hashPassword sample_pbkdf2 "salt" "long enough")
    ∧ updatePasswordWithResetToken false sample_pbkdf2 60 "salt" "tok" "another one" db'
      = (inl (ValidationError [Str "Invalid or expired password reset token"]), db').
Proof. eexists _, _. split_and!; vm_compute; reflexivity. Qed.

(** ** KYC approval *)

Lemma approveKYC_spec_witness :
  approveKYC false 5 "u1" kyc_db = updateKYCStatus false 5 "u1" KYCStatus.APROBADO kyc_db
  ∧ UserAccount.kyc_status (approved false 5 (sample_account "u1" 1000))
    = Some KYCStatus.APROBADO
  ∧ UserAccount.limite_transferencia (approved false 5 (sample_account "u1" 1000))
    = Some 50000%Q.
Proof.
  destruct (approveKYC_spec false 5 "u1" kyc_db (sample_account "u1" 1000))
    as (Hok & _).
  - reflexivity.
  - destruct Hok as (_ & Hrun & Hstatus & _ & Hlimit).
    + split.
      * eexists. split; [apply list_elem_of_here|]. split; reflexivity.
      * eexists. split; [apply list_elem_of_further, list_elem_of_here|].
        split; reflexivity.
    + split_and!; assumption.
Defined.

(** ** Fraud scoring *)


(** ** Insufficient balance *)


(** * Concrete runs of the further properties *)

(** ** Funds *)


Lemma transferFunds_missing_recipient_witness :
  ∃ response db',
    transferFunds false 0 "tx" "u1" "nobody" 300 sample_db = (inr response, db')
    ∧ BankingAPIResponse.exito response = false
    ∧ getBalance "u1" db' = (inr (1000 - 300)%Q, db').
Proof.
  eexists _, _. split.
  - apply (transferFunds_missing_recipient false 0 "tx" "u1" "nobody" 300 sample_db
             (sample_account "u1" 1000)).
    + reflexivity.
    + reflexivity.
    + reflexivity.
    + vm_compute. discriminate.
  - split; reflexivity.
Defined.

Lemma transferFunds_refused_witness :
  transferFunds false 0 "tx" "u2" "u1" 300 sample_db
  = (inr (BankingAPIResponse.mk false None 300 0 0
            (Some [Str "Sender has insufficient balance"])), sample_db)
  ∧ ∃ response,
      transferFunds false 0 "tx" "nobody" "u1" 300 sample_db = (inr response, sample_db)
      ∧ BankingAPIResponse.exito response = false.
Proof.
  destruct (transferFunds_refused false 0 "tx" "u2" "u1" 300 sample_db) as [Hshort _].
  destruct (transferFunds_refused false 0 "tx" "nobody" "u1" 300 sample_db) as [_ Hnone].
  split.
  - apply (Hshort (sample_account "u2" 0)); reflexivity.
  - eexists. split; [apply Hnone; reflexivity|reflexivity].
Defined.

Lemma processInstallmentPayment_spec_witness :
  processInstallmentPayment false 0 "tx" "u1" 400 sample_db
  = (inr (BankingAPIResponse.mk true (Some "tx") 400 0 (1000 - 400) None),
     with_account "u1" (rebalanced false 0 (1000 - 400) (sample_account "u1" 1000))
       sample_db)
  ∧ processInstallmentPayment false 0 "tx" "u1" 4000 sample_db
    = (inr (BankingAPIResponse.mk false None 4000 0 1000
              (Some [Str "Insufficient balance for payment"])), sample_db).
Proof.
  destruct (processInstallmentPayment_spec false 0 "tx" "u1" 400 sample_db
              (sample_account "u1" 1000) eq_refl) as (Hpaid & _).
  destruct (processInstallmentPayment_spec false 0 "tx" "u1" 4000 sample_db
              (sample_account "u1" 1000) eq_refl) as (_ & Hshort & _).
  split.
  - apply Hpaid; [reflexivity|vm_compute; discriminate].
  - apply Hshort. reflexivity.
Defined.


(** ** External accounts *)

Lemma valid_external_account_is_active_witness :
  isExternalAccountActive
    (CBUValidationResult.cbu (validateExternalAccount "0170 0999 2000 0012 3456 78"))
  = true.
Proof.
  apply (valid_external_account_is_active "0170 0999 2000 0012 3456 78").
  reflexivity.
Defined.

(** A CBU written with spaces is debited once and settled towards the
    cleaned number; a number of 9 digits is refused and nothing is written. *)
Example executeExternalTransfer_runs :
  executeExternalTransfer false 7 "id" "fail" "EXT7"
    (ExternalTransferRequest.mk "u1" "0170 0999 2000 0012 3456 78" None 400 (Some "rent"))
    sample_db
  = (inr (ExternalTransferResult.mk true "id" "Tu CBU" "0170099920000012345678" 400
            "EXT7" 7 TransferStatus.ACREDITADA None
            (Some (Comprobante.mk "EXT7" 7 (Some "rent")))),
     with_account "u1" (rebalanced false 7 (1000 - 400) (sample_account "u1" 1000))
       sample_db)
  ∧ ∃ result,
      executeExternalTransfer false 7 "id" "fail" "EXT7"
        (ExternalTransferRequest.mk "u1" "123456789" None 400 None) sample_db
      = (inr result, sample_db)
      ∧ ExternalTransferResult.exito result = false
      ∧ ExternalTransferResult.id_transferencia result = "fail".
Proof. split; [reflexivity|]. eexists. split_and!; reflexivity. Qed.

(** ** Passwords and locks *)

Lemma verifyPassword_round_trip_witness :
  verifyPassword sample_pbkdf2 "abc" (hashPassword sample_pbkdf2 "0f" "abc") = true
  ∧ verifyPassword sample_pbkdf2 "abd" (hashPassword sample_pbkdf2 "0f" "abc") ≠ true.
Proof.
  destruct (verifyPassword_round_trip sample_pbkdf2 "0f" "abc" "abd") as [Hsame Hother].
  - reflexivity.
  - reflexivity.
  - split; [exact Hsame|]. intros Hverify. apply Hother in Hverify. discriminate.
Defined.

Lemma used_reset_token_is_refused_witness :
  ∃ account' db',
    updatePasswordWithResetToken false sample_pbkdf2 50 "salt" "tok" "long enough" token_db
    = (inr account', db')
    ∧ ∃ message,
        updatePasswordWithResetToken false sample_pbkdf2 60 "salt" "tok" "another one" db'
        = (inl (ValidationError message), db').
Proof.
  eexists _, _. split; [vm_compute; reflexivity|].
  eapply (used_reset_token_is_refused false sample_pbkdf2 50 "salt" "tok" "long enough"
            token_db).
  vm_compute. reflexivity.
Defined.

Lemma reset_then_login_witness :
  ∃ account' db',
    updatePasswordWithResetToken false sample_pbkdf2 50 "0f" "tok" "deadbeef" token_db
    = (inr account', db')
    ∧ (∃ db'', validateCredentials false sample_pbkdf2 60 "u1" "deadbeef" db'
               = (inr true, db''))
    ∧ ∃ db'', validateCredentials false sample_pbkdf2 60 "u1" "deadbeee" db'
              = (inl (UnauthorizedError [Str "Invalid credentials"]), db'').
Proof.
  destruct (reset_then_login false sample_pbkdf2 50 60 "0f" "tok" "deadbeef" token_db
              (PasswordResetToken.mk "tok" "u1" 0 100 false None) (login_account 0))
    as (account' & db' & Hreset & Hlogin & Hother).
  - reflexivity.
  - reflexivity.
  - reflexivity.
  - reflexivity.
  - vm_compute. lia.
  - reflexivity.
  - reflexivity.
  - reflexivity.
  - exists account', db'. split_and!; [exact Hreset|exact Hlogin|].
    apply Hother. discriminate.
Defined.

Lemma manual_block_holds_witness :
  ∃ db1,
    blockAccount false 5 "u1" sample_db
    = (inr (blocked false 5 (sample_account "u1" 1000)), db1)
    ∧ isAccountBlocked false 999999999 "u1" db1 = (inr true, db1)
    ∧ validateCredentials false sample_pbkdf2 999999999 "u1" "secret" db1
      = (inl account_locked, db1).
Proof.
  destruct (manual_block_holds false sample_pbkdf2 5 "u1" sample_db
              (sample_account "u1" 1000)) as (Hblock & Hheld & _).
  - reflexivity.
  - reflexivity.
  - eexists. split; [exact Hblock|]. exact (Hheld 999999999 "secret").
Defined.

Lemma validateCredentials_nothing_to_check_witness :
  validateCredentials false sample_pbkdf2 0 "nobody" "secret" sample_db
  = (inl (user_not_found "nobody"), sample_db)
  ∧ validateCredentials false sample_pbkdf2 0 "u1" "secret" sample_db
    = (inl (NotFoundError [Str "Password not found for user"]), sample_db).
Proof.
  destruct (validateCredentials_nothing_to_check false sample_pbkdf2 0 "nobody" "secret"
              sample_db) as [Hnobody _].
  destruct (validateCredentials_nothing_to_check false sample_pbkdf2 0 "u1" "secret"
              sample_db) as [_ Hnopass].
  split.
  - apply Hnobody. reflexivity.
  - apply (Hnopass (sample_account "u1" 1000)); reflexivity.
Defined.

(** ** Credits *)



(** ** Accounts, tokens and documents *)

Lemma createUserAccount_spec_witness :
  (∃ account,
     createUserAccount 5 "u3" sample_db = (inr account, with_account "u3" account sample_db)
     ∧ UserAccount.saldo_disponible account = 0%Q
     ∧ UserAccount.bloqueado account = false)
  ∧ createUserAccount 5 "u1" sample_db
    = (inl (ValidationError [Str "User account "; Str "u1"; Str " already exists"]),
       sample_db).
Proof.
  destruct (createUserAccount_spec 5 "u3" sample_db) as [Hnew _].
  destruct (createUserAccount_spec 5 "u1" sample_db) as [_ Hold].
  split.
  - destruct Hnew as (account & Hrun & _ & Hsaldo & _ & _ & Hopen & _); [reflexivity|].
    by exists account.
  - apply (Hold (sample_account "u1" 1000)). reflexivity.
Defined.

Lemma reset_token_lifetime_witness :
  ∃ data db1,
    createPasswordResetToken 1000 "t2" "u1" sample_db = (inr data, db1)
    ∧ PasswordResetToken.fecha_vencimiento data = 1000 + 86400000
    ∧ (∃ account' db2,
         updatePasswordWithResetToken false sample_pbkdf2 86400999 "salt" "t2"
           "long enough" db1 = (inr account', db2))
    ∧ updatePasswordWithResetToken false sample_pbkdf2 86401000 "salt" "t2"
        "long enough" db1 = (inl invalid_reset_token, db1).
Proof.
  destruct (reset_token_lifetime false sample_pbkdf2 1000 "t2" "u1" sample_db)
    as [Hissue _].
  destruct (Hissue (sample_account "u1" 1000)) as (data & db1 & Hrun & _ & Hexp & Hlife).
  - reflexivity.
  - reflexivity.
  - exists data, db1. split_and!; [exact Hrun|exact Hexp| |].
    + destruct (Hlife 86400999 "salt" "long enough") as [Hbefore _].
      { vm_compute. lia. }
      destruct Hbefore as (account' & db2 & Hreset & _); [lia|].
      by exists account', db2.
    + destruct (Hlife 86401000 "salt" "long enough") as [_ Hafter].
      { vm_compute. lia. }
      apply Hafter. lia.
Defined.

Lemma upload_then_approve_witness :
  ∃ d1 db1 d2 db2 account db3,
    uploadKYCDocument 1 "d1" "u1" TipoDocumento.dni "https://docs/dni" sample_db
    = (inr d1, db1)
    ∧ uploadKYCDocument 2 "d2" "u1" TipoDocumento.selfie "https://docs/selfie" db1
      = (inr d2, db2)
    ∧ approveKYC false 3 "u1" db2 = (inr account, db3)
    ∧ UserAccount.kyc_completo account = true
    ∧ ∃ error, approveKYC false 3 "u1" db1 = (inl error, db1).
Proof.
  destruct (upload_then_approve false 1 2 3 "d1" "d2" "u1" "https://docs/dni"
              "https://docs/selfie" sample_db (sample_account "u1" 1000))
    as (Hdni & Hselfie & Happrove & Hearly).
  - reflexivity.
  - discriminate.
  - discriminate.
  - discriminate.
  - intros d Hd. by apply elem_of_nil in Hd.
  - eexists _, _, _, _, _, _. split_and!; [exact Hdni|exact Hselfie|exact Happrove|reflexivity|].
    eexists. apply Hearly. intros (d & Hd & _). by apply elem_of_nil in Hd.
Defined.


Lemma transfer_limit_round_trip_witness :
  (∃ account' db',
     updateTransferLimit false 4 "u1" 20000 sample_db = (inr account', db')
     ∧ getTransferLimit "u1" db' = (inr 20000%Q, db')
     ∧ validateTransferLimit "u1" 20001 db' = (inr false, db'))
  ∧ updateTransferLimit false 4 "u1" 0 sample_db
    = (inl (ValidationError [Str "Transfer limit must be greater than 0"]), sample_db)
  ∧ getTransferLimit "u1" sample_db = (inr 10000%Q, sample_db).
Proof.
  destruct (transfer_limit_round_trip false 4 "u1" 20000 sample_db
              (sample_account "u1" 1000) eq_refl) as (Hset & _ & Hunset).
  destruct (transfer_limit_round_trip false 4 "u1" 0 sample_db
              (sample_account "u1" 1000) eq_refl) as (_ & Hzero & _).
  split_and!.
  - destruct Hset as (account' & db' & Hrun & _ & _ & _ & Hget & Hvalidate); [reflexivity|].
    exists account', db'. split_and!; [exact Hrun|exact Hget|].
    exact (Hvalidate 20001%Q).
  - apply Hzero. vm_compute. discriminate.
  - apply Hunset. reflexivity.
Defined.

(** ** Eligibility *)

Lemma getDebtToIncomeRatio_spec_witness :
  getDebtToIncomeRatio "u1" sample_db = (inr 0%Q, sample_db)
  ∧ getDebtToIncomeRatio "nobody" sample_db = (inl (user_not_found "nobody"), sample_db)
  ∧ ∃ ratio, getDebtToIncomeRatio "u1" veteran_db = (inr ratio, veteran_db)
             ∧ (ratio == 0)%Q.
Proof.
  destruct (getDebtToIncomeRatio_spec "u1" sample_db) as [Hsome _].
  destruct (getDebtToIncomeRatio_spec "nobody" sample_db) as [_ Hnone].
  destruct (getDebtToIncomeRatio_spec "u1" veteran_db) as [Hveteran _].
  split_and!.
  - destruct (Hsome (sample_account "u1" 1000) eq_refl) as (ratio & Hrun & Hzero & _).
    rewrite <- (Hzero eq_refl). exact Hrun.
  - apply Hnone. reflexivity.
  - destruct (Hveteran (veteran_account "u1") eq_refl) as (ratio & Hrun & _ & Hzero).
    exists ratio. split; [exact Hrun|]. apply Hzero.
    intros (id & credit & Hc & _). vm_compute in Hc. discriminate.
Defined.

(** A debt of 1200 a month on an income of 1000 is a ratio of 120. *)
Example getDebtToIncomeRatio_indebted :
  getDebtToIncomeRatio "u1" indebted_db = (inr (1200 / 1 / 1000 * 100)%Q, indebted_db)
  ∨ ∃ ratio, getDebtToIncomeRatio "u1" indebted_db = (inr ratio, indebted_db)
             ∧ (ratio == 120)%Q.
Proof. right. eexists. split; [vm_compute; reflexivity|]. reflexivity. Qed.

(** Forty days after registration the veteran is eligible for both kinds of
    credit; twenty days after, not for a Quick one; with a credit in
    progress, for neither. *)
Example eligibility_runs :
  validateQuickCreditEligibility sample_config day40 "u1" veteran_db
  = (inr (CreditEligibility.mk true None (Some 50000%Q)), veteran_db)
  ∧ validateQuickCreditEligibility sample_config (day40 `div` 2) "u1" veteran_db
    = (inr (CreditEligibility.mk false
              (Some [Str "Account must be at least 30 days old. Current age: ";
                     Num (inject_Z 20); Str " days"]) None), veteran_db)
  ∧ validateQuickCreditEligibility sample_config day40 "u1" indebted_db
    = (inr (CreditEligibility.mk false
              (Some [Str "Debt-to-income ratio exceeds 40%. Current ratio: ";
                     Str "120.00"; Str "%"]) None), indebted_db)
  ∧ validateNormalCreditEligibility sample_config "u1" veteran_db
    = (inr (CreditEligibilityTerms.mk
              (CreditEligibility.mk true None (Some 250000%Q)) (Some 3%Q) (Some 12%Q)),
       veteran_db)
  ∧ validateNormalCreditEligibility sample_config "u1" indebted_db
    = (inr (CreditEligibilityTerms.mk
              (CreditEligibility.mk false (Some [Str "User has unpaid credits"]) None)
              None None), indebted_db)
  ∧ validateQuickCreditEligibility sample_config day40 "nobody" veteran_db
    = (inr (CreditEligibility.mk false
              (Some (Str "Eligibility check failed: "
                     :: error_toString (user_not_found "nobody"))) None), veteran_db).
Proof. split_and!; vm_compute; reflexivity. Qed.

(** An eligible user's request stores the credit; the same request by a user
    without KYC is refused and nothing is written. *)
Example requestQuickCredit_runs :
  (∃ response db',
     requestQuickCredit sample_addDays sample_config day40 "c2" (λ k, "q" +:+ pretty k)
       (CreditsBody.mk (Some "u1") (Some 1000%Q) (Some 30%Q) None) veteran_db
     = (inr (201, response), db')
     ∧ field "id_credito" (field "credito" response) = JStr "c2"
     ∧ field "estado" (field "credito" response) = JStr "preaprobado"
     ∧ (Credit.estado <$> creditos db' !! "c2") = Some CreditStatus.PREAPPROVED)
  ∧ requestQuickCredit sample_addDays sample_config day40 "c2" (λ k, "q" +:+ pretty k)
      (CreditsBody.mk (Some "u1") (Some 1000%Q) (Some 30%Q) None) sample_db
    = (inl (ValidationError [Str "Not eligible for quick credit: ";
                             Str "KYC not completed"]), sample_db).
Proof.
  split.
  - eexists _, _. split_and!; vm_compute; reflexivity.
  - vm_compute. reflexivity.
Qed.


(** ** Transfers *)

Lemma getTransferDetail_access_witness :
  getTransferDetail "t1" "u2" transfers_db = (inr sample_transfer, transfers_db)
  ∧ Transfer.usuario_id_destino sample_transfer = Some "u2"
  ∧ getTransferDetail "t1" "u3" transfers_db
    = (inl (ValidationError [Str "User does not have access to this transfer"]),
       transfers_db).
Proof.
  destruct (getTransferDetail_access "t1" "u2" transfers_db sample_transfer transfers_db)
    as (_ & _ & _ & Hwho).
  - reflexivity.
  - split_and!; [reflexivity| |reflexivity].
    destruct Hwho as [Horigin|Hdestino]; [discriminate Horigin|exact Hdestino].
Defined.

Lemma maskCBU_spec_witness :
  maskCBU "0170099920000012345678" = "******************5678"
  ∧ String.length (maskCBU "0170099920000012345678") = 22%nat
  ∧ maskCBU "123" = "****".
Proof.
  destruct (maskCBU_spec "0170099920000012345678") as [Hlong _].
  destruct (maskCBU_spec "123") as [_ Hshort].
  split_and!.
  - reflexivity.
  - destruct Hlong as [Hlen _]; [vm_compute; lia|]. exact Hlen.
  - apply Hshort. vm_compute. lia.
Defined.

Lemma limits_agree_with_preview_witness :
  (∃ limits, getTransferLimits 0 "u1" transfers_db = (inr limits, transfers_db)
             ∧ field "limite_actual" limits = JNum 10000
             ∧ field "usado_hoy" limits = JNum (0 + 250))
  ∧ (∃ response,
       checkLimitsPreview 0 (Body.mk (Some "u1") None None (Some 9750%Q) None) transfers_db
       = (inr response, transfers_db)
       ∧ field "puede_transferir" response = JBool true)
  ∧ ∃ response,
      checkLimitsPreview 0 (Body.mk (Some "u1") None None (Some 9751%Q) None) transfers_db
      = (inr response, transfers_db)
      ∧ field "puede_transferir" response = JBool false
      ∧ field "code" response = JStr "LIMITE_EXCEDIDO".
Proof.
  destruct (limits_agree_with_preview 0 "u1" transfers_db (sample_account "u1" 1000)
              (0 + 250)%Q) as (Hlimits & _ & Hpreview).
  - discriminate.
  - reflexivity.
  - reflexivity.
  - split_and!.
    + eexists. split; [exact Hlimits|]. split; reflexivity.
    + destruct (Hpreview 9750%Q eq_refl) as [Haccept _].
      eexists. split; [apply Haccept; vm_compute; discriminate|reflexivity].
    + destruct (Hpreview 9751%Q eq_refl) as [_ Hrefuse].
      destruct Hrefuse as (response & Hrun & Hputs & Hcode & _); [reflexivity|].
      by exists response.
Defined.

